(** * Anime & Manga Explorer API: validation, persistence and response shaping

    A shallow embedding of the request path of the service
    (src/routes/anime.js, manga.js, users.js, watchlists.js,
    src/db/connect.js, src/middleware/auth.js and the error handler of
    server.js), followed by the properties of that code.

    The service is glue over three libraries.  Their documented behaviour
    on the calls the routes make is written out here as plain functions:
      - [Js]    : JavaScript values and the few built-ins the code calls;
      - [Zod]   : the schema combinators of zod 3 used by the four schemas;
      - [Mongo] : [ObjectId] on a string (bson 6) and the five collection
                  calls of the driver.
    What the libraries compute by means that are not reproduced here (the
    e-mail pattern, [new URL], string-to-number conversion, token
    verification) is a [Variable] of the section that uses it. *)

From Stdlib Require Import ZArith String Ascii List Bool Lia.
From Stdlib Require Import Floats.PrimFloat Floats.FloatOps Floats.SpecFloat.
From stdpp Require Import base option gmap strings list fin_maps pretty.

Local Open Scope string_scope.
Local Open Scope list_scope.

(* ===================================================================== *)
(** ** JavaScript values *)
(* ===================================================================== *)

Module Js.

(** A value as a route sees it: what [express.json()] puts in [req.body],
    what zod returns and what the driver stores.  Numbers are binary64
    floats.  A string is a sequence of code units, one [ascii] each. *)
#[warnings="-register-all"]
Inductive value : Type :=
| VUndefined
| VNull
| VBool (b : bool)
| VNum (n : float)
| VStr (s : string)
| VArr (items : list value)
| VObj (props : gmap string value)
| VDate (t : Z).

(** [data[key]]: reading a missing property gives [undefined]. *)
Definition get (props : gmap string value) (key : string) : value :=
  default VUndefined (props !! key).

(** [key in data]. *)
Definition has (props : gmap string value) (key : string) : bool :=
  bool_decide (is_Some (props !! key)).

(** [{...v}]: the own properties of an object. *)
Definition spread (v : value) : gmap string value :=
  match v with
  | VObj props => props
  | _ => ∅
  end.

(** Truthiness of [process.env.X] and of a string argument: [undefined]
    and the empty string are falsy. *)
Definition truthy (s : option string) : bool :=
  match s with
  | Some s => negb (String.eqb s "")
  | None => false
  end.

(** [a || b] on optional strings. *)
Definition or_else (a b : option string) : option string :=
  if truthy a then a else b.

(** White space removed by [String.prototype.trim], among code units
    below 256: TAB, LF, VT, FF, CR, SPACE and NBSP. *)
Definition whitespace (c : ascii) : bool :=
  let n := nat_of_ascii c in
  ((9 <=? n) && (n <=? 13) || (n =? 32) || (n =? 160))%nat.

Fixpoint trimStart (s : string) : string :=
  match s with
  | String c rest => if whitespace c then trimStart rest else s
  | EmptyString => EmptyString
  end.

Fixpoint trimEnd (s : string) : string :=
  match s with
  | String c rest =>
      let t := trimEnd rest in
      if whitespace c && String.eqb t "" then "" else String c t
  | EmptyString => EmptyString
  end.

Definition trim (s : string) : string := trimEnd (trimStart s).

Definition lower (c : ascii) : ascii :=
  let n := nat_of_ascii c in
  if ((65 <=? n) && (n <=? 90))%nat then ascii_of_nat (n + 32) else c.

(** [String.prototype.toLowerCase] on the letters A-Z. *)
Fixpoint toLowerCase (s : string) : string :=
  match s with
  | String c rest => String (lower c) (toLowerCase rest)
  | EmptyString => EmptyString
  end.

Definition is_hex (c : ascii) : bool :=
  let n := nat_of_ascii c in
  ((48 <=? n) && (n <=? 57) || (65 <=? n) && (n <=? 70)
   || (97 <=? n) && (n <=? 102))%nat.

(** [/^[0-9a-fA-F]{24}$/.test(s)]. *)
Definition hex24 (s : string) : bool :=
  (String.length s =? 24)%nat && forallb is_hex (list_ascii_of_string s).

(** Exactly 24 hexadecimal characters, in either case. *)
Definition hexdigits : list ascii :=
  list_ascii_of_string "0123456789abcdefABCDEF".

Definition Hex24 (s : string) : Prop :=
  String.length s = 24%nat
  /\ Forall (fun c => In c hexdigits) (list_ascii_of_string s).

(** [Number.isInteger]: finite and without fractional part. *)
Definition isInteger (x : float) : bool :=
  match Prim2SF x with
  | S754_zero _ => true
  | S754_finite _ m e => (0 <=? e)%Z || (Z.pos m mod 2 ^ (- e) =? 0)%Z
  | _ => false
  end.

Section Coercion.
(** [StringToNumber] of the language ([NaN] when the text is not a
    numeric literal) and the conversion of arrays, objects and dates to
    a number, which goes through their primitive value. *)
Variable StringToNumber : string -> float.
Variable ObjectToNumber : value -> float.

(** [Number(v)]. *)
Definition Number (v : value) : float :=
  match v with
  | VUndefined => nan
  | VNull => 0%float
  | VBool b => if b then 1%float else 0%float
  | VNum n => n
  | VStr s => StringToNumber s
  | VArr _ | VObj _ | VDate _ => ObjectToNumber v
  end.
End Coercion.

(** An [Error] object with the two fields the error handler reads. *)
Record Error := mkError {
  message : string;
  statusCode : option Z;
  expose : option bool
}.

Definition new_Error (msg : string) : Error :=
  {| message := msg; statusCode := None; expose := None |}.

End Js.

Export Js.

(* ===================================================================== *)
(** ** zod: the combinators the schemas use *)
(* ===================================================================== *)

Module Zod.

Inductive PathSeg := PKey (key : string) | PIndex (i : nat).

Inductive ZodIssueCode :=
| invalid_type | too_small | too_big | invalid_string | invalid_enum_value.

(** An issue.  [msg] is the message given in the schema, [None] when the
    library words it. *)
Record ZodIssue := mkIssue {
  code : ZodIssueCode;
  path : list PathSeg;
  msg : option string
}.

Definition issue (c : ZodIssueCode) : ZodIssue :=
  {| code := c; path := []; msg := None |}.

(** The path of an issue raised below a key or index starts with it. *)
Definition under (seg : PathSeg) (i : ZodIssue) : ZodIssue :=
  {| code := code i; path := seg :: path i; msg := msg i |}.

(** Result of [_parse]: [INVALID] (aborted) or a value.  The value is
    dirty exactly when issues come with it. *)
Inductive ParseReturn := INVALID | OK (v : value).

Definition Parsed : Type := ParseReturn * list ZodIssue.

(** A schema is its [_parse]; issue paths are relative to its input. *)
Definition ZodType : Type := value -> Parsed.

(** *** ZodString *)

Inductive StringCheck :=
| s_min (n : nat)
| s_max (n : nat)
| s_trim
| s_test (accepts : string -> bool) (m : option string).

(** The checks run in the order they were chained; [trim] rewrites the
    data the later checks and the result see. *)
Fixpoint string_checks (checks : list StringCheck) (data : string)
  : string * list ZodIssue :=
  match checks with
  | [] => (data, [])
  | s_min n :: rest =>
      let r := string_checks rest data in
      (r.1, (if (String.length data <? n)%nat then [issue too_small] else []) ++ r.2)
  | s_max n :: rest =>
      let r := string_checks rest data in
      (r.1, (if (n <? String.length data)%nat then [issue too_big] else []) ++ r.2)
  | s_trim :: rest => string_checks rest (trim data)
  | s_test accepts m :: rest =>
      let r := string_checks rest data in
      (r.1, (if accepts data then []
             else [{| code := invalid_string; path := []; msg := m |}]) ++ r.2)
  end.

Definition z_string (checks : list StringCheck) : ZodType := fun data =>
  match data with
  | VStr s => let r := string_checks checks s in (OK (VStr r.1), r.2)
  | _ => (INVALID, [issue invalid_type])
  end.

(** [.regex(/^[0-9a-fA-F]{24}$/, m)] is [s_test hex24 (Some m)]. *)

(** *** ZodNumber *)

Inductive NumberCheck :=
| n_int
| n_gte (v : float)
| n_lte (v : float).

(** [.min(v)] and [.max(v)] on a number are [.gte(v)] and [.lte(v)]. *)
Definition n_min := n_gte.
Definition n_max := n_lte.

Definition number_check (data : float) (c : NumberCheck) : list ZodIssue :=
  match c with
  | n_int => if isInteger data then [] else [issue invalid_type]
  | n_gte v => if (data <? v)%float then [issue too_small] else []
  | n_lte v => if (v <? data)%float then [issue too_big] else []
  end.

Section Number.
Variable StringToNumber : string -> float.
Variable ObjectToNumber : value -> float.

Definition ZodNumber (coerce : bool) (checks : list NumberCheck) : ZodType :=
  fun data =>
    let data :=
      if coerce then VNum (Number StringToNumber ObjectToNumber data)
      else data in
    match data with
    | VNum n =>
        if is_nan n then (INVALID, [issue invalid_type])
        else (OK (VNum n), flat_map (number_check n) checks)
    | _ => (INVALID, [issue invalid_type])
    end.

(** [z.coerce.number()] *)
Definition z_coerce_number := ZodNumber true.
End Number.

(** [z.number()]: no coercion, so the conversions are never called. *)
Definition z_number (checks : list NumberCheck) : ZodType :=
  ZodNumber (fun _ => nan) (fun _ => nan) false checks.

(** *** ZodEnum *)

Definition z_enum (values : list string) : ZodType := fun data =>
  match data with
  | VStr s =>
      if bool_decide (s ∈ values) then (OK data, [])
      else (INVALID, [issue invalid_enum_value])
  | _ => (INVALID, [issue invalid_type])
  end.

(** *** ZodOptional, ZodDefault *)

Definition z_optional (inner : ZodType) : ZodType := fun data =>
  match data with
  | VUndefined => (OK VUndefined, [])
  | _ => inner data
  end.

Definition z_default (inner : ZodType) (defaultValue : value) : ZodType :=
  fun data =>
    match data with
    | VUndefined => inner defaultValue
    | _ => inner data
    end.

(** *** ZodArray *)

(** [ParseStatus.mergeArray]: aborted as soon as one element is. *)
Fixpoint mergeArray (results : list ParseReturn) : option (list value) :=
  match results with
  | [] => Some []
  | INVALID :: _ => None
  | OK v :: rest => cons v <$> mergeArray rest
  end.

(** [z.array(type).min(n)] is [z_array type (Some n)]. *)
Definition z_array (type : ZodType) (minLength : option nat) : ZodType :=
  fun data =>
    match data with
    | VArr items =>
        let short :=
          match minLength with
          | Some n => if (length items <? n)%nat then [issue too_small] else []
          | None => []
          end in
        let results := imap (fun i item =>
                               let r := type item in
                               (r.1, under (PIndex i) <$> r.2)) items in
        (match mergeArray (fst <$> results) with
         | Some vs => OK (VArr vs)
         | None => INVALID
         end,
         short ++ concat (snd <$> results))
    | _ => (INVALID, [issue invalid_type])
    end.

(** *** ZodObject *)

Definition Shape : Type := list (string * ZodType).

(** One entry of [pairs]: the key, the result of its validator on
    [data[key]], and [alwaysSet = key in data]. *)
Definition Pair : Type := string * Parsed * bool.

Definition pairs_of (shape : Shape) (props : gmap string value) : list Pair :=
  (fun kv : string * ZodType =>
     (kv.1, kv.2 (get props kv.1), has props kv.1)) <$> shape.

(** [ParseStatus.mergeObjectSync]. *)
Fixpoint mergeObjectSync (finalObject : gmap string value) (pairs : list Pair)
  : ParseReturn :=
  match pairs with
  | [] => OK (VObj finalObject)
  | (key, (INVALID, _), _) :: _ => INVALID
  | (key, (OK v, _), alwaysSet) :: rest =>
      let defined := match v with VUndefined => false | _ => true end in
      if negb (String.eqb key "__proto__") && (defined || alwaysSet)
      then mergeObjectSync (<[key := v]> finalObject) rest
      else mergeObjectSync finalObject rest
  end.

Definition pair_key (p : Pair) : string := p.1.1.

Definition pair_issues (p : Pair) : list ZodIssue :=
  under (PKey (pair_key p)) <$> p.1.2.2.

(** [z.object(shape)]: every key of the shape is validated, whatever the
    others gave; keys of the data outside the shape are not looked at
    (the default [strip] policy). *)
Definition z_object (shape : Shape) : ZodType := fun data =>
  match data with
  | VObj props =>
      let pairs := pairs_of shape props in
      (mergeObjectSync ∅ pairs, concat (pair_issues <$> pairs))
  | _ => (INVALID, [issue invalid_type])
  end.

(** Two pairs with the same key and result, and the same [alwaysSet]
    where it is read (the validator returned [undefined]). *)
Definition same_outcome (p p' : Pair) : Prop :=
  p.1 = p'.1
  /\ match p.1.2.1 with
     | OK VUndefined => p.2 = p'.2
     | _ => True
     end.

(** *** parse and ZodError *)

Inductive Exn :=
| Thrown (e : Error)
| ZodError (issues : list ZodIssue).

(** [schema.parse(data)]: the value when the status is valid, else throws
    a [ZodError] carrying every issue that was raised. *)
Definition parse (schema : ZodType) (data : value) : Exn + value :=
  match schema data with
  | (OK v, []) => inr v
  | (INVALID, []) =>
      inl (Thrown (new_Error "Validation failed but no issues detected."))
  | (_, issues) => inl (ZodError issues)
  end.

(** [err.flatten()].  Each list holds the issues whose messages the
    library would print, in the order they were raised. *)
Record Flattened := mkFlattened {
  formErrors : list ZodIssue;
  fieldErrors : gmap string (list ZodIssue)
}.

Definition property_key (seg : PathSeg) : string :=
  match seg with
  | PKey key => key
  | PIndex i => pretty i
  end.

Definition flatten_step (acc : Flattened) (sub : ZodIssue) : Flattened :=
  match path sub with
  | seg :: _ =>
      let key := property_key seg in
      {| formErrors := formErrors acc;
         fieldErrors :=
           <[key := default [] (fieldErrors acc !! key) ++ [sub]]> (fieldErrors acc) |}
  | [] =>
      {| formErrors := formErrors acc ++ [sub];
         fieldErrors := fieldErrors acc |}
  end.

Definition flatten (issues : list ZodIssue) : Flattened :=
  fold_left flatten_step issues {| formErrors := []; fieldErrors := ∅ |}.

(** The issue was raised at or below the property [key] of the data. *)
Definition at_key (key : string) (i : ZodIssue) : bool :=
  match path i with
  | seg :: _ => String.eqb (property_key seg) key
  | [] => false
  end.

End Zod.

Export Zod.

(* ===================================================================== *)
(** ** mongodb: identifiers and collections *)
(* ===================================================================== *)

Module Mongo.

(** An [ObjectId] is twelve bytes; it is represented by its
    [toHexString()], 24 lower-case hexadecimal digits, so that two ids are
    equal exactly when their bytes are. *)
Abbreviation ObjectId := string (only parsing).

(** [new ObjectId(id)] on a string: the bytes written by 24 hexadecimal
    digits, in either case; any other string throws. *)
Definition new_ObjectId (id : string) : Error + ObjectId :=
  if hex24 id then inr (toLowerCase id)
  else inl (new_Error
    "input must be a 24 character hex string, 12 byte Uint8Array, or an integer").

(** A stored document, without its [_id], which is the key it is stored
    under. *)
Abbreviation Document := (gmap string value) (only parsing).
Abbreviation Collection := (gmap string (gmap string value)) (only parsing).

(** The collections of the database, by name. *)
Abbreviation Database :=
  (gmap string (gmap string (gmap string value))) (only parsing).

Definition collection_of (data : Database) (name : string) : Collection :=
  default ∅ (data !! name).

Record InsertOneResult := { insertedId : ObjectId }.
Record UpdateResult := { matchedCount : nat }.
Record DeleteResult := { deletedCount : nat }.

(** [find({}).toArray()] *)
Definition find_all (data : Database) (coll : string)
  : list (ObjectId * Document) :=
  map_to_list (collection_of data coll).

(** [findOne({ _id })] *)
Definition find_one (data : Database) (coll : string) (_id : ObjectId)
  : option Document :=
  collection_of data coll !! _id.

(** [insertOne(doc)] for a document without [_id]: the driver gives it the
    identifier [fresh] it has just generated.  The server refuses a
    duplicate key. *)
Definition insert_one (fresh : ObjectId) (data : Database) (coll : string)
  (doc : Document) : Error + (InsertOneResult * Database) :=
  match collection_of data coll !! fresh with
  | Some _ => inl (new_Error "E11000 duplicate key error")
  | None =>
      inr ({| insertedId := fresh |},
           <[coll := <[fresh := doc]> (collection_of data coll)]> data)
  end.

(** [replaceOne({ _id }, doc)] without upsert: the matched document is
    replaced as a whole, its [_id] apart. *)
Definition replace_one (data : Database) (coll : string) (_id : ObjectId)
  (doc : Document) : UpdateResult * Database :=
  match collection_of data coll !! _id with
  | Some _ =>
      ({| matchedCount := 1 |},
       <[coll := <[_id := doc]> (collection_of data coll)]> data)
  | None => ({| matchedCount := 0 |}, data)
  end.

(** [deleteOne({ _id })] *)
Definition delete_one (data : Database) (coll : string) (_id : ObjectId)
  : DeleteResult * Database :=
  match collection_of data coll !! _id with
  | Some _ =>
      ({| deletedCount := 1 |},
       <[coll := delete _id (collection_of data coll)]> data)
  | None => ({| deletedCount := 0 |}, data)
  end.

Record MongoClient := { uri : string }.

(** [client.db(dbName)] *)
Record Db := { client_of : MongoClient; databaseName : string }.

End Mongo.

Export Mongo.

(* ===================================================================== *)
(** ** express: requests, responses, middleware *)
(* ===================================================================== *)

Module Express.

(** What a route reads of [req]: [req.params.id], [req.body] and
    [req.is(type)] ([req_is]), truthy when the request has a body of that media
    type. *)
Record Request := {
  params_id : string;
  body : value;
  req_is : string -> bool
}.

Inductive Body :=
| Empty
| Msg (message : string)
| Invalid (message : string) (errors : Flattened)
| Doc (_id : ObjectId) (doc : Document)
| Docs (docs : list (ObjectId * Document))
| NewId (id : string).

Record Response := {
  status : Z;
  location : option string;
  sent : Body
}.

(** [res.status(code).json(b)], [res.status(code).send()] *)
Definition json (code : Z) (b : Body) : Response :=
  {| status := code; location := None; sent := b |}.

(** [res.status(code).location(url).json(b)] *)
Definition json_at (code : Z) (url : string) (b : Body) : Response :=
  {| status := code; location := Some url; sent := b |}.

(** What a middleware does with a request: it answers, it calls [next()]
    and so hands the request on, or it calls [next(err)]. *)
Inductive Outcome :=
| Answered (res : Response)
| Passed (req : Request)
| Failed (err : Exn).

Definition Middleware : Type := Request -> Outcome.

End Express.

Export Express.

(* ===================================================================== *)
(** ** src/db/connect.js *)
(* ===================================================================== *)

Module Connect.

(** What the service itself prints while it runs: the two [console.log]
    lines of connect.js, the line of server.js when it starts to listen,
    and the [console.error(err)] of its error handler.  (The access log
    that morgan writes is not part of it.) *)
Inductive LogLine :=
| Connecting
| Connected (name : string)
| Serving (port : string)
| Errored (err : Exn).

(** The module variables [client] and [db], the console, and the contents
    of the database the service talks to. *)
Record World := {
  client : option MongoClient;
  db : option Db;
  console : list LogLine;
  data : Database
}.

(** A computation that reads and writes the world and may throw. *)
Definition M (A : Type) : Type := World -> (Exn + A) * World.

Definition ret {A} (a : A) : M A := fun w => (inr a, w).

Definition throw {A} (e : Exn) : M A := fun w => (inl e, w).

Definition bind {A B} (m : M A) (k : A -> M B) : M B := fun w =>
  match m w with
  | (inr a, w') => k a w'
  | (inl e, w') => (inl e, w')
  end.

(** [try { m } catch (err) { h err }] *)
Definition try_catch {A} (m : M A) (h : Exn -> M A) : M A := fun w =>
  match m w with
  | (inl e, w') => h e w'
  | r => r
  end.

(** A pure call that may throw. *)
Definition lift {A} (r : Exn + A) : M A :=
  match r with
  | inr a => ret a
  | inl e => throw e
  end.

Definition set_client (c : MongoClient) : M unit := fun w =>
  (inr tt, {| client := Some c; db := db w; console := console w; data := data w |}).

Definition set_db (d : Db) : M unit := fun w =>
  (inr tt, {| client := client w; db := Some d; console := console w; data := data w |}).

Definition log (l : LogLine) : M unit := fun w =>
  (inr tt, {| client := client w; db := db w; console := console w ++ [l]; data := data w |}).

(** The world after the database has changed to [d]. *)
Definition with_data (w : World) (d : Database) : World :=
  {| client := client w; db := db w; console := console w; data := d |}.

Definition set_data (d : Database) : M unit := fun w => (inr tt, with_data w d).

End Connect.

Export Connect.

Notation "'let*' x ':=' m 'in' k" := (bind m (fun x => k))
  (at level 10, x name, m at level 99, k at level 200).
Notation "m ';;;' k" := (bind m (fun _ => k))
  (at level 100, k at level 200).

Module ConnectJs.

Section Client.
(** [new MongoClient(uri, options)] does not throw: the driver parses the
    connection string in the constructor and throws on one it cannot
    read. *)
Variable is_connection_string : string -> bool.

(** [new MongoClient(uri, options)] *)
Definition new_MongoClient (uri : string) : Exn + MongoClient :=
  if is_connection_string uri then inr {| uri := uri |}
  else inl (Thrown (new_Error "MongoParseError")).

(** [connectToDb(uri, dbName)].  [up] tells whether [client.connect()] and
    the ping of this attempt go through.  The client is built, and
    assigned, before the first line is printed; a constructor that throws
    leaves [client] as it was and prints nothing. *)
Definition connectToDb (up : bool) (uri dbName : option string) : M Db :=
  if negb (truthy uri) then throw (Thrown (new_Error "MONGODB_URI missing"))
  else if negb (truthy dbName) then throw (Thrown (new_Error "DB_NAME missing"))
  else fun w =>
    match db w with
    | Some d => ret d w
    | None =>
        (let* c := lift (new_MongoClient (default "" uri)) in
         set_client c ;;;
         log Connecting ;;;
         (if up then ret tt
          else throw (Thrown (new_Error "MongoServerSelectionError"))) ;;;
         let d := {| client_of := c; databaseName := default "" dbName |} in
         set_db d ;;;
         log (Connected (databaseName d)) ;;;
         ret d) w
    end.
End Client.

Definition getDb : M Db := fun w =>
  match db w with
  | Some d => ret d w
  | None =>
      throw (Thrown (new_Error "DB not initialized. Call connectToDb first.")) w
  end.

(** [db.collection(name)]: the handle is the name. *)
Definition collection (_ : Db) (name : string) : string := name.

(** The driver calls, run against the contents of the database. *)
Definition find (coll : string) : M (list (ObjectId * Document)) := fun w =>
  ret (find_all (data w) coll) w.

Definition findOne (coll : string) (_id : ObjectId) : M (option Document) :=
  fun w => ret (find_one (data w) coll _id) w.

Definition insertOne (fresh : ObjectId) (coll : string) (doc : Document)
  : M InsertOneResult := fun w =>
  match insert_one fresh (data w) coll doc with
  | inl e => throw (Thrown e) w
  | inr (result, d) => (set_data d ;;; ret result) w
  end.

Definition replaceOne (coll : string) (_id : ObjectId) (doc : Document)
  : M UpdateResult := fun w =>
  let r := replace_one (data w) coll _id doc in
  (set_data r.2 ;;; ret r.1) w.

Definition deleteOne (coll : string) (_id : ObjectId) : M DeleteResult :=
  fun w =>
  let r := delete_one (data w) coll _id in
  (set_data r.2 ;;; ret r.1) w.

End ConnectJs.

Export ConnectJs.

(* ===================================================================== *)
(** ** src/middleware/auth.js *)
(* ===================================================================== *)

Module Auth.

(** [process.env] *)
Abbreviation Env := (gmap string string) (only parsing).

Record AuthOptions := {
  audience : option string;
  issuerBaseURL : option string;
  tokenSigningAlg : string
}.

Definition AUTH_DISABLED (env : Env) : bool :=
  String.eqb
    (toLowerCase (default "" (or_else (env !! "AUTH_DISABLE") (Some ""))))
    "true".

Definition hasAuthConfig (env : Env) : bool :=
  truthy (env !! "AUTH0_AUDIENCE")
  && (truthy (env !! "AUTH0_ISSUER_BASE_URL") || truthy (env !! "AUTH0_DOMAIN")).

Definition ISSUER_BASE_URL (env : Env) : option string :=
  or_else (env !! "AUTH0_ISSUER_BASE_URL")
    (if truthy (env !! "AUTH0_DOMAIN")
     then Some ("https://" +:+ default "" (env !! "AUTH0_DOMAIN"))
     else None).

Definition noop : Middleware := fun req => Passed req.

Section Gate.
(** [auth] and [requiredScopes] of express-oauth2-jwt-bearer. *)
Variable auth : AuthOptions -> Middleware.
Variable requiredScopes : string -> Middleware.

Definition jwtCheck (env : Env) : Middleware :=
  if hasAuthConfig env && negb (AUTH_DISABLED env)
  then auth {| audience := env !! "AUTH0_AUDIENCE";
               issuerBaseURL := ISSUER_BASE_URL env;
               tokenSigningAlg := "RS256" |}
  else noop.

Definition reqScopes (env : Env) (scopes : string) : Middleware :=
  if hasAuthConfig env && negb (AUTH_DISABLED env)
  then requiredScopes scopes
  else noop.

Definition needWrite (env : Env) : Middleware := reqScopes env "write:library".
Definition needRead (env : Env) : Middleware := reqScopes env "read:library".
End Gate.

End Auth.

(* ===================================================================== *)
(** ** server.js: the error handler *)
(* ===================================================================== *)

Module Server.

Definition exn_message (err : Exn) : string :=
  match err with
  | Thrown e => message e
  | ZodError _ => "ZodError"
  end.

Definition exn_statusCode (err : Exn) : option Z :=
  match err with
  | Thrown e => statusCode e
  | ZodError _ => None
  end.

Definition exn_expose (err : Exn) : option bool :=
  match err with
  | Thrown e => expose e
  | ZodError _ => None
  end.

(** What the error handler sends for [err]. *)
Definition error_response (err : Exn) : Response :=
  let status :=
    match exn_statusCode err with
    | Some c => if (c =? 0)%Z then 500%Z else c
    | None => 500%Z
    end in
  let expose := default false (exn_expose err) in
  json status (Msg (if expose then exn_message err else "Internal Server Error")).

(** [app.use((err, _req, res, _next) => ...)]: the handler prints the
    error with [console.error(err)] and then answers. *)
Definition errorHandler (err : Exn) : M Response :=
  log (Errored err) ;;;
  ret (error_response err).

(** [next(err)] from a route ends in the error handler. *)
Definition next (err : Exn) : M Response := errorHandler err.

(** The world after [console.error(err)]. *)
Definition logged (err : Exn) (w : World) : World :=
  {| client := client w; db := db w; console := console w ++ [Errored err];
     data := data w |}.

(** A request that ended in [next(err)]: the answer of the error handler
    and the world it leaves. *)
Definition failed (err : Exn) (w : World) : Response * World :=
  (error_response err, logged err w).

(** What the handler needs from outside at one request: the clock read by
    [new Date()] and the identifier the driver generates on insert. *)
Record Sys := {
  now : Z;
  fresh : ObjectId
}.

End Server.

Export Server.

(* ===================================================================== *)
(** ** src/routes/anime.js *)
(* ===================================================================== *)

Module Anime.
Section Routes.
Variable currentYear : float.
Variable StringToNumber : string -> float.
Variable ObjectToNumber : value -> float.
(** [new URL(s)] does not throw. *)
Variable is_url : string -> bool.

Let coerce_number := z_coerce_number StringToNumber ObjectToNumber.

(** The argument of [z.object], which zod keeps as [AnimeSchema.shape]. *)
Definition AnimeShape : Shape := [
  ("title", z_string [s_trim; s_min 1]);
  ("genres", z_array (z_string [s_trim; s_min 1]) (Some 1%nat));
  ("releaseYear", coerce_number [n_int; n_gte 1960; n_lte (currentYear + 1)]);
  ("rating", z_optional (coerce_number [n_min 0; n_max 10]));
  ("episodes", z_optional (coerce_number [n_int; n_min 0]));
  ("studio", z_optional (z_string [s_trim]));
  ("status", z_enum ["finished"; "airing"; "upcoming"]);
  ("description", z_optional (z_string [s_trim]));
  ("coverImage", z_optional (z_string [s_test is_url None]))
].

Definition AnimeSchema : ZodType := z_object AnimeShape.

Definition parseId (id : string) : Exn + ObjectId :=
  match new_ObjectId id with
  | inr oid => inr oid
  | inl _ =>
      inl (Thrown {| message := "Invalid id"; statusCode := Some 400%Z;
                     expose := Some true |})
  end.

Definition get_all (_req : Request) (_ : Sys) : M Response :=
  try_catch
    (let* db := getDb in
     let* docs := find (collection db "anime") in
     ret (json 200 (Docs docs)))
    next.

Definition get_one (req : Request) (_ : Sys) : M Response :=
  try_catch
    (let* _id := lift (parseId (params_id req)) in
     let* db := getDb in
     let* doc := findOne (collection db "anime") _id in
     match doc with
     | None => ret (json 404 (Msg "Not found"))
     | Some d => ret (json 200 (Doc _id d))
     end)
    next.

Definition post (req : Request) (sys : Sys) : M Response :=
  try_catch
    (if negb (req_is req "application/json")
     then ret (json 415 (Msg "Content-Type must be application/json"))
     else
       let* parsed := lift (parse AnimeSchema (body req)) in
       let now := now sys in
       let* db := getDb in
       let* result :=
         insertOne (fresh sys) (collection db "anime")
           (<["updatedAt" := VDate now]>
              (<["createdAt" := VDate now]> (spread parsed))) in
       ret (json_at 201 ("/anime/" +:+ insertedId result)
              (NewId (insertedId result))))
    (fun err =>
       match err with
       | ZodError issues =>
           ret (json 400 (Invalid "Validation error" (flatten issues)))
       | _ => next err
       end).

Definition put (req : Request) (sys : Sys) : M Response :=
  try_catch
    (if negb (req_is req "application/json")
     then ret (json 415 (Msg "Content-Type must be application/json"))
     else
       let* _id := lift (parseId (params_id req)) in
       let* parsed := lift (parse AnimeSchema (body req)) in
       let* db := getDb in
       let* result :=
         replaceOne (collection db "anime") _id
           (<["updatedAt" := VDate (now sys)]> (spread parsed)) in
       if (matchedCount result =? 0)%nat
       then ret (json 404 (Msg "Not found"))
       else ret (json 204 Empty))
    (fun err =>
       match err with
       | ZodError issues =>
           ret (json 400 (Invalid "Validation error" (flatten issues)))
       | _ => next err
       end).

Definition del (req : Request) (_ : Sys) : M Response :=
  try_catch
    (let* _id := lift (parseId (params_id req)) in
     let* db := getDb in
     let* result := deleteOne (collection db "anime") _id in
     if (deletedCount result =? 0)%nat
     then ret (json 404 (Msg "Not found"))
     else ret (json 204 Empty))
    next.
End Routes.
End Anime.

(* ===================================================================== *)
(** ** src/routes/manga.js *)
(* ===================================================================== *)

Module Manga.
Section Routes.
Variable currentYear : float.
Variable is_url : string -> bool.

Definition MangaShape : Shape := [
  ("title", z_string [s_trim; s_min 1]);
  ("genres", z_array (z_string [s_trim; s_min 1]) (Some 1%nat));
  ("author", z_string [s_trim; s_min 1]);
  ("chapters", z_optional (z_number [n_int; n_min 0]));
  ("status", z_enum ["ongoing"; "finished"; "hiatus"]);
  ("releaseYear",
     z_optional (z_number [n_int; n_gte 1960; n_lte (currentYear + 1)]));
  ("rating", z_optional (z_number [n_min 0; n_max 10]));
  ("description", z_optional (z_string [s_trim]));
  ("coverImage", z_optional (z_string [s_test is_url None]))
].

Definition MangaSchema : ZodType := z_object MangaShape.

Definition parseId (id : string) : Exn + ObjectId :=
  match new_ObjectId id with
  | inr oid => inr oid
  | inl _ =>
      inl (Thrown {| message := "Invalid id"; statusCode := Some 400%Z;
                     expose := Some true |})
  end.

Definition get_all (_req : Request) (_ : Sys) : M Response :=
  try_catch
    (let* db := getDb in
     let* docs := find (collection db "manga") in
     ret (json 200 (Docs docs)))
    next.

Definition get_one (req : Request) (_ : Sys) : M Response :=
  try_catch
    (let* _id := lift (parseId (params_id req)) in
     let* db := getDb in
     let* doc := findOne (collection db "manga") _id in
     match doc with
     | None => ret (json 404 (Msg "Not found"))
     | Some d => ret (json 200 (Doc _id d))
     end)
    next.

Definition post (req : Request) (sys : Sys) : M Response :=
  try_catch
    (if negb (req_is req "application/json")
     then ret (json 415 (Msg "Content-Type must be application/json"))
     else
       let* parsed := lift (parse MangaSchema (body req)) in
       let* db := getDb in
       let* result :=
         insertOne (fresh sys) (collection db "manga") (spread parsed) in
       ret (json_at 201 ("/manga/" +:+ insertedId result)
              (NewId (insertedId result))))
    (fun err =>
       match err with
       | ZodError issues =>
           ret (json 400 (Invalid "Validation error" (flatten issues)))
       | _ => next err
       end).

Definition put (req : Request) (_ : Sys) : M Response :=
  try_catch
    (if negb (req_is req "application/json")
     then ret (json 415 (Msg "Content-Type must be application/json"))
     else
       let* _id := lift (parseId (params_id req)) in
       let* parsed := lift (parse MangaSchema (body req)) in
       let* db := getDb in
       let* result :=
         replaceOne (collection db "manga") _id (spread parsed) in
       if (matchedCount result =? 0)%nat
       then ret (json 404 (Msg "Not found"))
       else ret (json 204 Empty))
    (fun err =>
       match err with
       | ZodError issues =>
           ret (json 400 (Invalid "Validation error" (flatten issues)))
       | _ => next err
       end).

Definition del (req : Request) (_ : Sys) : M Response :=
  try_catch
    (let* _id := lift (parseId (params_id req)) in
     let* db := getDb in
     let* result := deleteOne (collection db "manga") _id in
     if (deletedCount result =? 0)%nat
     then ret (json 404 (Msg "Not found"))
     else ret (json 204 Empty))
    next.
End Routes.
End Manga.

(* ===================================================================== *)
(** ** src/routes/users.js *)
(* ===================================================================== *)

Module Users.
Section Routes.
(** zod's e-mail pattern matches. *)
Variable is_email : string -> bool.

Definition UserShape : Shape := [
  ("email", z_string [s_test is_email None]);
  ("displayName", z_string [s_min 1]);
  ("role", z_default (z_enum ["user"; "admin"]) (VStr "user"))
].

Definition UserSchema : ZodType := z_object UserShape.

Definition parseId (id : string) : Exn + ObjectId :=
  match new_ObjectId id with
  | inr oid => inr oid
  | inl _ =>
      inl (Thrown {| message := "Invalid id format"; statusCode := Some 400%Z;
                     expose := Some true |})
  end.

Definition get_all (_req : Request) (_ : Sys) : M Response :=
  try_catch
    (let* db := getDb in
     let* docs := find (collection db "users") in
     ret (json 200 (Docs docs)))
    next.

Definition get_one (req : Request) (_ : Sys) : M Response :=
  try_catch
    (let* _id := lift (parseId (params_id req)) in
     let* db := getDb in
     let* doc := findOne (collection db "users") _id in
     match doc with
     | None => ret (json 404 (Msg "Not found"))
     | Some d => ret (json 200 (Doc _id d))
     end)
    next.

Definition post (req : Request) (sys : Sys) : M Response :=
  try_catch
    (if negb (req_is req "application/json")
     then ret (json 415 (Msg "Content-Type must be application/json"))
     else
       let* parsed := lift (parse UserSchema (body req)) in
       let now := now sys in
       let* db := getDb in
       let* result :=
         insertOne (fresh sys) (collection db "users")
           (<["updatedAt" := VDate now]>
              (<["createdAt" := VDate now]> (spread parsed))) in
       ret (json_at 201 ("/users/" +:+ insertedId result)
              (NewId (insertedId result))))
    (fun err =>
       match err with
       | ZodError issues =>
           ret (json 400 (Invalid "Validation error" (flatten issues)))
       | _ => next err
       end).

Definition put (req : Request) (sys : Sys) : M Response :=
  try_catch
    (if negb (req_is req "application/json")
     then ret (json 415 (Msg "Content-Type must be application/json"))
     else
       let* _id := lift (parseId (params_id req)) in
       let* parsed := lift (parse UserSchema (body req)) in
       let* db := getDb in
       let* result :=
         replaceOne (collection db "users") _id
           (<["updatedAt" := VDate (now sys)]> (spread parsed)) in
       if (matchedCount result =? 0)%nat
       then ret (json 404 (Msg "Not found"))
       else ret (json 204 Empty))
    (fun err =>
       match err with
       | ZodError issues =>
           ret (json 400 (Invalid "Validation error" (flatten issues)))
       | _ => next err
       end).

Definition del (req : Request) (_ : Sys) : M Response :=
  try_catch
    (let* _id := lift (parseId (params_id req)) in
     let* db := getDb in
     let* result := deleteOne (collection db "users") _id in
     if (deletedCount result =? 0)%nat
     then ret (json 404 (Msg "Not found"))
     else ret (json 204 Empty))
    next.
End Routes.
End Users.

(* ===================================================================== *)
(** ** src/routes/watchlists.js *)
(* ===================================================================== *)

Module Watchlists.

Definition ObjectIdString : ZodType :=
  z_string [s_test hex24 (Some "Must be 24 hex chars")].

Definition WatchItemShape : Shape := [
  ("userId", ObjectIdString);
  ("kind", z_enum ["anime"; "manga"]);
  ("refId", ObjectIdString);
  ("status",
     z_default (z_enum ["planned"; "watching"; "completed"; "reading"])
       (VStr "planned"));
  ("notes", z_optional (z_string [s_max 500]))
].

Definition WatchItemSchema : ZodType := z_object WatchItemShape.

Definition parseId (id : string) : Exn + ObjectId :=
  match new_ObjectId id with
  | inr oid => inr oid
  | inl _ =>
      inl (Thrown {| message := "Invalid id format"; statusCode := Some 400%Z;
                     expose := Some true |})
  end.

Definition get_all (_req : Request) (_ : Sys) : M Response :=
  try_catch
    (let* db := getDb in
     let* docs := find (collection db "watchlists") in
     ret (json 200 (Docs docs)))
    next.

Definition get_one (req : Request) (_ : Sys) : M Response :=
  try_catch
    (let* _id := lift (parseId (params_id req)) in
     let* db := getDb in
     let* doc := findOne (collection db "watchlists") _id in
     match doc with
     | None => ret (json 404 (Msg "Not found"))
     | Some d => ret (json 200 (Doc _id d))
     end)
    next.

Definition post (req : Request) (sys : Sys) : M Response :=
  try_catch
    (if negb (req_is req "application/json")
     then ret (json 415 (Msg "Content-Type must be application/json"))
     else
       let* parsed := lift (parse WatchItemSchema (body req)) in
       let now := now sys in
       let* db := getDb in
       let* result :=
         insertOne (fresh sys) (collection db "watchlists")
           (<["updatedAt" := VDate now]>
              (<["createdAt" := VDate now]> (spread parsed))) in
       ret (json_at 201 ("/watchlists/" +:+ insertedId result)
              (NewId (insertedId result))))
    (fun err =>
       match err with
       | ZodError issues =>
           ret (json 400 (Invalid "Validation error" (flatten issues)))
       | _ => next err
       end).

Definition put (req : Request) (sys : Sys) : M Response :=
  try_catch
    (if negb (req_is req "application/json")
     then ret (json 415 (Msg "Content-Type must be application/json"))
     else
       let* _id := lift (parseId (params_id req)) in
       let* parsed := lift (parse WatchItemSchema (body req)) in
       let* db := getDb in
       let* result :=
         replaceOne (collection db "watchlists") _id
           (<["updatedAt" := VDate (now sys)]> (spread parsed)) in
       if (matchedCount result =? 0)%nat
       then ret (json 404 (Msg "Not found"))
       else ret (json 204 Empty))
    (fun err =>
       match err with
       | ZodError issues =>
           ret (json 400 (Invalid "Validation error" (flatten issues)))
       | _ => next err
       end).

Definition del (req : Request) (_ : Sys) : M Response :=
  try_catch
    (let* _id := lift (parseId (params_id req)) in
     let* db := getDb in
     let* result := deleteOne (collection db "watchlists") _id in
     if (deletedCount result =? 0)%nat
     then ret (json 404 (Msg "Not found"))
     else ret (json 204 Empty))
    next.

End Watchlists.

(* ===================================================================== *)
(** ** server.js: the four routers *)
(* ===================================================================== *)

Module App.

(** [app.use('/anime', animeRouter)] and the three others. *)
Inductive Resource := anime | manga | users | watchlists.

Inductive Method := GET_ALL | GET | POST | PUT | DELETE.

Definition collection_name (r : Resource) : string :=
  match r with
  | anime => "anime"
  | manga => "manga"
  | users => "users"
  | watchlists => "watchlists"
  end.

Section Mount.
Variable currentYear : float.
Variable StringToNumber : string -> float.
Variable ObjectToNumber : value -> float.
Variable is_url : string -> bool.
Variable is_email : string -> bool.

(** The shape and the schema each router validates bodies with. *)
Definition shape (r : Resource) : Shape :=
  match r with
  | anime => Anime.AnimeShape currentYear StringToNumber ObjectToNumber is_url
  | manga => Manga.MangaShape currentYear is_url
  | users => Users.UserShape is_email
  | watchlists => Watchlists.WatchItemShape
  end.

Definition schema (r : Resource) : ZodType :=
  match r with
  | anime => Anime.AnimeSchema currentYear StringToNumber ObjectToNumber is_url
  | manga => Manga.MangaSchema currentYear is_url
  | users => Users.UserSchema is_email
  | watchlists => Watchlists.WatchItemSchema
  end.

Definition parseId (r : Resource) : string -> Exn + ObjectId :=
  match r with
  | anime => Anime.parseId
  | manga => Manga.parseId
  | users => Users.parseId
  | watchlists => Watchlists.parseId
  end.

(** The handler of a method on a resource. *)
Definition handler (m : Method) (r : Resource)
  : Request -> Sys -> M Response :=
  match r, m with
  | anime, GET_ALL => Anime.get_all
  | anime, GET => Anime.get_one
  | anime, POST => Anime.post currentYear StringToNumber ObjectToNumber is_url
  | anime, PUT => Anime.put currentYear StringToNumber ObjectToNumber is_url
  | anime, DELETE => Anime.del
  | manga, GET_ALL => Manga.get_all
  | manga, GET => Manga.get_one
  | manga, POST => Manga.post currentYear is_url
  | manga, PUT => Manga.put currentYear is_url
  | manga, DELETE => Manga.del
  | users, GET_ALL => Users.get_all
  | users, GET => Users.get_one
  | users, POST => Users.post is_email
  | users, PUT => Users.put is_email
  | users, DELETE => Users.del
  | watchlists, GET_ALL => Watchlists.get_all
  | watchlists, GET => Watchlists.get_one
  | watchlists, POST => Watchlists.post
  | watchlists, PUT => Watchlists.put
  | watchlists, DELETE => Watchlists.del
  end.

(** The handler run to its response: routes end every path with a
    response or with [next(err)]. *)
Definition serve (m : Method) (r : Resource) (req : Request) (sys : Sys)
  (w : World) : Response * World :=
  match handler m r req sys w with
  | (inr res, w') => (res, w')
  | (inl err, w') => failed err w'
  end.

(** *** The four routers written once

    The routers differ in the collection, the schema, the wording of
    the identifier error and in whether they stamp the document. *)

(** The document a create stores. *)
Definition created_doc (r : Resource) (t : Z) (parsed : value) : Document :=
  match r with
  | manga => spread parsed
  | _ => <["updatedAt" := VDate t]> (<["createdAt" := VDate t]> (spread parsed))
  end.

(** The document a replace stores. *)
Definition replacement_doc (r : Resource) (t : Z) (parsed : value) : Document :=
  match r with
  | manga => spread parsed
  | _ => <["updatedAt" := VDate t]> (spread parsed)
  end.

Definition unsupported : Response :=
  json 415 (Msg "Content-Type must be application/json").

Definition not_found : Response := json 404 (Msg "Not found").

(** The [catch] clause of a write route: a [ZodError] is answered on the
    spot, anything else goes to [next(err)]. *)
Definition rejected (err : Exn) (w : World) : Response * World :=
  match err with
  | ZodError issues =>
      (json 400 (Invalid "Validation error" (flatten issues)), w)
  | _ => failed err w
  end.

Definition not_initialized : Exn :=
  Thrown (new_Error "DB not initialized. Call connectToDb first.").

Definition generic_get (r : Resource) (req : Request) (w : World)
  : Response * World :=
  match parseId r (params_id req) with
  | inl err => failed err w
  | inr _id =>
      match db w with
      | None => failed not_initialized w
      | Some _ =>
          match find_one (data w) (collection_name r) _id with
          | None => (not_found, w)
          | Some d => (json 200 (Doc _id d), w)
          end
      end
  end.

Definition generic_post (r : Resource) (req : Request) (sys : Sys) (w : World)
  : Response * World :=
  if negb (req_is req "application/json") then (unsupported, w)
  else
    match parse (schema r) (body req) with
    | inl err => rejected err w
    | inr parsed =>
        match db w with
        | None => failed not_initialized w
        | Some _ =>
            match insert_one (fresh sys) (data w) (collection_name r)
                    (created_doc r (now sys) parsed) with
            | inl e => failed (Thrown e) w
            | inr (result, d) =>
                (json_at 201
                   ("/" +:+ collection_name r +:+ "/" +:+ insertedId result)
                   (NewId (insertedId result)),
                 with_data w d)
            end
        end
    end.

Definition generic_put (r : Resource) (req : Request) (sys : Sys) (w : World)
  : Response * World :=
  if negb (req_is req "application/json") then (unsupported, w)
  else
    match parseId r (params_id req) with
    | inl err => failed err w
    | inr _id =>
        match parse (schema r) (body req) with
        | inl err => rejected err w
        | inr parsed =>
            match db w with
            | None => failed not_initialized w
            | Some _ =>
                let res := replace_one (data w) (collection_name r) _id
                             (replacement_doc r (now sys) parsed) in
                (if (matchedCount res.1 =? 0)%nat then not_found
                 else json 204 Empty,
                 with_data w res.2)
            end
        end
    end.

Definition generic_delete (r : Resource) (req : Request) (w : World)
  : Response * World :=
  match parseId r (params_id req) with
  | inl err => failed err w
  | inr _id =>
      match db w with
      | None => failed not_initialized w
      | Some _ =>
          let res := delete_one (data w) (collection_name r) _id in
          (if (deletedCount res.1 =? 0)%nat then not_found
           else json 204 Empty,
           with_data w res.2)
      end
  end.

(** The fields a schema fills in when the body omits them. *)
Definition defaulted (r : Resource) : list string :=
  match r with
  | users => ["role"]
  | watchlists => ["status"]
  | anime | manga => []
  end.

(** A field of the shape is invalid for the data when its validator
    raises an issue on [data[key]]. *)
Definition invalid_field (r : Resource) (props : gmap string value)
  (key : string) : Prop :=
  exists validator,
    (key, validator) ∈ shape r /\ (validator (get props key)).2 <> [].

(** *** The life of the process

    What happens to the world: calls of [connectToDb] and requests. *)
Inductive Event :=
| Connect (up : bool) (uri dbName : option string)
| Serve (m : Method) (r : Resource) (req : Request) (sys : Sys).

(** [new MongoClient(uri, ...)] does not throw. *)
Variable is_connection_string : string -> bool.

(** The world after the events, and the handles the successful calls of
    [connectToDb] returned, in order. *)
Fixpoint run (events : list Event) (w : World) : list Db * World :=
  match events with
  | [] => ([], w)
  | Connect up uri dbName :: rest =>
      match connectToDb is_connection_string up uri dbName w with
      | (inr h, w') => let r := run rest w' in (h :: r.1, r.2)
      | (inl _, w') => run rest w'
      end
  | Serve m r req sys :: rest => run rest (serve m r req sys w).2
  end.

Variable auth : Auth.AuthOptions -> Middleware.
Variable requiredScopes : string -> Middleware.

(** [router.post('/', jwtCheck, needWrite, handler)]: the write routes
    run the two guards first; the read routes have none.  A guard that
    calls [next(err)] sends the request to the error handler, past the
    guard and the handler that follow it. *)
Definition route (env : Auth.Env) (m : Method) (r : Resource) (req : Request)
  (sys : Sys) (w : World) : Response * World :=
  match m with
  | GET_ALL | GET => serve m r req sys w
  | POST | PUT | DELETE =>
      match Auth.jwtCheck auth env req with
      | Answered res => (res, w)
      | Failed err => failed err w
      | Passed req1 =>
          match Auth.needWrite requiredScopes env req1 with
          | Answered res => (res, w)
          | Failed err => failed err w
          | Passed req2 => serve m r req2 sys w
          end
      end
  end.
End Mount.

End App.

Export App.

(* ===================================================================== *)
(** ** src/middleware/auth.js: the role guard *)
(* ===================================================================== *)

Module AuthRoles.

(** [process.env.AUTH_ROLE_CLAIM || 'https://example.com/roles'] *)
Definition ROLE_CLAIM (env : gmap string string) : string :=
  default "" (or_else (env !! "AUTH_ROLE_CLAIM") (Some "https://example.com/roles")).

(** [roles.includes(x)] for a string [x]. *)
Definition includes (x : string) (roles : list value) : bool :=
  existsb (fun v => match v with VStr s => String.eqb s x | _ => false end) roles.

(** [requireAdmin].  [payload] is [req?.auth?.payload], the claims the
    verifier has left on the request, [None] when there are none. *)
Definition requireAdmin (env : gmap string string)
  (payload : option (gmap string value)) : Middleware := fun req =>
  if Auth.AUTH_DISABLED env || negb (Auth.hasAuthConfig env) then Passed req
  else
    let roles :=
      match payload with
      | Some claims =>
          match get claims (ROLE_CLAIM env) with
          | VArr items => items
          | _ => []
          end
      | None => []
      end in
    if includes "admin" roles then Passed req
    else Answered (json 403 (Msg "Admin role required")).

End AuthRoles.

(* ===================================================================== *)
(** ** server.js: start-up *)
(* ===================================================================== *)

Module Startup.

(** How the process comes up: it has exited with a code, or it listens in
    a world. *)
Inductive Boot :=
| Exited (code : Z)
| Listening (w : World).

(** [process.env.PORT || 8080] *)
Definition PORT (env : gmap string string) : string :=
  default "" (or_else (env !! "PORT") (Some "8080")).

(** The fail-fast loop over ['MONGODB_URI', 'DB_NAME']. *)
Definition missing_env (env : gmap string string) : bool :=
  existsb (fun key => negb (truthy (env !! key))) ["MONGODB_URI"; "DB_NAME"].

Section Start.
(** [new MongoClient(uri, ...)] does not throw. *)
Variable is_connection_string : string -> bool.

(** [start()]: connect, then listen and say so; any failure exits
    with 1. *)
Definition start (up : bool) (env : gmap string string) (w : World) : Boot :=
  match connectToDb is_connection_string up
          (env !! "MONGODB_URI") (env !! "DB_NAME") w with
  | (inr _, w') => Listening (log (Serving (PORT env)) w').2
  | (inl _, _) => Exited 1
  end.

(** server.js from top to bottom. *)
Definition main (up : bool) (env : gmap string string) (w : World) : Boot :=
  if missing_env env then Exited 1 else start up env w.
End Start.

End Startup.

(* ===================================================================== *)
(** ** Predicates on answers and on the console *)
(* ===================================================================== *)

(** An answer that is a 400, or a 500 that gives nothing away, and has no
    Location header. *)
Definition refusal (a : Response) : Prop :=
  location a = None
  /\ (status a = 400%Z
      \/ (status a = 500%Z /\ sent a = Msg "Internal Server Error")).

(** The lines of the console by who prints them. *)
Definition is_connect_line (l : LogLine) : bool :=
  match l with Connecting | Connected _ => true | _ => false end.

Definition is_error_line (l : LogLine) : bool :=
  match l with Errored _ => true | _ => false end.

(** What connect.js has printed in a process that started silent: a
    "connecting" line for each of some attempts, then, exactly when a
    handle is open, the two lines of the attempt that opened it. *)
Definition console_tells (w : World) : Prop :=
  exists dials : nat,
    List.filter is_connect_line (console w)
    = replicate dials Connecting
      ++ match db w with
         | Some h => [Connecting; Connected (databaseName h)]
         | None => []
         end.

(* ===================================================================== *)
(** ** Sample data *)
(* ===================================================================== *)

(** A process in the year 2025 and a handful of requests, to run the
    routes on.  The library functions are given by their answers on the
    sample inputs: [Number("1998")] is 1998, "demo@example.com" is an
    e-mail address, "https://example.com/img.png" is a URL, a connection
    string starts with mongodb://; the verifier and the scope check stand
    for the case of a request without a valid token, which they hand to
    [next(err)] with an error of status 401 and 403. *)
Module Sample.

Definition year : float := 2025.

Definition StringToNumber (s : string) : float :=
  if String.eqb s "1998" then 1998%float else nan.

Definition ObjectToNumber (_ : value) : float := nan.

Definition is_url (s : string) : bool :=
  String.eqb s "https://example.com/img.png".

Definition is_email (s : string) : bool := String.eqb s "demo@example.com".

Definition is_connection_string (s : string) : bool :=
  String.prefix "mongodb://" s.

Definition unauthorized : Exn :=
  Thrown {| message := "Unauthorized"; statusCode := Some 401%Z; expose := None |}.

Definition insufficient_scope : Exn :=
  Thrown {| message := "Insufficient Scope"; statusCode := Some 403%Z;
            expose := None |}.

Definition auth (_ : Auth.AuthOptions) : Middleware :=
  fun _ => Failed unauthorized.

Definition requiredScopes (_ : string) : Middleware :=
  fun _ => Failed insufficient_scope.

Definition serve := App.serve year StringToNumber ObjectToNumber is_url is_email.
Definition schema := App.schema year StringToNumber ObjectToNumber is_url is_email.
Definition run :=
  App.run year StringToNumber ObjectToNumber is_url is_email is_connection_string.
Definition route :=
  App.route year StringToNumber ObjectToNumber is_url is_email auth requiredScopes.

(** The process before and after [connectToDb] has succeeded. *)
Definition cold : World :=
  {| client := None; db := None; console := []; data := ∅ |}.

Definition library : Db :=
  {| client_of := {| uri := "mongodb://localhost" |}; databaseName := "library" |}.

Definition started : World :=
  {| client := Some {| uri := "mongodb://localhost" |}; db := Some library;
     console := [Connecting; Connected "library"]; data := ∅ |}.

(** A request with a JSON body, and one sent as text/plain. *)
Definition json_request (id : string) (b : value) : Request :=
  {| params_id := id; body := b;
     req_is := fun t => String.eqb t "application/json" |}.

Definition text_request (id : string) (b : value) : Request :=
  {| params_id := id; body := b; req_is := fun _ => false |}.

Definition id1 : string := "665f6a0f2c3d4b1a9f0a1234".

Definition at_1000 : Sys := {| now := 1000; fresh := id1 |}.
Definition at_2000 : Sys := {| now := 2000; fresh := "665f6a0f2c3d4b1a9f0a5678" |}.

Definition cowboy_bebop : gmap string value :=
  list_to_map [("title", VStr "Cowboy Bebop"); ("genres", VArr [VStr "Action"]);
               ("releaseYear", VNum 1998); ("status", VStr "finished")].

Definition one_piece : gmap string value :=
  list_to_map [("title", VStr "One Piece"); ("genres", VArr [VStr "Adventure"]);
               ("author", VStr "Eiichiro Oda"); ("status", VStr "ongoing")].

Definition demo_user : gmap string value :=
  list_to_map [("email", VStr "demo@example.com");
               ("displayName", VStr "Demo User")].

Definition watch_item : gmap string value :=
  list_to_map [("userId", VStr "6640a2f2d7b3c1a9f0a11223"); ("kind", VStr "anime");
               ("refId", VStr "665f6a0f2c3d4b1a9f0a1234")].

(** The world after a create of each sample at time 1000, and after a
    replace by the same body at time 2000. *)
Definition created (r : Resource) (props : gmap string value) : World :=
  (serve POST r (json_request "" (VObj props)) at_1000 started).2.

Definition replaced (r : Resource) (props : gmap string value)
  : Response * World :=
  serve PUT r (json_request id1 (VObj props)) at_2000 (created r props).

(** The stored document [id1] of a collection. *)
Definition stored (w : World) (r : Resource) : gmap string value :=
  default ∅ (find_one (data w) (collection_name r) id1).

End Sample.

(* ===================================================================== *)
(** ** Fixtures *)
(* ===================================================================== *)

(** More requests and worlds to run the routes on. *)
Module Fixtures.

Definition id2 : string := "665f6a0f2c3d4b1a9f0a5678".

(** The world after a create of the anime sample. *)
Definition with_bebop : World := Sample.created anime Sample.cowboy_bebop.

Definition get_req (id : string) : Request := Sample.json_request id VNull.

Definition production : gmap string string :=
  list_to_map [("MONGODB_URI", "mongodb://localhost"); ("DB_NAME", "library");
               ("AUTH0_AUDIENCE", "https://api"); ("AUTH0_DOMAIN", "t.auth0.com")].

Definition admin_claims : gmap string value :=
  list_to_map [("sub", VStr "auth0|1");
               ("https://example.com/roles", VArr [VStr "editor"; VStr "admin"])].

Definition full_anime : gmap string value :=
  list_to_map [("title", VStr "  Cowboy Bebop "); ("genres", VArr [VStr " Action"]);
               ("releaseYear", VNum 1998); ("rating", VNum 9);
               ("episodes", VNum 26); ("status", VStr "finished")].




(** The verifier of one tenant.  The sample requests stand for requests
    that bear a token issued by https://t.auth0.com for the audience
    https://api and signed with RS256: a verifier set up for these lets
    them through, any other refuses them. *)
Definition tenant (opts : Auth.AuthOptions) : Middleware := fun req =>
  match Auth.audience opts, Auth.issuerBaseURL opts with
  | Some aud, Some iss =>
      if String.eqb aud "https://api" && String.eqb iss "https://t.auth0.com"
         && String.eqb (Auth.tokenSigningAlg opts) "RS256"
      then Passed req
      else Failed Sample.unauthorized
  | _, _ => Failed Sample.unauthorized
  end.

(** The scope check on these tokens, which carry write:library and
    nothing else. *)
Definition granted (scopes : string) : Middleware := fun req =>
  if String.eqb scopes "write:library" then Passed req
  else Failed Sample.insufficient_scope.

(** A deployment that names its issuer by URL, and one of another
    tenant. *)
Definition by_url : gmap string string :=
  list_to_map [("AUTH0_AUDIENCE", "https://api");
               ("AUTH0_ISSUER_BASE_URL", "https://t.auth0.com");
               ("AUTH0_DOMAIN", "other.auth0.com")].

Definition elsewhere : gmap string string :=
  list_to_map [("AUTH0_AUDIENCE", "https://api");
               ("AUTH0_DOMAIN", "other.auth0.com")].

Definition full_user : gmap string value :=
  list_to_map [("email", VStr "demo@example.com");
               ("displayName", VStr "Demo User"); ("role", VStr "admin")].

End Fixtures.

(* ===================================================================== *)
(** * Properties *)
(* ===================================================================== *)

(** ** Objects and their properties *)

Lemma get_insert (props : gmap string value) (f k : string) (x : value) :
  get (<[f := x]> props) k = if String.eqb f k then x else get props k.
Proof.
  unfold get. destruct (String.eqb_spec f k) as [->|Hne].
  - by rewrite lookup_insert_eq.
  - by rewrite lookup_insert_ne.
Qed.

Lemma has_insert (props : gmap string value) (f k : string) (x : value) :
  has (<[f := x]> props) k = String.eqb f k || has props k.
Proof.
  unfold has. destruct (String.eqb_spec f k) as [->|Hne]; simpl.
  - rewrite lookup_insert_eq. by apply bool_decide_eq_true_2.
  - by rewrite lookup_insert_ne.
Qed.

Lemma get_agree (m1 m2 : gmap string value) (k : string) :
  m1 !! k = m2 !! k -> get m1 k = get m2 k /\ has m1 k = has m2 k.
Proof. unfold get, has. by intros ->. Qed.

(** ** What [z.object] returns *)

Section ZodObjectFacts.

Implicit Types (pairs : list Pair) (acc m : gmap string value).

Lemma pairs_of_keys (shape : Shape) (props : gmap string value) :
  pair_key <$> pairs_of shape props = shape.*1.
Proof.
  unfold pairs_of. rewrite <- list_fmap_compose.
  apply list_fmap_ext. by intros i [k v] _.
Qed.

Lemma merge_is_obj pairs : forall acc v,
  mergeObjectSync acc pairs = OK v -> exists m, v = VObj m.
Proof.
  induction pairs as [|[[key [[|v0] iss]] aset] pairs IH]; intros acc v; simpl.
  - intros [= <-]. eauto.
  - discriminate.
  - destruct (_ && _); apply IH.
Qed.

(** Keys absent from the pairs keep what the accumulator had. *)
Lemma merge_lookup_other pairs : forall acc m k,
  k ∉ pair_key <$> pairs ->
  mergeObjectSync acc pairs = OK (VObj m) ->
  m !! k = acc !! k.
Proof.
  induction pairs as [|[[key [[|v0] iss]] aset] pairs IH]; intros acc m k Hk;
    cbn [mergeObjectSync].
  - by intros [= <-].
  - discriminate.
  - rewrite fmap_cons in Hk. apply not_elem_of_cons in Hk as [Hne Hk].
    cbn [pair_key fst] in Hne.
    destruct (_ && _); intros Hm; rewrite (IH _ _ _ Hk Hm); [|done].
    by rewrite lookup_insert_ne.
Qed.

(** Every key of the result is a key of the pairs or of the accumulator. *)
Lemma merge_dom pairs : forall acc m k,
  mergeObjectSync acc pairs = OK (VObj m) ->
  is_Some (m !! k) ->
  is_Some (acc !! k) \/ k ∈ pair_key <$> pairs.
Proof.
  intros acc m k Hm Hk.
  destruct (decide (k ∈ pair_key <$> pairs)) as [|Hnot]; [by right|left].
  by rewrite <- (merge_lookup_other _ _ _ _ Hnot Hm).
Qed.

(** With distinct keys, a pair that is assigned is found in the result
    with the value its validator returned. *)
Lemma merge_lookup pairs : forall acc m key v iss aset,
  NoDup (pair_key <$> pairs) ->
  (key, (OK v, iss), aset) ∈ pairs ->
  negb (String.eqb key "__proto__")
    && (match v with VUndefined => false | _ => true end || aset) = true ->
  mergeObjectSync acc pairs = OK (VObj m) ->
  m !! key = Some v.
Proof.
  induction pairs as [|[[key0 [[|v0] iss0]] aset0] pairs IH];
    intros acc m key v iss aset Hnd Hin Hset; cbn [mergeObjectSync].
  - by apply elem_of_nil in Hin.
  - discriminate.
  - rewrite fmap_cons in Hnd. apply NoDup_cons in Hnd as [Hfresh Hnd].
    cbn [pair_key fst] in Hfresh.
    apply elem_of_cons in Hin as [Heq|Hin].
    + simplify_eq. rewrite Hset. intros Hm.
      rewrite (merge_lookup_other _ _ _ _ Hfresh Hm). apply lookup_insert_eq.
    + destruct (negb (String.eqb key0 _) && _); eapply IH; eauto.
Qed.

(** A key whose validator returned [undefined] for absent data is left
    out of the result. *)
Lemma merge_lookup_unset pairs : forall acc m key iss,
  NoDup (pair_key <$> pairs) ->
  (key, (OK VUndefined, iss), false) ∈ pairs ->
  acc !! key = None ->
  mergeObjectSync acc pairs = OK (VObj m) ->
  m !! key = None.
Proof.
  induction pairs as [|[[key0 [[|v0] iss0]] aset0] pairs IH];
    intros acc m key iss Hnd Hin Hacc; cbn [mergeObjectSync].
  - by apply elem_of_nil in Hin.
  - discriminate.
  - rewrite fmap_cons in Hnd. apply NoDup_cons in Hnd as [Hfresh Hnd].
    cbn [pair_key fst] in Hfresh.
    apply elem_of_cons in Hin as [Heq|Hin].
    + simplify_eq. rewrite andb_false_r. intros Hm.
      by rewrite (merge_lookup_other _ _ _ _ Hfresh Hm).
    + assert (key <> key0) as Hne.
      { intros ->. apply Hfresh. apply list_elem_of_fmap.
        by exists (key0, (OK VUndefined, iss), false). }
      destruct (negb (String.eqb key0 _) && _); eapply IH; eauto.
      by rewrite lookup_insert_ne.
Qed.

(** The validated object has no key outside the shape. *)
Lemma parse_object_keys (shape : Shape) (data v : value) :
  parse (z_object shape) data = inr v ->
  exists props m, data = VObj props /\ v = VObj m
    /\ mergeObjectSync ∅ (pairs_of shape props) = OK (VObj m)
    /\ forall k, is_Some (m !! k) -> k ∈ shape.*1.
Proof.
  unfold parse. destruct data as [| |?|?|?|?|props|?]; simpl; try discriminate.
  destruct (mergeObjectSync ∅ (pairs_of shape props)) as [|v0] eqn:Hm.
  { destruct (concat _); discriminate. }
  destruct (concat _); [|discriminate]. intros [= <-].
  destruct (merge_is_obj _ _ _ Hm) as [m ->].
  exists props, m. repeat split; [done|]. intros k Hk.
  destruct (merge_dom _ _ _ _ Hm Hk) as [Hk'|Hk'].
  - rewrite lookup_empty in Hk'. by destruct Hk'.
  - by rewrite pairs_of_keys in Hk'.
Qed.

(** [z.object] reads the data at the keys of its shape and nowhere
    else. *)
Lemma z_object_ext (shape : Shape) (m1 m2 : gmap string value) :
  (forall k, k ∈ shape.*1 -> m1 !! k = m2 !! k) ->
  z_object shape (VObj m1) = z_object shape (VObj m2).
Proof.
  intros Hagree. simpl.
  assert (pairs_of shape m1 = pairs_of shape m2) as ->; [|done].
  unfold pairs_of. apply list_fmap_ext. intros i [k validator] Hi. simpl.
  assert (k ∈ shape.*1) as Hk.
  { apply list_elem_of_fmap. exists (k, validator). split; [done|].
    by eapply list_elem_of_lookup_2. }
  by destruct (get_agree _ _ _ (Hagree k Hk)) as [-> ->].
Qed.

(** A valid object comes from valid fields. *)
Lemma merge_all_ok pairs : forall acc v key res iss aset,
  mergeObjectSync acc pairs = OK v ->
  (key, (res, iss), aset) ∈ pairs ->
  exists v0, res = OK v0.
Proof.
  induction pairs as [|[[key0 [[|v0] iss0]] aset0] pairs IH];
    intros acc v key res iss aset; cbn [mergeObjectSync].
  - intros _ Hin. by apply elem_of_nil in Hin.
  - discriminate.
  - intros Hm Hin. apply elem_of_cons in Hin as [Heq|Hin].
    + simplify_eq. eauto.
    + destruct (negb (String.eqb key0 _) && _); eapply IH; eauto.
Qed.

Lemma concat_nil_elem {A} (ls : list (list A)) (l : list A) :
  concat ls = [] -> l ∈ ls -> l = [].
Proof.
  induction ls as [|l0 ls IH]; simpl; intros Hc Hin.
  - by apply elem_of_nil in Hin.
  - apply app_eq_nil in Hc as [-> Hc].
    apply elem_of_cons in Hin as [->|Hin]; auto.
Qed.

(** What a valid object says of one field of the shape: its validator
    accepted [data[key]] without issue, and the result holds the value
    it returned ([undefined] for absent data leaves the key out). *)
Lemma parse_object_field (shape : Shape) (props m : gmap string value)
  (key : string) (validator : ZodType) :
  parse (z_object shape) (VObj props) = inr (VObj m) ->
  NoDup shape.*1 ->
  (key, validator) ∈ shape ->
  key <> "__proto__" ->
  exists v, validator (get props key) = (OK v, [])
    /\ match v with
       | VUndefined =>
           m !! key = if has props key then Some VUndefined else None
       | _ => m !! key = Some v
       end.
Proof.
  intros Hparse Hnd Hin Hproto.
  destruct (parse_object_keys _ _ _ Hparse) as (props' & m' & [= <-] & [= <-] & Hm & _).
  assert (concat (pair_issues <$> pairs_of shape props) = []) as Hiss.
  { revert Hparse. unfold parse. cbn [z_object]. rewrite Hm.
    by destruct (concat _). }
  set (p := (key, validator (get props key), has props key) : Pair).
  assert (p ∈ pairs_of shape props) as Hp.
  { unfold pairs_of. apply list_elem_of_fmap. by exists (key, validator). }
  destruct (validator (get props key)) as [res iss] eqn:Hv.
  destruct (merge_all_ok _ _ _ _ _ _ _ Hm Hp) as [v ->].
  assert (iss = []) as ->.
  { assert (pair_issues p = []) as Hpi.
    { apply (concat_nil_elem _ _ Hiss). apply list_elem_of_fmap. eauto. }
    unfold pair_issues, p in Hpi. cbn in Hpi. by destruct iss. }
  exists v. split; [done|].
  assert (NoDup (pair_key <$> pairs_of shape props)) as Hnd'.
  { by rewrite pairs_of_keys. }
  assert (negb (String.eqb key "__proto__") = true) as Hneg.
  { apply negb_true_iff. by apply String.eqb_neq. }
  unfold p in Hp.
  destruct v;
    try (eapply merge_lookup;
         [exact Hnd'|exact Hp|by rewrite Hneg|exact Hm]).
  destruct (has props key) eqn:Hhas.
  - eapply merge_lookup; [exact Hnd'|exact Hp|by rewrite Hneg|exact Hm].
  - eapply merge_lookup_unset; [exact Hnd'|exact Hp|apply lookup_empty|exact Hm].
Qed.

(** Two runs whose pairs carry the same results give the same object;
    [alwaysSet] only matters where the validator returned [undefined]. *)
Lemma merge_congr pairs : forall pairs' acc,
  Forall2 same_outcome pairs pairs' ->
  mergeObjectSync acc pairs = mergeObjectSync acc pairs'.
Proof.
  induction pairs as [|[[key res] aset] pairs IH]; intros pairs' acc Hall;
    inversion Hall as [|? [[key' res'] aset'] ? ? (Hk & Hs) Hrest]; subst.
  - done.
  - cbn in Hk, Hs. simplify_eq. destruct res' as [[|v] iss]; [done|].
    cbn [mergeObjectSync].
    assert ((match v with VUndefined => false | _ => true end || aset)
            = (match v with VUndefined => false | _ => true end || aset'))
      as ->.
    { destruct v; cbn in Hs; by subst. }
    destruct (negb (String.eqb key' _) && _); by apply IH.
Qed.

Lemma z_object_congr (shape : Shape) (m1 m2 : gmap string value) :
  Forall2 same_outcome (pairs_of shape m1) (pairs_of shape m2) ->
  z_object shape (VObj m1) = z_object shape (VObj m2).
Proof.
  intros Hall. cbn [z_object]. f_equal; [by apply merge_congr|].
  f_equal. induction Hall as [|p p' ps ps' [Hp _] _ IH]; [done|].
  rewrite !fmap_cons. f_equal; [|done].
  unfold pair_issues, pair_key. by rewrite Hp.
Qed.

End ZodObjectFacts.

(** ** The four routers are one *)

Section Routers.

Variable currentYear : float.
Variable StringToNumber : string -> float.
Variable ObjectToNumber : value -> float.
Variable is_url : string -> bool.
Variable is_email : string -> bool.

Local Abbreviation shape := (shape currentYear StringToNumber ObjectToNumber is_url is_email).
Local Abbreviation schema := (schema currentYear StringToNumber ObjectToNumber is_url is_email).
Local Abbreviation serve := (serve currentYear StringToNumber ObjectToNumber is_url is_email).
Local Abbreviation generic_post :=
  (generic_post currentYear StringToNumber ObjectToNumber is_url is_email).
Local Abbreviation generic_put :=
  (generic_put currentYear StringToNumber ObjectToNumber is_url is_email).
Local Abbreviation invalid_field :=
  (invalid_field currentYear StringToNumber ObjectToNumber is_url is_email).

Lemma with_data_same (w : World) : with_data w (data w) = w.
Proof. by destruct w. Qed.

Lemma schema_shape (r : Resource) : schema r = z_object (shape r).
Proof. by destruct r. Qed.

Ltac unfold_route :=
  unfold serve, App.serve, handler, generic_get, App.generic_post,
    App.generic_put, generic_delete, App.schema, App.parseId,
    Anime.get_one, Anime.post, Anime.put, Anime.del, Anime.parseId,
    Manga.get_one, Manga.post, Manga.put, Manga.del, Manga.parseId,
    Users.get_one, Users.post, Users.put, Users.del, Users.parseId,
    Watchlists.get_one, Watchlists.post, Watchlists.put, Watchlists.del,
    Watchlists.parseId, rejected, not_initialized, unsupported, not_found,
    created_doc, replacement_doc, collection_name;
  cbv [try_catch bind lift ret throw next getDb findOne insertOne
       replaceOne deleteOne set_data collection].

Lemma serve_get (r : Resource) (req : Request) (sys : Sys) (w : World) :
  serve GET r req sys w = generic_get r req w.
Proof.
  destruct r; unfold_route;
    (destruct (new_ObjectId (params_id req)) as [e|oid]; [done|]);
    (destruct (db w); [|done]);
    by destruct (find_one _ _ _).
Qed.

Lemma serve_delete (r : Resource) (req : Request) (sys : Sys) (w : World) :
  serve DELETE r req sys w = generic_delete r req w.
Proof.
  destruct r; unfold_route;
    (destruct (new_ObjectId (params_id req)) as [e|oid]; [done|]);
    (destruct (db w); [|done]);
    cbn; by destruct (Nat.eqb _ _).
Qed.

Lemma serve_post (r : Resource) (req : Request) (sys : Sys) (w : World) :
  serve POST r req sys w = generic_post r req sys w.
Proof.
  destruct r; unfold_route;
    (destruct (req_is req "application/json"); [|done]); cbn [negb];
    (match goal with
     | |- context [parse ?s ?b] => destruct (parse s b) as [[e|iss]|parsed]
     end; [done..|]);
    (destruct (db w); [|done]);
    by destruct (insert_one _ _ _ _) as [?|[? ?]].
Qed.

Lemma serve_put (r : Resource) (req : Request) (sys : Sys) (w : World) :
  serve PUT r req sys w = generic_put r req sys w.
Proof.
  destruct r; unfold_route;
    (destruct (req_is req "application/json"); [|done]); cbn [negb];
    (destruct (new_ObjectId (params_id req)) as [e|oid]; [done|]);
    (match goal with
     | |- context [parse ?s ?b] => destruct (parse s b) as [[e|iss]|parsed]
     end; [done..|]);
    (destruct (db w); [|done]);
    cbn; by destruct (Nat.eqb _ _).
Qed.


(** ** Collections *)

Lemma find_one_written (d : Database) (coll : string) (id : ObjectId)
  (doc : Document) :
  find_one (<[coll := <[id := doc]> (collection_of d coll)]> d) coll id = Some doc.
Proof.
  unfold find_one.
  assert (collection_of (<[coll := <[id := doc]> (collection_of d coll)]> d) coll
          = <[id := doc]> (collection_of d coll)) as ->.
  { unfold collection_of at 1. by rewrite lookup_insert_eq. }
  apply lookup_insert_eq.
Qed.

Lemma replace_one_found (d : Database) (coll : string) (id : ObjectId)
  (doc old : Document) :
  find_one d coll id = Some old ->
  replace_one d coll id doc
    = ({| matchedCount := 1 |}, <[coll := <[id := doc]> (collection_of d coll)]> d).
Proof. unfold find_one, replace_one. by intros ->. Qed.

Lemma insert_one_free (d : Database) (coll : string) (id : ObjectId)
  (doc : Document) :
  find_one d coll id = None ->
  insert_one id d coll doc
    = inr ({| insertedId := id |},
           <[coll := <[id := doc]> (collection_of d coll)]> d).
Proof. unfold find_one, insert_one. by intros ->. Qed.

(** ** Identifiers *)

Lemma is_hex_digits (c : ascii) : is_hex c = true <-> In c hexdigits.
Proof.
  split.
  - destruct c as [[] [] [] [] [] [] [] []]; vm_compute; intros H;
      try discriminate H; tauto.
  - unfold hexdigits. cbn [list_ascii_of_string In].
    intros H. repeat (destruct H as [<-|H]; [reflexivity|]). destruct H.
Qed.

Lemma hex24_Hex24 (s : string) : hex24 s = true <-> Hex24 s.
Proof.
  unfold hex24, Hex24. rewrite andb_true_iff, Nat.eqb_eq, forallb_forall, Forall_forall.
  split; intros [Hl Hc]; (split; [done|]); intros c Hin.
  - apply is_hex_digits, Hc. by apply list_elem_of_In.
  - apply is_hex_digits, Hc. by apply list_elem_of_In.
Qed.

Lemma parseId_ok (r : Resource) (id : string) :
  hex24 id = true -> parseId r id = inr (toLowerCase id).
Proof.
  intros H. destruct r; cbn; unfold Anime.parseId, Manga.parseId,
    Users.parseId, Watchlists.parseId, new_ObjectId; by rewrite H.
Qed.

(** The message of the identifier error of a router. *)
Lemma parseId_fail (r : Resource) (id : string) :
  hex24 id = false ->
  parseId r id =
    inl (Thrown {| message := match r with
                              | anime | manga => "Invalid id"
                              | users | watchlists => "Invalid id format"
                              end;
                   statusCode := Some 400%Z; expose := Some true |}).
Proof.
  intros H. destruct r; cbn; unfold Anime.parseId, Manga.parseId,
    Users.parseId, Watchlists.parseId, new_ObjectId; by rewrite H.
Qed.

(** ** Flattened reports *)

Lemma flatten_fold (issues : list ZodIssue) : forall (acc : Flattened) (k : string),
  fieldErrors (fold_left flatten_step issues acc) !! k =
    match List.filter (at_key k) issues with
    | [] => fieldErrors acc !! k
    | new => Some (default [] (fieldErrors acc !! k) ++ new)
    end.
Proof.
  induction issues as [|sub issues IH]; intros acc k; [done|].
  cbn [fold_left List.filter]. rewrite IH. unfold flatten_step, at_key.
  destruct (path sub) as [|seg rest]; [done|]. cbn [fieldErrors].
  destruct (String.eqb_spec (property_key seg) k) as [->|Hne].
  - rewrite lookup_insert_eq.
    destruct (List.filter _ issues); [done|]. simpl. by rewrite <- app_assoc.
  - by rewrite lookup_insert_ne.
Qed.

(** An issue of the error is listed under the property it was raised at. *)
Lemma flatten_lists (issues : list ZodIssue) (i : ZodIssue) (k : string) :
  i ∈ issues -> at_key k i = true ->
  exists l, fieldErrors (flatten issues) !! k = Some l /\ i ∈ l.
Proof.
  intros Hin Hk. unfold flatten. rewrite flatten_fold.
  assert (In i (List.filter (at_key k) issues)) as Hf.
  { apply filter_In. split; [|done]. by apply list_elem_of_In. }
  destruct (List.filter _ issues) as [|i0 l]; [done|].
  cbn [fieldErrors]. rewrite lookup_empty. eexists. split; [done|].
  by apply list_elem_of_In.
Qed.

(** Every issue of a field is among the issues of the object, under the
    key of the field. *)
Lemma z_object_field_issue (sh : Shape) (props : gmap string value)
  (key : string) (validator : ZodType) (i : ZodIssue) :
  (key, validator) ∈ sh ->
  i ∈ (validator (get props key)).2 ->
  under (PKey key) i ∈ (z_object sh (VObj props)).2.
Proof.
  intros Hin Hi. cbn [z_object snd]. apply list_elem_of_In, in_concat.
  exists (pair_issues (key, validator (get props key), has props key)).
  split; apply list_elem_of_In.
  - apply list_elem_of_fmap_2. unfold pairs_of.
    apply list_elem_of_fmap. by exists (key, validator).
  - unfold pair_issues. cbn. by apply list_elem_of_fmap_2.
Qed.

Lemma parse_thrown (sch : ZodType) (data : value) (e : Error) :
  parse sch data = inl (Thrown e) ->
  e = new_Error "Validation failed but no issues detected.".
Proof.
  unfold parse. destruct (sch data) as [[|v] [|i iss]]; cbn; congruence.
Qed.

(** Issues make [parse] throw them all. *)
Lemma parse_issues (sch : ZodType) (data : value) :
  (sch data).2 <> [] -> parse sch data = inl (ZodError (sch data).2).
Proof.
  unfold parse. destruct (sch data) as [[|v] [|i iss]]; cbn; congruence.
Qed.

(** ** Content type *)

(** C6: a POST or PUT whose content type is not application/json is
    answered 415 whatever its path id and body are, and leaves the world
    as it was: neither the identifier nor the body is looked at, so no
    validation error and no write can come of it. *)
Theorem non_json_write_is_415 (r : Resource) (req : Request) (sys : Sys)
  (w : World) :
  req_is req "application/json" = false ->
  serve POST r req sys w
    = (json 415 (Msg "Content-Type must be application/json"), w)
  /\ serve PUT r req sys w
    = (json 415 (Msg "Content-Type must be application/json"), w).
Proof.
  intros Hct. rewrite serve_post, serve_put.
  unfold App.generic_post, App.generic_put. by rewrite Hct.
Qed.

(** ** Path identifiers *)

(** C2 (as the code has it): on each of the four resources the path id
    parses exactly when it is 24 hexadecimal characters, in either case.
    Any other string makes [parseId] throw its 400 error.  Get-by-id and
    delete hand the error to the error handler, which prints it and
    answers 400 with the message of the router; so does replace when the
    request is JSON.  A replace that is not JSON is answered 415, before
    the id is looked at.  The answer is never 404 or 500, and neither
    the stored data nor the handle change. *)
Theorem malformed_id_is_400 (r : Resource) (id : string) :
  (Hex24 id -> parseId r id = inr (toLowerCase id))
  /\ (~ Hex24 id ->
      let e := {| message := match r with
                             | anime | manga => "Invalid id"
                             | users | watchlists => "Invalid id format"
                             end;
                  statusCode := Some 400%Z; expose := Some true |} in
      let bad_id := json 400 (Msg (message e)) in
      parseId r id = inl (Thrown e)
      /\ forall (req : Request) (sys : Sys) (w : World),
          params_id req = id ->
          serve GET r req sys w = (bad_id, logged (Thrown e) w)
          /\ serve DELETE r req sys w = (bad_id, logged (Thrown e) w)
          /\ (req_is req "application/json" = true ->
              serve PUT r req sys w = (bad_id, logged (Thrown e) w))
          /\ (req_is req "application/json" = false ->
              serve PUT r req sys w
              = (json 415 (Msg "Content-Type must be application/json"), w))
          /\ status (serve PUT r req sys w).1 <> 404%Z
          /\ status (serve PUT r req sys w).1 <> 500%Z
          /\ data (serve PUT r req sys w).2 = data w
          /\ db (serve PUT r req sys w).2 = db w).
Proof.
  split.
  - intros H%hex24_Hex24. by apply parseId_ok.
  - intros Hbad e bad_id.
    assert (hex24 id = false) as Hf.
    { destruct (hex24 id) eqn:E; [|done]. by apply hex24_Hex24 in E. }
    pose proof (parseId_fail r id Hf) as Hp. split; [exact Hp|].
    intros req sys w <-.
    rewrite serve_get, serve_delete, serve_put.
    unfold generic_get, generic_delete, App.generic_put. rewrite Hp.
    repeat split; try done; try (by intros ->);
      by destruct (req_is req "application/json").
Qed.

(** ** Validation reports *)

(** C5 (as the code has it): when the body of a JSON create or replace
    is an object with invalid fields, the create is answered 400 with
    the flattened error, and so is the replace when its path id is
    well-formed; every invalid field has an entry in [fieldErrors] with
    at least one issue: the report names all of them, not the first.  A
    replace whose path id is not an identifier is answered 400 with the
    message of the id error and no report: the id is parsed before the
    body is validated. *)
Theorem every_invalid_field_is_reported (r : Resource) (req : Request)
  (sys : Sys) (w : World) (props : gmap string value) :
  body req = VObj props ->
  req_is req "application/json" = true ->
  (exists key, invalid_field r props key) ->
  exists errors : Flattened,
    serve POST r req sys w = (json 400 (Invalid "Validation error" errors), w)
    /\ (Hex24 (params_id req) ->
        serve PUT r req sys w
          = (json 400 (Invalid "Validation error" errors), w))
    /\ (~ Hex24 (params_id req) ->
        exists msg, (serve PUT r req sys w).1 = json 400 (Msg msg))
    /\ forall key, invalid_field r props key ->
        exists l, fieldErrors errors !! key = Some l /\ l <> [].
Proof.
  intros Hbody Hct [key0 Hbad0].
  assert (forall key, invalid_field r props key ->
            exists i, i ∈ (schema r (VObj props)).2 /\ at_key key i = true) as Hiss.
  { intros key (validator & Hin & Hne). rewrite schema_shape.
    destruct (validator (get props key)).2 as [|i iss] eqn:E; [done|].
    exists (under (PKey key) i). split.
    - eapply z_object_field_issue; [done|]. rewrite E. apply elem_of_cons. by left.
    - unfold at_key. cbn. apply String.eqb_refl. }
  assert (parse (schema r) (body req)
          = inl (ZodError (schema r (VObj props)).2)) as Hparse.
  { rewrite Hbody. apply parse_issues. destruct (Hiss _ Hbad0) as (i & Hi & _).
    intros E. rewrite E in Hi. by apply elem_of_nil in Hi. }
  exists (flatten (schema r (VObj props)).2). repeat split.
  - rewrite serve_post. unfold App.generic_post. by rewrite Hct, Hparse.
  - intros Hid%hex24_Hex24. rewrite serve_put. unfold App.generic_put.
    by rewrite Hct, (parseId_ok _ _ Hid), Hparse.
  - intros Hid.
    assert (hex24 (params_id req) = false) as Hf.
    { destruct (hex24 (params_id req)) eqn:E; [|done]. by apply hex24_Hex24 in E. }
    rewrite serve_put. unfold App.generic_put.
    rewrite Hct, (parseId_fail _ _ Hf). by eexists.
  - intros key Hbad. destruct (Hiss _ Hbad) as (i & Hi & Hk).
    destruct (flatten_lists _ _ _ Hi Hk) as (l & Hl & Hil).
    exists l. split; [done|]. intros ->. by apply elem_of_nil in Hil.
Qed.

(** ** Undeclared fields *)

Lemma shape_keys_distinct (r : Resource) : NoDup (shape r).*1.
Proof. destruct r; cbn; by apply (bool_decide_unpack _). Qed.

Lemma shape_no_timestamps (r : Resource) (k : string) :
  k ∈ (shape r).*1 ->
  k <> "createdAt" /\ k <> "updatedAt" /\ k <> "_id" /\ k <> "__proto__".
Proof.
  destruct r; cbn; intros H;
    repeat (apply elem_of_cons in H as [->|H]; [by repeat split|]);
    by apply elem_of_nil in H.
Qed.

(** C10: creates and replaces read the body at the declared keys only.
    Two bodies that agree on the keys of the schema get the same answer
    and leave the same world, so an undeclared field is never a reason to
    reject; and a document stored by a create has no key beyond the
    declared ones and the two timestamps. *)
Theorem undeclared_fields_are_stripped (r : Resource) (req1 req2 : Request)
  (sys : Sys) (w : World) (props1 props2 : gmap string value) :
  body req1 = VObj props1 ->
  body req2 = VObj props2 ->
  params_id req1 = params_id req2 ->
  req_is req1 "application/json" = req_is req2 "application/json" ->
  (forall k, k ∈ (shape r).*1 -> props1 !! k = props2 !! k) ->
  serve POST r req1 sys w = serve POST r req2 sys w
  /\ serve PUT r req1 sys w = serve PUT r req2 sys w
  /\ (forall res w', serve POST r req1 sys w = (res, w') ->
      status res = 201%Z ->
      exists stored,
        find_one (data w') (collection_name r) (fresh sys) = Some stored
        /\ forall k, is_Some (stored !! k) ->
            k ∈ (shape r).*1 \/ k = "createdAt" \/ k = "updatedAt").
Proof.
  intros Hb1 Hb2 Hid Hct Hagree.
  assert (parse (schema r) (body req1) = parse (schema r) (body req2)) as Hparse.
  { unfold parse. rewrite Hb1, Hb2, schema_shape.
    by rewrite (z_object_ext _ _ _ Hagree). }
  rewrite !serve_post, !serve_put. unfold App.generic_post, App.generic_put.
  rewrite <- Hid, <- Hct, <- Hparse. repeat split.
  intros res w'. destruct (req_is req1 "application/json"); cbn [negb].
  2:{ by intros [= <- <-]. }
  destruct (parse (schema r) (body req1)) as [err|parsed] eqn:Hp.
  { destruct err as [e|iss]; cbn; intros [= <- <-]; [|done].
    by rewrite (parse_thrown _ _ _ Hp). }
  destruct (db w); [|by intros [= <- <-]].
  destruct (find_one (data w) (collection_name r) (fresh sys)) eqn:Hfree.
  { unfold insert_one. unfold find_one in Hfree. rewrite Hfree.
    by intros [= <- <-]. }
  rewrite (insert_one_free _ _ _ _ Hfree).
  intros [= <- <-] _. eexists. split.
  { cbn [with_data data]. apply find_one_written. }
  rewrite schema_shape in Hp.
  destruct (parse_object_keys _ _ _ Hp) as (props & m & _ & -> & _ & Hkeys).
  intros k. destruct r; cbn [created_doc spread];
    repeat (rewrite lookup_insert; case_decide; [subst; auto|]); auto.
Qed.

(** ** Replace and timestamps *)

(** What the validator of a declared field makes of absent data: required
    fields abort, optional ones return [undefined], defaulted ones their
    default. *)
Lemma absent_field (r : Resource) (key : string) (validator : ZodType)
  (v : value) :
  (key, validator) ∈ shape r ->
  key ∉ defaulted r ->
  validator VUndefined = (OK v, []) ->
  v = VUndefined.
Proof.
  destruct r; cbn [App.shape defaulted]; intros Hin Hdef;
    unfold Anime.AnimeShape, Manga.MangaShape, Users.UserShape,
      Watchlists.WatchItemShape in Hin;
    repeat (apply elem_of_cons in Hin as [Heq|Hin];
            [injection Heq as -> ->; try (vm_compute; congruence);
             exfalso; apply Hdef; apply elem_of_cons; by left|]);
    by apply elem_of_nil in Hin.
Qed.

(** A field the body omits, and the schema does not default, is not in
    the validated object. *)
Lemma omitted_not_validated (r : Resource) (props m : gmap string value)
  (key : string) :
  parse (schema r) (VObj props) = inr (VObj m) ->
  props !! key = None ->
  key ∉ defaulted r ->
  m !! key = None.
Proof.
  intros Hparse Habsent Hdef. rewrite schema_shape in Hparse.
  destruct (decide (key ∈ (shape r).*1)) as [Hin|Hout].
  - apply list_elem_of_fmap in Hin as ([key' validator] & -> & Hin).
    cbn [fst] in *.
    destruct (shape_no_timestamps r key') as (_ & _ & _ & Hproto).
    { apply list_elem_of_fmap. by exists (key', validator). }
    destruct (parse_object_field _ _ _ _ _ Hparse (shape_keys_distinct r) Hin Hproto)
      as (v & Hv & Hm).
    assert (get props key' = VUndefined) as Hget by (unfold get; by rewrite Habsent).
    assert (has props key' = false) as Hhas.
    { unfold has. rewrite Habsent. apply bool_decide_eq_false_2. by intros [? ?]. }
    rewrite Hget in Hv. rewrite (absent_field _ _ _ _ Hin Hdef Hv), Hhas in Hm.
    done.
  - destruct (parse_object_keys _ _ _ Hparse) as (? & m' & _ & [= <-] & _ & Hkeys).
    destruct (m !! key) eqn:E; [|done]. exfalso. apply Hout, Hkeys. by rewrite E.
Qed.

Lemma validated_no_timestamps (r : Resource) (data parsed : value) :
  parse (schema r) data = inr parsed ->
  spread parsed !! "createdAt" = None /\ spread parsed !! "updatedAt" = None
  /\ forall k, is_Some (spread parsed !! k) -> k ∈ (shape r).*1.
Proof.
  intros Hparse. rewrite schema_shape in Hparse.
  destruct (parse_object_keys _ _ _ Hparse) as (? & m & _ & -> & _ & Hkeys).
  cbn [spread]. repeat split; [| |done].
  - destruct (m !! "createdAt") eqn:E; [|done].
    destruct (shape_no_timestamps r "createdAt") as [? _]; [|done].
    apply Hkeys. by rewrite E.
  - destruct (m !! "updatedAt") eqn:E; [|done].
    destruct (shape_no_timestamps r "updatedAt") as (_ & ? & _); [|done].
    apply Hkeys. by rewrite E.
Qed.

(** The document a successful replace leaves in the collection. *)
Lemma replace_stored (r : Resource) (req : Request)
  (sys : Sys) (w : World) (oid : ObjectId) (parsed : value) (old : Document)
  (h : Db) :
  req_is req "application/json" = true ->
  parseId r (params_id req) = inr oid ->
  parse (schema r) (body req) = inr parsed ->
  db w = Some h ->
  find_one (data w) (collection_name r) oid = Some old ->
  exists w' : World,
    serve PUT r req sys w = (json 204 Empty, w')
    /\ find_one (data w') (collection_name r) oid
       = Some (replacement_doc r (now sys) parsed).
Proof.
  intros Hct Hid Hparse Hdb Hold.
  exists (with_data w (<[collection_name r :=
                          <[oid := replacement_doc r (now sys) parsed]>
                            (collection_of (data w) (collection_name r))]> (data w))).
  split.
  - rewrite serve_put. unfold App.generic_put.
    by rewrite Hct, Hid, Hparse, Hdb, (replace_one_found _ _ _ _ _ Hold).
  - cbn [with_data data]. apply find_one_written.
Qed.

(** C1 (as the code has it): a successful PUT on an existing anime, user
    or watchlist record stores exactly the validated fields of the
    replacement body plus [updatedAt], read from the clock at the request.
    Nothing of the prior version remains: a field the body omits (and the
    schema does not default) is absent afterward, and so is [createdAt]. *)
Theorem put_stores_validated_fields_only (r : Resource) (req : Request)
  (sys : Sys) (w : World) (oid : ObjectId) (parsed : value) (old : Document)
  (h : Db) :
  r <> manga ->
  req_is req "application/json" = true ->
  parseId r (params_id req) = inr oid ->
  parse (schema r) (body req) = inr parsed ->
  db w = Some h ->
  find_one (data w) (collection_name r) oid = Some old ->
  exists (w' : World) (stored : Document),
    serve PUT r req sys w = (json 204 Empty, w')
    /\ find_one (data w') (collection_name r) oid = Some stored
    /\ stored = <["updatedAt" := VDate (now sys)]> (spread parsed)
    /\ stored !! "updatedAt" = Some (VDate (now sys))
    /\ stored !! "createdAt" = None
    /\ (forall k, is_Some (stored !! k) -> k = "updatedAt" \/ k ∈ (shape r).*1)
    /\ (forall props k,
          body req = VObj props -> props !! k = None ->
          k ∉ defaulted r -> k <> "updatedAt" -> stored !! k = None).
Proof.
  intros Hr Hct Hid Hparse Hdb Hold.
  destruct (replace_stored r req sys w oid parsed old h) as (w' & Hput & Hfind);
    try done.
  destruct (validated_no_timestamps _ _ _ Hparse) as (Hc & Hu & Hkeys).
  assert (replacement_doc r (now sys) parsed
          = <["updatedAt" := VDate (now sys)]> (spread parsed)) as Hdoc.
  { by destruct r. }
  rewrite Hdoc in Hfind.
  exists w', (<["updatedAt" := VDate (now sys)]> (spread parsed)).
  repeat split; try done.
  - apply lookup_insert_eq.
  - by rewrite lookup_insert_ne.
  - intros k Hk. destruct (decide (k = "updatedAt")) as [|Hne]; [by left|right].
    rewrite lookup_insert_ne in Hk by done. by apply Hkeys.
  - intros props k Hbody Hk Hdef Hne. rewrite lookup_insert_ne by done.
    rewrite Hbody, schema_shape in Hparse.
    destruct (parse_object_keys _ _ _ Hparse) as (? & m & _ & -> & _ & _).
    rewrite <- schema_shape in Hparse. cbn [spread].
    by eapply omitted_not_validated.
Qed.

(** C3 (as the code has it): for anime, users and watchlists a successful
    create stores [createdAt] and [updatedAt], both read from the clock at
    the request, and a successful replace stores a fresh [updatedAt]; the
    replaced document has no [createdAt]. *)
Theorem timestamps_on_create_and_replace (r : Resource) (req : Request)
  (sys : Sys) (w : World) (parsed : value) (h : Db) :
  r <> manga ->
  req_is req "application/json" = true ->
  parse (schema r) (body req) = inr parsed ->
  db w = Some h ->
  (find_one (data w) (collection_name r) (fresh sys) = None ->
   exists (w' : World) (stored : Document),
     serve POST r req sys w
       = (json_at 201 ("/" +:+ collection_name r +:+ "/" +:+ fresh sys)
            (NewId (fresh sys)), w')
     /\ find_one (data w') (collection_name r) (fresh sys) = Some stored
     /\ stored !! "createdAt" = Some (VDate (now sys))
     /\ stored !! "updatedAt" = Some (VDate (now sys)))
  /\ (forall (oid : ObjectId) (old : Document),
        parseId r (params_id req) = inr oid ->
        find_one (data w) (collection_name r) oid = Some old ->
        exists (w' : World) (stored : Document),
          serve PUT r req sys w = (json 204 Empty, w')
          /\ find_one (data w') (collection_name r) oid = Some stored
          /\ stored !! "updatedAt" = Some (VDate (now sys))
          /\ stored !! "createdAt" = None).
Proof.
  intros Hr Hct Hparse Hdb. split.
  - intros Hfree.
    exists (with_data w (<[collection_name r :=
                            <[fresh sys := created_doc r (now sys) parsed]>
                              (collection_of (data w) (collection_name r))]> (data w))),
      (created_doc r (now sys) parsed).
    repeat split.
    + rewrite serve_post. unfold App.generic_post.
      by rewrite Hct, Hparse, Hdb, (insert_one_free _ _ _ _ Hfree).
    + cbn [with_data data]. apply find_one_written.
    + destruct r; try done; cbn [created_doc];
        (rewrite lookup_insert_ne by done); apply lookup_insert_eq.
    + destruct r; try done; apply lookup_insert_eq.
  - intros oid old Hid Hold.
    destruct (replace_stored r req sys w oid parsed old h) as (w' & Hput & Hfind);
      try done.
    destruct (validated_no_timestamps _ _ _ Hparse) as (Hc & _ & _).
    exists w', (replacement_doc r (now sys) parsed). repeat split; try done.
    + destruct r; try done; apply lookup_insert_eq.
    + destruct r; try done; cbn [replacement_doc]; by rewrite lookup_insert_ne.
Qed.

(** The manga router stores the validated body as it is: its documents
    carry no timestamp, after a create as after a replace. *)
Lemma manga_stores_bare_payload (req : Request) (sys : Sys) (w : World)
  (parsed : value) (h : Db) :
  req_is req "application/json" = true ->
  parse (schema manga) (body req) = inr parsed ->
  db w = Some h ->
  spread parsed !! "createdAt" = None
  /\ spread parsed !! "updatedAt" = None
  /\ (find_one (data w) "manga" (fresh sys) = None ->
      find_one (data (serve POST manga req sys w).2) "manga" (fresh sys)
      = Some (spread parsed))
  /\ (forall (oid : ObjectId) (old : Document),
        parseId manga (params_id req) = inr oid ->
        find_one (data w) "manga" oid = Some old ->
        find_one (data (serve PUT manga req sys w).2) "manga" oid
        = Some (spread parsed)).
Proof.
  intros Hct Hparse Hdb.
  destruct (validated_no_timestamps _ _ _ Hparse) as (Hc & Hu & _).
  repeat split; try done.
  - intros Hfree. rewrite serve_post. unfold App.generic_post.
    rewrite Hct, Hparse, Hdb. cbn [negb collection_name].
    rewrite (insert_one_free _ _ _ _ Hfree). cbn [snd with_data data].
    apply find_one_written.
  - intros oid old Hid Hold.
    destruct (replace_stored manga req sys w oid parsed old h)
      as (w' & Hput & Hfind); try done.
    by rewrite Hput.
Qed.

(** ** Coercion and strictness *)

Lemma number_result (coerce : bool) (checks : list NumberCheck) (n : float)
  (v : value) (iss : list ZodIssue) :
  ZodNumber StringToNumber ObjectToNumber coerce checks (VNum n) = (OK v, iss) ->
  v = VNum n.
Proof.
  unfold ZodNumber. destruct coerce; cbn [Number]; destruct (is_nan n); congruence.
Qed.

(** In the three numeric fields of an anime body a string is read as the
    number it converts to. *)
Lemma anime_string_as_number (f s : string) (props : gmap string value) :
  f ∈ ["releaseYear"; "rating"; "episodes"] ->
  schema anime (VObj (<[f := VStr s]> props))
  = schema anime (VObj (<[f := VNum (StringToNumber s)]> props)).
Proof.
  intros Hf. cbn [App.schema]. unfold Anime.AnimeSchema. cbn [z_object].
  assert (pairs_of (Anime.AnimeShape currentYear StringToNumber ObjectToNumber is_url)
            (<[f := VStr s]> props)
          = pairs_of (Anime.AnimeShape currentYear StringToNumber ObjectToNumber is_url)
              (<[f := VNum (StringToNumber s)]> props)) as ->; [|done].
  unfold pairs_of, Anime.AnimeShape. cbn [fmap list_fmap fst snd].
  rewrite !get_insert, !has_insert.
  repeat (apply elem_of_cons in Hf as [->|Hf]; [reflexivity|]).
  by apply elem_of_nil in Hf.
Qed.

(** A string in a numeric field of a manga body raises an invalid-type
    issue at that field. *)
Lemma manga_string_issue (f s : string) (props : gmap string value) :
  f ∈ ["chapters"; "releaseYear"; "rating"] ->
  {| code := invalid_type; path := [PKey f]; msg := None |}
  ∈ (schema manga (VObj (<[f := VStr s]> props))).2.
Proof.
  intros Hf. rewrite schema_shape. cbn [App.shape]. unfold Manga.MangaShape.
  change {| code := invalid_type; path := [PKey f]; msg := None |}
    with (under (PKey f) (issue invalid_type)).
  repeat (apply elem_of_cons in Hf as [->|Hf];
          [eapply z_object_field_issue;
           [repeat (first [by apply list_elem_of_here | apply list_elem_of_further])|];
           rewrite get_insert, String.eqb_refl; cbn; apply list_elem_of_here|]).
  by apply elem_of_nil in Hf.
Qed.

(** C4: the Anime validator reads a string in [releaseYear], [rating] or
    [episodes] as the number it converts to: the payload is validated
    exactly as if the number had been sent, and when that payload is
    valid the string is accepted and the validated field is the number.
    The Manga validator rejects every string in [chapters], [releaseYear]
    or [rating] with an invalid-type issue on that field, and the User
    validator rejects a payload whose [email] is not an address,
    [displayName] not a non-empty string, or [role] something else than
    "user" or "admin". *)
Theorem anime_coerces_manga_and_users_do_not :
  (forall (f s : string) (props : gmap string value),
      f ∈ ["releaseYear"; "rating"; "episodes"] ->
      parse (schema anime) (VObj (<[f := VStr s]> props))
      = parse (schema anime) (VObj (<[f := VNum (StringToNumber s)]> props)))
  /\ (forall (f s : string) (props : gmap string value) (v : value),
        f ∈ ["releaseYear"; "rating"; "episodes"] ->
        parse (schema anime) (VObj (<[f := VNum (StringToNumber s)]> props)) = inr v ->
        parse (schema anime) (VObj (<[f := VStr s]> props)) = inr v
        /\ spread v !! f = Some (VNum (StringToNumber s))
        /\ is_nan (StringToNumber s) = false)
  /\ (forall (f s : string) (props : gmap string value),
        f ∈ ["chapters"; "releaseYear"; "rating"] ->
        exists issues,
          parse (schema manga) (VObj (<[f := VStr s]> props)) = inl (ZodError issues)
          /\ {| code := invalid_type; path := [PKey f]; msg := None |} ∈ issues)
  /\ (forall (f : string) (x : value) (props : gmap string value),
        (f = "email" /\ (forall s, x = VStr s -> is_email s = false))
        \/ (f = "displayName" /\ (forall s, x = VStr s -> s = ""))
        \/ (f = "role" /\ x <> VUndefined /\ x <> VStr "user" /\ x <> VStr "admin") ->
        exists issues i,
          parse (schema users) (VObj (<[f := x]> props)) = inl (ZodError issues)
          /\ i ∈ issues /\ path i = [PKey f]).
Proof.
  assert (forall (f s : string) (props : gmap string value),
             f ∈ ["releaseYear"; "rating"; "episodes"] ->
             parse (schema anime) (VObj (<[f := VStr s]> props))
             = parse (schema anime) (VObj (<[f := VNum (StringToNumber s)]> props)))
    as Hsame.
  { intros f s props Hf. unfold parse. by rewrite anime_string_as_number. }
  split; [done|]. split; [|split].
  - intros f s props v Hf Hparse. split; [by rewrite Hsame|].
    rewrite schema_shape in Hparse.
    destruct (parse_object_keys _ _ _ Hparse) as (? & m & _ & -> & _ & _).
    cbn [spread].
    assert (exists validator,
               (f, validator) ∈ shape anime
               /\ forall n v0 iss, validator (VNum n) = (OK v0, iss) ->
                                   v0 = VNum n /\ is_nan n = false) as (validator & Hin & Hnum).
    { cbn [App.shape]. unfold Anime.AnimeShape.
      repeat (apply elem_of_cons in Hf as [->|Hf];
              [eexists; split;
               [repeat (first [by apply list_elem_of_here | apply list_elem_of_further])|];
               intros n v0 iss; unfold z_optional, z_coerce_number, ZodNumber;
               cbn [Number]; destruct (is_nan n); [discriminate|];
               by intros [= <- _]|]).
      by apply elem_of_nil in Hf. }
    destruct (shape_no_timestamps anime f) as (_ & _ & _ & Hproto).
    { apply list_elem_of_fmap. by exists (f, validator). }
    destruct (parse_object_field _ _ _ _ _ Hparse (shape_keys_distinct anime) Hin Hproto)
      as (v0 & Hv & Hm).
    rewrite get_insert, String.eqb_refl in Hv.
    destruct (Hnum _ _ _ Hv) as [-> Hnan]. done.
  - intros f s props Hf.
    pose proof (manga_string_issue f s props Hf) as Hi.
    eexists. split; [|exact Hi].
    apply parse_issues. intros Hnil. rewrite Hnil in Hi. by apply elem_of_nil in Hi.
  - intros f x props Hbad.
    assert (exists validator i0,
               (f, validator) ∈ shape users /\ i0 ∈ (validator x).2
               /\ path i0 = []) as (validator & i0 & Hin & Hi0 & Hpath).
    { cbn [App.shape]. unfold Users.UserShape.
      destruct Hbad as [[-> Hx]|[[-> Hx]|(-> & Hu & Hx1 & Hx2)]].
      - exists (z_string [s_test is_email None]).
        destruct x;
          (eexists; split; [apply list_elem_of_here|]); cbn;
          try (split; [apply list_elem_of_here|reflexivity]).
        rewrite (Hx _ eq_refl). split; [apply list_elem_of_here|reflexivity].
      - exists (z_string [s_min 1]).
        destruct x;
          (eexists; split; [apply list_elem_of_further, list_elem_of_here|]);
          cbn; try (split; [apply list_elem_of_here|reflexivity]).
        rewrite (Hx _ eq_refl). split; [apply list_elem_of_here|reflexivity].
      - exists (z_default (z_enum ["user"; "admin"]) (VStr "user")).
        destruct x; try done;
          (eexists; split;
           [apply list_elem_of_further, list_elem_of_further, list_elem_of_here|]);
          cbn; try (split; [apply list_elem_of_here|reflexivity]).
        rewrite bool_decide_eq_false_2;
          [split; [apply list_elem_of_here|reflexivity]|].
        intros Hs. repeat (apply elem_of_cons in Hs as [->|Hs]; [done|]).
        by apply elem_of_nil in Hs. }
    assert (under (PKey f) i0 ∈ (schema users (VObj (<[f := x]> props))).2) as Hi.
    { rewrite schema_shape. eapply z_object_field_issue; [done|].
      by rewrite get_insert, String.eqb_refl. }
    exists (schema users (VObj (<[f := x]> props))).2, (under (PKey f) i0).
    split; [|split; [exact Hi|by cbn; rewrite Hpath]].
    apply parse_issues. intros Hnil. rewrite Hnil in Hi. by apply elem_of_nil in Hi.
Qed.

(** ** Defaults *)

(** Writing a value at a key changes nothing when the validator of the
    key treats it as it treats what was there. *)
Lemma z_object_insert (sh : Shape) (props : gmap string value) (key : string)
  (x : value) :
  (forall validator, (key, validator) ∈ sh ->
     validator (get props key) = validator x
     /\ (validator x).1 <> OK VUndefined) ->
  z_object sh (VObj props) = z_object sh (VObj (<[key := x]> props)).
Proof.
  intros Hkey. apply z_object_congr. unfold pairs_of.
  induction sh as [|[k validator] sh IH]; [constructor|].
  rewrite !fmap_cons. constructor.
  - unfold same_outcome. cbn [fst snd]. rewrite get_insert, has_insert.
    destruct (String.eqb_spec key k) as [->|Hne]; cbn [orb].
    2:{ split; [done|]. by destruct (validator (get props k)).1 as [|[]]. }
    destruct (Hkey validator) as [Heq Hdef]; [apply list_elem_of_here|].
    rewrite Heq. split; [done|]. cbn [fst snd].
    by destruct (validator x) as [[|[]] iss].
  - apply IH. intros v Hin. apply Hkey. by apply list_elem_of_further.
Qed.

Lemma created_doc_field (r : Resource) (t : Z) (parsed : value) (k : string) :
  k ∈ (shape r).*1 ->
  created_doc r t parsed !! k = spread parsed !! k.
Proof.
  intros Hk. destruct (shape_no_timestamps r k Hk) as (Hc & Hu & _).
  destruct r; cbn [created_doc]; by rewrite ?lookup_insert_ne.
Qed.

(** A body that leaves out a defaulted field is validated, and stored by
    a create, as the same body with the default written out. *)
Lemma default_written_out (r : Resource) (key dflt : string)
  (props : gmap string value) (v : value) :
  (r = watchlists /\ key = "status" /\ dflt = "planned")
  \/ (r = users /\ key = "role" /\ dflt = "user") ->
  props !! key = None ->
  parse (schema r) (VObj (<[key := VStr dflt]> props)) = inr v ->
  parse (schema r) (VObj props) = inr v
  /\ spread v !! key = Some (VStr dflt)
  /\ forall (req : Request) (sys : Sys) (w : World) (h : Db),
      body req = VObj props ->
      req_is req "application/json" = true ->
      db w = Some h ->
      find_one (data w) (collection_name r) (fresh sys) = None ->
      exists (w' : World) (stored : Document),
        serve POST r req sys w
          = (json_at 201 ("/" +:+ collection_name r +:+ "/" +:+ fresh sys)
               (NewId (fresh sys)), w')
        /\ find_one (data w') (collection_name r) (fresh sys) = Some stored
        /\ stored !! key = Some (VStr dflt).
Proof.
  intros Hcase Habsent Hparse.
  assert (get props key = VUndefined) as Hget by (unfold get; by rewrite Habsent).
  assert (exists validator,
             (key, validator) ∈ shape r
             /\ validator VUndefined = (OK (VStr dflt), [])
             /\ validator (VStr dflt) = (OK (VStr dflt), [])
             /\ forall validator', (key, validator') ∈ shape r -> validator' = validator)
    as (validator & Hin & Hu & Hd & Huniq).
  { destruct Hcase as [(-> & -> & ->)|(-> & -> & ->)]; cbn [App.shape];
      unfold Watchlists.WatchItemShape, Users.UserShape;
      (eexists; split;
       [repeat (first [by apply list_elem_of_here | apply list_elem_of_further])|]);
      (split; [by vm_compute|]); (split; [by vm_compute|]);
      intros validator' Hin;
      repeat (apply elem_of_cons in Hin as [Heq|Hin]; [by simplify_eq|]);
      by apply elem_of_nil in Hin. }
  assert (parse (schema r) (VObj props) = inr v) as Hparse'.
  { rewrite <- Hparse. unfold parse. rewrite schema_shape.
    rewrite (z_object_insert (shape r) props key (VStr dflt)); [done|].
    intros validator' Hin'. rewrite (Huniq _ Hin'), Hget, Hu, Hd. done. }
  assert (spread v !! key = Some (VStr dflt)) as Hval.
  { rewrite schema_shape in Hparse.
    destruct (parse_object_keys _ _ _ Hparse) as (? & m & _ & -> & _ & _).
    destruct (shape_no_timestamps r key) as (_ & _ & _ & Hproto).
    { apply list_elem_of_fmap. by exists (key, validator). }
    destruct (parse_object_field _ _ _ _ _ Hparse (shape_keys_distinct r) Hin Hproto)
      as (v0 & Hv0 & Hm).
    rewrite get_insert, String.eqb_refl, Hd in Hv0. by simplify_eq. }
  repeat split; [done..|].
  intros req sys w h Hbody Hct Hdb Hfree.
  exists (with_data w (<[collection_name r :=
                          <[fresh sys := created_doc r (now sys) v]>
                            (collection_of (data w) (collection_name r))]> (data w))),
    (created_doc r (now sys) v).
  repeat split.
  - rewrite serve_post. unfold App.generic_post.
    by rewrite Hct, Hbody, Hparse', Hdb, (insert_one_free _ _ _ _ Hfree).
  - cbn [with_data data]. apply find_one_written.
  - rewrite created_doc_field; [done|].
    apply list_elem_of_fmap. by exists (key, validator).
Qed.

(** C8: a watchlist-item body without [status] that is valid once
    [status: "planned"] is written out is valid as it stands, is validated
    with [status] set to "planned", and a create stores it so; the same
    holds of a user body without [role] and the role "user". *)
Theorem defaults_fill_status_and_role (props : gmap string value) (v : value) :
  (props !! "status" = None ->
   parse (schema watchlists) (VObj (<["status" := VStr "planned"]> props)) = inr v ->
   parse (schema watchlists) (VObj props) = inr v
   /\ spread v !! "status" = Some (VStr "planned")
   /\ forall (req : Request) (sys : Sys) (w : World) (h : Db),
       body req = VObj props ->
       req_is req "application/json" = true ->
       db w = Some h ->
       find_one (data w) "watchlists" (fresh sys) = None ->
       exists (w' : World) (stored : Document),
         serve POST watchlists req sys w
           = (json_at 201 ("/watchlists/" +:+ fresh sys) (NewId (fresh sys)), w')
         /\ find_one (data w') "watchlists" (fresh sys) = Some stored
         /\ stored !! "status" = Some (VStr "planned"))
  /\ (props !! "role" = None ->
      parse (schema users) (VObj (<["role" := VStr "user"]> props)) = inr v ->
      parse (schema users) (VObj props) = inr v
      /\ spread v !! "role" = Some (VStr "user")
      /\ forall (req : Request) (sys : Sys) (w : World) (h : Db),
          body req = VObj props ->
          req_is req "application/json" = true ->
          db w = Some h ->
          find_one (data w) "users" (fresh sys) = None ->
          exists (w' : World) (stored : Document),
            serve POST users req sys w
              = (json_at 201 ("/users/" +:+ fresh sys) (NewId (fresh sys)), w')
            /\ find_one (data w') "users" (fresh sys) = Some stored
            /\ stored !! "role" = Some (VStr "user")).
Proof.
  split; intros Habsent Hparse.
  - apply (default_written_out watchlists "status" "planned"); auto.
  - apply (default_written_out users "role" "user"); auto.
Qed.

End Routers.

(** ** The connection and the gate *)

Section Lifecycle.

Variable currentYear : float.
Variable StringToNumber : string -> float.
Variable ObjectToNumber : value -> float.
Variable is_url : string -> bool.
Variable is_email : string -> bool.
Variable is_connection_string : string -> bool.
Variable auth : Auth.AuthOptions -> Middleware.
Variable requiredScopes : string -> Middleware.

Local Abbreviation serve := (serve currentYear StringToNumber ObjectToNumber is_url is_email).
Local Abbreviation run :=
  (run currentYear StringToNumber ObjectToNumber is_url is_email is_connection_string).
Local Abbreviation connectToDb := (connectToDb is_connection_string).
Local Abbreviation route :=
  (route currentYear StringToNumber ObjectToNumber is_url is_email auth requiredScopes).

(** Requests never touch the module variables of connect.js. *)
Lemma serve_keeps_connection (m : Method) (r : Resource) (req : Request)
  (sys : Sys) (w : World) :
  db (serve m r req sys w).2 = db w.
Proof.
  destruct m.
  - destruct r; cbv [App.serve handler Anime.get_all Manga.get_all
      Users.get_all Watchlists.get_all try_catch bind ret throw next getDb find];
      destruct (db w) eqn:E; cbn; by rewrite ?E.
  - rewrite serve_get. unfold generic_get.
    destruct (parseId r _); [done|]. destruct (db w) eqn:E; cbn; [|by rewrite E].
    destruct (find_one _ _ _); cbn; by rewrite E.
  - rewrite serve_post. unfold generic_post.
    destruct (negb _); [done|]. destruct (parse _ _) as [[?|?]|?]; [done..|].
    destruct (db w) eqn:E; cbn; [|by rewrite E].
    destruct (insert_one _ _ _ _) as [?|[? ?]]; cbn; by rewrite E.
  - rewrite serve_put. unfold generic_put.
    destruct (negb _); [done|]. destruct (parseId r _); [done|].
    destruct (parse _ _) as [[?|?]|?]; [done..|].
    destruct (db w) eqn:E; cbn; by rewrite E.
  - rewrite serve_delete. unfold generic_delete.
    destruct (parseId r _); [done|]. destruct (db w) eqn:E; cbn; by rewrite E.
Qed.

(** A call with a uri and a name, on an open handle, returns it and
    changes nothing. *)
Lemma connect_again (up : bool) (uri dbName : option string) (w : World)
  (h : Db) :
  truthy uri = true -> truthy dbName = true -> db w = Some h ->
  connectToDb up uri dbName w = (inr h, w).
Proof.
  intros Hu Hn Hdb. unfold ConnectJs.connectToDb. rewrite Hu, Hn. cbn [negb].
  by rewrite Hdb.
Qed.

(** What a call leaves in [db]: the handle it returned when it succeeded,
    and what was there when it threw. *)
Lemma connect_db (up : bool) (uri dbName : option string) (w : World) :
  match connectToDb up uri dbName w with
  | (inr h, w') => db w' = Some h /\ (forall h0, db w = Some h0 -> h = h0)
  | (inl _, w') => db w' = db w
  end.
Proof.
  unfold ConnectJs.connectToDb, new_MongoClient. destruct (truthy uri); [|done].
  destruct (truthy dbName); [|done]. cbn [negb].
  destruct (db w) as [h0|] eqn:E.
  - cbn. split; [done|]. intros h1 H1. congruence.
  - cbv [bind lift]. destruct (is_connection_string _); cbn; [|done].
    destruct up; cbn; [|done]. split; [done|]. intros h1 H1. congruence.
Qed.

(** Once a handle is open, it stays: later events only return it. *)
Lemma run_open (events : list Event) : forall (w : World) (h : Db),
  db w = Some h ->
  db (run events w).2 = Some h /\ forall h', h' ∈ (run events w).1 -> h' = h.
Proof.
  induction events as [|[up uri dbName|m r req sys] events IH]; intros w h Hdb;
    cbn [App.run].
  - split; [done|]. intros h' Hin. by apply elem_of_nil in Hin.
  - pose proof (connect_db up uri dbName w) as Hc.
    destruct (connectToDb up uri dbName w) as [[e|h1] w1].
    + rewrite <- Hc in Hdb. by apply IH.
    + destruct Hc as [Hdb1 Hsame]. rewrite (Hsame _ Hdb) in Hdb1.
      destruct (IH _ _ Hdb1) as [IH1 IH2]. cbn [fst snd]. split; [done|].
      intros h' Hin. apply elem_of_cons in Hin as [->|Hin]; [|by apply IH2].
      by apply Hsame.
  - apply IH. by rewrite serve_keeps_connection.
Qed.

(** C9: on an open handle, a call of [connectToDb] with a uri and a name
    returns that handle and leaves the world as it is (no new client, no
    line on the console); and starting from a process that has not
    connected, [getDb] returns a handle exactly when a call of
    [connectToDb] has succeeded (it is the handle of the first success,
    which every later success returned too), and throws the
    not-initialized error when none has. *)
Theorem connect_once_then_getDb (events : list Event) (w0 : World) :
  (forall (up : bool) (uri dbName : option string) (w : World) (h : Db),
      truthy uri = true -> truthy dbName = true -> db w = Some h ->
      connectToDb up uri dbName w = (inr h, w))
  /\ (db w0 = None ->
      let w := (run events w0).2 in
      match (run events w0).1 with
      | [] =>
          getDb w
          = (inl (Thrown (new_Error "DB not initialized. Call connectToDb first.")), w)
      | h :: later => getDb w = (inr h, w) /\ forall h', h' ∈ later -> h' = h
      end).
Proof.
  split; [apply connect_again|].
  revert w0. induction events as [|[up uri dbName|m r req sys] events IH];
    intros w0 Hdb; cbn [App.run].
  - cbn. unfold getDb. by rewrite Hdb.
  - pose proof (connect_db up uri dbName w0) as Hc.
    destruct (connectToDb up uri dbName w0) as [[e|h1] w1].
    + apply IH. by rewrite Hc.
    + destruct Hc as [Hdb1 _]. cbn [fst snd].
      destruct (run_open events w1 h1 Hdb1) as [Hfin Hall].
      split; [|done]. unfold getDb. by rewrite Hfin.
  - apply IH. by rewrite serve_keeps_connection.
Qed.

(** C7: the gate is fixed by the environment read at start-up.  Without
    an audience, or without both an issuer URL and a domain, or with
    AUTH_DISABLE spelling "true", both guards call [next()] on every
    request, unchanged, and a write route does what its handler does.
    With an audience and an issuer or domain, and the flag not set, the
    token check is the library's verifier for that audience, for RS256
    and for the issuer URL when one is set and https://<domain>
    otherwise; the scope check is the library's for write:library; and
    every write route runs the verifier, then the scope check on what
    the verifier passed on, and its handler only on what both let
    through: a request that a guard answers, or hands to [next(err)],
    never reaches the handler. *)
Theorem gate_follows_configuration (env : gmap string string) :
  let configured :=
    truthy (env !! "AUTH0_AUDIENCE") = true
    /\ (truthy (env !! "AUTH0_ISSUER_BASE_URL") = true
        \/ truthy (env !! "AUTH0_DOMAIN") = true) in
  let disabled := toLowerCase (default "" (env !! "AUTH_DISABLE")) = "true" in
  (~ configured \/ disabled ->
   (forall req, Auth.jwtCheck auth env req = Passed req
                /\ Auth.needWrite requiredScopes env req = Passed req)
   /\ forall m r req sys w, route env m r req sys w = serve m r req sys w)
  /\ (configured /\ ~ disabled ->
      exists issuer : option string,
        (truthy (env !! "AUTH0_ISSUER_BASE_URL") = true ->
         issuer = env !! "AUTH0_ISSUER_BASE_URL")
        /\ (truthy (env !! "AUTH0_ISSUER_BASE_URL") = false ->
            exists domain, env !! "AUTH0_DOMAIN" = Some domain
                           /\ issuer = Some ("https://" +:+ domain))
        /\ Auth.jwtCheck auth env
           = auth {| Auth.audience := env !! "AUTH0_AUDIENCE";
                     Auth.issuerBaseURL := issuer;
                     Auth.tokenSigningAlg := "RS256" |}
        /\ Auth.needWrite requiredScopes env = requiredScopes "write:library"
        /\ forall m r req sys w,
            m = POST \/ m = PUT \/ m = DELETE ->
            route env m r req sys w
            = match auth {| Auth.audience := env !! "AUTH0_AUDIENCE";
                            Auth.issuerBaseURL := issuer;
                            Auth.tokenSigningAlg := "RS256" |} req with
              | Answered res => (res, w)
              | Failed err => failed err w
              | Passed req1 =>
                  match requiredScopes "write:library" req1 with
                  | Answered res => (res, w)
                  | Failed err => failed err w
                  | Passed req2 => serve m r req2 sys w
                  end
              end).
Proof.
  intros configured disabled.
  assert (Auth.hasAuthConfig env = true <-> configured) as Hcfg.
  { unfold Auth.hasAuthConfig, configured.
    by rewrite andb_true_iff, orb_true_iff. }
  assert (Auth.AUTH_DISABLED env = true <-> disabled) as Hdis.
  { unfold Auth.AUTH_DISABLED, disabled, or_else.
    assert (default "" (if truthy (env !! "AUTH_DISABLE")
                        then env !! "AUTH_DISABLE" else Some "")
            = default "" (env !! "AUTH_DISABLE")) as ->.
    { destruct (env !! "AUTH_DISABLE") as [s|]; [|done]. cbn.
      by destruct (String.eqb_spec s "") as [->|]. }
    apply String.eqb_eq. }
  split.
  - intros Hoff.
    assert (Auth.hasAuthConfig env && negb (Auth.AUTH_DISABLED env) = false) as Hg.
    { destruct Hoff as [Hno|Hd].
      - destruct (Auth.hasAuthConfig env); [|done]. destruct Hno. by apply Hcfg.
      - apply Hdis in Hd. rewrite Hd. apply andb_false_r. }
    assert (forall req, Auth.jwtCheck auth env req = Passed req
                        /\ Auth.needWrite requiredScopes env req = Passed req)
      as Hpass.
    { intros req. unfold Auth.jwtCheck, Auth.needWrite, Auth.reqScopes.
      by rewrite Hg. }
    split; [done|]. intros m r req sys w. unfold App.route.
    destruct (Hpass req) as [-> ->]. by destruct m.
  - intros [Hc Hnd].
    assert (Auth.hasAuthConfig env && negb (Auth.AUTH_DISABLED env) = true) as Hg.
    { apply Hcfg in Hc. rewrite Hc. destruct (Auth.AUTH_DISABLED env); [|done].
      destruct Hnd. by apply Hdis. }
    exists (Auth.ISSUER_BASE_URL env).
    assert (Auth.jwtCheck auth env
            = auth {| Auth.audience := env !! "AUTH0_AUDIENCE";
                      Auth.issuerBaseURL := Auth.ISSUER_BASE_URL env;
                      Auth.tokenSigningAlg := "RS256" |}) as Hjwt.
    { unfold Auth.jwtCheck. by rewrite Hg. }
    assert (Auth.needWrite requiredScopes env = requiredScopes "write:library")
      as Hscope.
    { unfold Auth.needWrite, Auth.reqScopes. by rewrite Hg. }
    split; [|split; [|split; [exact Hjwt|split; [exact Hscope|]]]].
    + intros Hurl. unfold Auth.ISSUER_BASE_URL, or_else. by rewrite Hurl.
    + intros Hurl. unfold Auth.ISSUER_BASE_URL, or_else. rewrite Hurl.
      destruct Hc as [_ [Hc|Hc]]; [congruence|]. rewrite Hc.
      destruct (env !! "AUTH0_DOMAIN") as [domain|]; [|discriminate Hc].
      by exists domain.
    + intros m r req sys w Hm. unfold App.route. rewrite Hjwt, Hscope.
      by destruct Hm as [->|[->| ->]].
Qed.

End Lifecycle.

(** ** The routes on the sample data *)

(** Against C1 as the specification words it: the replace of a created
    anime record answers 204 and the stored document, which had
    [createdAt] from its create, has none left. *)
Lemma replace_drops_createdAt :
  Sample.stored (Sample.created anime Sample.cowboy_bebop) anime !! "createdAt"
    = Some (VDate 1000)
  /\ (Sample.replaced anime Sample.cowboy_bebop).1 = json 204 Empty
  /\ Sample.stored (Sample.replaced anime Sample.cowboy_bebop).2 anime !! "createdAt"
    = None
  /\ Sample.stored (Sample.replaced anime Sample.cowboy_bebop).2 anime !! "updatedAt"
    = Some (VDate 2000).
Proof. by vm_compute. Qed.

Lemma replace_stored_witness :
  exists (w' : World) (stored : gmap string value),
    Sample.serve PUT anime
      (Sample.json_request Sample.id1 (VObj Sample.cowboy_bebop)) Sample.at_2000
      (Sample.created anime Sample.cowboy_bebop) = (json 204 Empty, w')
    /\ find_one (data w') "anime" Sample.id1 = Some stored
    /\ stored !! "createdAt" = None.
Proof.
  edestruct (put_stores_validated_fields_only Sample.year Sample.StringToNumber
               Sample.ObjectToNumber Sample.is_url Sample.is_email anime
               (Sample.json_request Sample.id1 (VObj Sample.cowboy_bebop))
               Sample.at_2000 (Sample.created anime Sample.cowboy_bebop))
    as (w' & stored & Hput & Hfind & _ & _ & Hcreated & _).
  - discriminate.
  - reflexivity.
  - reflexivity.
  - vm_compute. reflexivity.
  - vm_compute. reflexivity.
  - vm_compute. reflexivity.
  - exists w', stored. split; [exact Hput|]. split; [exact Hfind|exact Hcreated].
Defined.

(** Against C3 as the specification words it: a created manga record has
    neither timestamp, and stays so when it is replaced; and the replace
    of a created watchlist item leaves it without the [createdAt] its
    create had set. *)
Lemma manga_unstamped_and_createdAt_dropped :
  ((Sample.serve POST manga (Sample.json_request "" (VObj Sample.one_piece))
      Sample.at_1000 Sample.started).1
   = json_at 201 "/manga/665f6a0f2c3d4b1a9f0a1234" (NewId Sample.id1)
   /\ find_one (data (Sample.created manga Sample.one_piece)) "manga" Sample.id1
      = Some (Sample.stored (Sample.created manga Sample.one_piece) manga)
   /\ Sample.stored (Sample.created manga Sample.one_piece) manga !! "createdAt" = None
   /\ Sample.stored (Sample.created manga Sample.one_piece) manga !! "updatedAt" = None
   /\ (Sample.replaced manga Sample.one_piece).1 = json 204 Empty
   /\ Sample.stored (Sample.replaced manga Sample.one_piece).2 manga !! "updatedAt"
      = None)
  /\ (Sample.stored (Sample.created watchlists Sample.watch_item) watchlists
        !! "createdAt" = Some (VDate 1000)
      /\ (Sample.replaced watchlists Sample.watch_item).1 = json 204 Empty
      /\ Sample.stored (Sample.replaced watchlists Sample.watch_item).2 watchlists
           !! "createdAt" = None).
Proof. repeat split; vm_compute; reflexivity. Qed.

Lemma timestamps_witness :
  (exists (w' : World) (stored : gmap string value),
      Sample.serve POST users (Sample.json_request "" (VObj Sample.demo_user))
        Sample.at_1000 Sample.started
      = (json_at 201 ("/users/" +:+ Sample.id1) (NewId Sample.id1), w')
      /\ find_one (data w') "users" Sample.id1 = Some stored
      /\ stored !! "createdAt" = Some (VDate 1000)
      /\ stored !! "updatedAt" = Some (VDate 1000))
  /\ (exists (w' : World) (stored : gmap string value),
        Sample.serve PUT users
          (Sample.json_request Sample.id1 (VObj Sample.demo_user)) Sample.at_2000
          (Sample.created users Sample.demo_user) = (json 204 Empty, w')
        /\ find_one (data w') "users" Sample.id1 = Some stored
        /\ stored !! "updatedAt" = Some (VDate 2000)
        /\ stored !! "createdAt" = None).
Proof.
  split.
  - eapply (proj1 (timestamps_on_create_and_replace Sample.year
                     Sample.StringToNumber Sample.ObjectToNumber Sample.is_url
                     Sample.is_email users
                     (Sample.json_request "" (VObj Sample.demo_user))
                     Sample.at_1000 Sample.started _ Sample.library
                     ltac:(discriminate) eq_refl ltac:(vm_compute; reflexivity)
                     eq_refl)).
    vm_compute. reflexivity.
  - eapply (proj2 (timestamps_on_create_and_replace Sample.year
                     Sample.StringToNumber Sample.ObjectToNumber Sample.is_url
                     Sample.is_email users
                     (Sample.json_request Sample.id1 (VObj Sample.demo_user))
                     Sample.at_2000 (Sample.created users Sample.demo_user) _
                     Sample.library
                     ltac:(discriminate) eq_refl ltac:(vm_compute; reflexivity)
                     ltac:(vm_compute; reflexivity))).
    + vm_compute. reflexivity.
    + vm_compute. reflexivity.
Defined.

Lemma non_json_write_is_415_witness :
  req_is (Sample.text_request "not-an-id" VNull) "application/json" = false
  /\ Sample.serve POST anime (Sample.text_request "not-an-id" VNull)
       Sample.at_1000 Sample.cold
     = (json 415 (Msg "Content-Type must be application/json"), Sample.cold)
  /\ Sample.serve PUT anime (Sample.text_request "not-an-id" VNull)
       Sample.at_1000 Sample.cold
     = (json 415 (Msg "Content-Type must be application/json"), Sample.cold).
Proof.
  split; [reflexivity|].
  apply (non_json_write_is_415 Sample.year Sample.StringToNumber
           Sample.ObjectToNumber Sample.is_url Sample.is_email).
  reflexivity.
Defined.

(** Against C2 as the specification words it: a replace with a path id
    that is not an identifier, sent as text/plain, is answered 415 and
    not 400. *)
Lemma malformed_id_replace_as_text_is_415 :
  ~ Hex24 "not-an-id"
  /\ Sample.serve PUT anime (Sample.text_request "not-an-id" (VObj Sample.cowboy_bebop))
       Sample.at_1000 Sample.started
     = (json 415 (Msg "Content-Type must be application/json"), Sample.started).
Proof.
  split; [|vm_compute; reflexivity].
  intros [Hl _]. vm_compute in Hl. discriminate Hl.
Qed.

Lemma malformed_id_is_400_witness :
  (Hex24 Sample.id1 /\ parseId anime Sample.id1 = inr Sample.id1)
  /\ (~ Hex24 "not-an-id"
      /\ (Sample.serve GET anime (Sample.json_request "not-an-id" VNull)
            Sample.at_1000 Sample.started).1
         = json 400 (Msg "Invalid id")
      /\ (Sample.serve PUT anime (Sample.json_request "not-an-id" VNull)
            Sample.at_1000 Sample.started).1
         = json 400 (Msg "Invalid id")).
Proof.
  assert (Hex24 Sample.id1) as H1 by (apply hex24_Hex24; reflexivity).
  assert (~ Hex24 "not-an-id") as H2.
  { intros [Hl _]. vm_compute in Hl. discriminate Hl. }
  split; (split; [assumption|]).
  - exact (proj1 (malformed_id_is_400 Sample.year Sample.StringToNumber
                    Sample.ObjectToNumber Sample.is_url Sample.is_email anime
                    Sample.id1) H1).
  - destruct (proj2 (proj2 (malformed_id_is_400 Sample.year
                    Sample.StringToNumber Sample.ObjectToNumber Sample.is_url
                    Sample.is_email anime "not-an-id") H2)
                    (Sample.json_request "not-an-id" VNull) Sample.at_1000
                    Sample.started eq_refl) as (Hget & _ & Hput & _).
    split; [exact (f_equal fst Hget)|exact (f_equal fst (Hput eq_refl))].
Defined.

Lemma anime_coerces_witness :
  "releaseYear" ∈ ["releaseYear"; "rating"; "episodes"]
  /\ exists v,
      parse (Sample.schema anime)
        (VObj (<["releaseYear" := VStr "1998"]> Sample.cowboy_bebop)) = inr v
      /\ spread v !! "releaseYear" = Some (VNum 1998).
Proof.
  split; [apply list_elem_of_here|].
  eexists.
  refine (let H := proj1 (proj2 (anime_coerces_manga_and_users_do_not
                     Sample.year Sample.StringToNumber Sample.ObjectToNumber
                     Sample.is_url Sample.is_email))
                     "releaseYear" "1998" Sample.cowboy_bebop _
                     (list_elem_of_here _ _) _ in
          conj (proj1 H) (proj1 (proj2 H))).
  vm_compute. reflexivity.
Defined.

(** Against C5 as the specification words it: a JSON replace whose body
    lacks every required field, on a path id that is not an identifier,
    is answered 400 with the message of the id error; the answer has no
    report and names none of the invalid fields. *)
Lemma malformed_id_replace_names_no_field :
  (Sample.schema anime (VObj ∅)).2
  = [under (PKey "title") (issue invalid_type);
     under (PKey "genres") (issue invalid_type);
     under (PKey "releaseYear") (issue invalid_type);
     under (PKey "status") (issue invalid_type)]
  /\ (Sample.serve POST anime (Sample.json_request "" (VObj ∅)) Sample.at_1000
        Sample.started).1
     = json 400 (Invalid "Validation error"
                   (flatten (Sample.schema anime (VObj ∅)).2))
  /\ (Sample.serve PUT anime (Sample.json_request "not-an-id" (VObj ∅))
        Sample.at_1000 Sample.started).1
     = json 400 (Msg "Invalid id").
Proof. repeat split; vm_compute; reflexivity. Qed.

Lemma every_invalid_field_is_reported_witness :
  exists errors : Flattened,
    Sample.serve POST anime (Sample.json_request "" (VObj ∅)) Sample.at_1000
      Sample.started
    = (json 400 (Invalid "Validation error" errors), Sample.started)
    /\ (exists l, fieldErrors errors !! "title" = Some l /\ l <> [])
    /\ (exists l, fieldErrors errors !! "status" = Some l /\ l <> []).
Proof.
  assert (invalid_field Sample.year Sample.StringToNumber Sample.ObjectToNumber
            Sample.is_url Sample.is_email anime ∅ "title") as Htitle.
  { exists (z_string [s_trim; s_min 1]). split; [apply list_elem_of_here|].
    vm_compute. discriminate. }
  assert (invalid_field Sample.year Sample.StringToNumber Sample.ObjectToNumber
            Sample.is_url Sample.is_email anime ∅ "status") as Hstatus.
  { exists (z_enum ["finished"; "airing"; "upcoming"]). split.
    - do 6 apply list_elem_of_further. apply list_elem_of_here.
    - vm_compute. discriminate. }
  destruct (every_invalid_field_is_reported Sample.year Sample.StringToNumber
              Sample.ObjectToNumber Sample.is_url Sample.is_email anime
              (Sample.json_request "" (VObj ∅)) Sample.at_1000 Sample.started ∅
              eq_refl eq_refl (ex_intro _ "title" Htitle))
    as (errors & Hpost & _ & _ & Hall).
  exists errors. split; [exact Hpost|]. split; [exact (Hall _ Htitle)|exact (Hall _ Hstatus)].
Defined.

Lemma undeclared_fields_are_stripped_witness :
  Sample.serve POST anime
    (Sample.json_request "" (VObj (<["isAdmin" := VBool true]> Sample.cowboy_bebop)))
    Sample.at_1000 Sample.started
  = Sample.serve POST anime (Sample.json_request "" (VObj Sample.cowboy_bebop))
      Sample.at_1000 Sample.started.
Proof.
  assert (forall k : string,
             k ∈ (shape Sample.year Sample.StringToNumber Sample.ObjectToNumber
                    Sample.is_url Sample.is_email anime).*1 ->
             (<["isAdmin" := VBool true]> Sample.cowboy_bebop) !! k
             = Sample.cowboy_bebop !! k) as Hagree.
  { intros k Hk. rewrite lookup_insert_ne; [reflexivity|]. intros <-.
    repeat (apply elem_of_cons in Hk as [Hk|Hk]; [discriminate Hk|]).
    by apply elem_of_nil in Hk. }
  exact (proj1 (undeclared_fields_are_stripped Sample.year Sample.StringToNumber
                  Sample.ObjectToNumber Sample.is_url Sample.is_email anime
                  (Sample.json_request ""
                     (VObj (<["isAdmin" := VBool true]> Sample.cowboy_bebop)))
                  (Sample.json_request "" (VObj Sample.cowboy_bebop))
                  Sample.at_1000 Sample.started
                  (<["isAdmin" := VBool true]> Sample.cowboy_bebop)
                  Sample.cowboy_bebop eq_refl eq_refl
                  ltac:(vm_compute; reflexivity) ltac:(vm_compute; reflexivity)
                  Hagree)).
Defined.

Lemma defaults_witness :
  Sample.watch_item !! "status" = None
  /\ exists v,
      parse (Sample.schema watchlists) (VObj Sample.watch_item) = inr v
      /\ spread v !! "status" = Some (VStr "planned").
Proof.
  split; [reflexivity|]. eexists.
  refine (let H := proj1 (defaults_fill_status_and_role Sample.year
                     Sample.StringToNumber Sample.ObjectToNumber Sample.is_url
                     Sample.is_email Sample.watch_item _) eq_refl _ in
          conj (proj1 H) (proj1 (proj2 H))).
  vm_compute. reflexivity.
Defined.

Lemma connect_once_witness :
  db Sample.cold = None
  /\ getDb (Sample.run
              [Connect true (Some "mongodb://localhost") (Some "library");
               Serve GET_ALL anime (Sample.json_request "" VNull) Sample.at_1000;
               Connect true (Some "mongodb://other") (Some "elsewhere")]
              Sample.cold).2
     = (inr Sample.library, Sample.started)
  /\ connectToDb Sample.is_connection_string true (Some "mongodb://other")
       (Some "elsewhere") Sample.started
     = (inr Sample.library, Sample.started).
Proof.
  split; [reflexivity|]. split.
  - exact (proj1 (proj2 (connect_once_then_getDb Sample.year Sample.StringToNumber
                   Sample.ObjectToNumber Sample.is_url Sample.is_email
                   Sample.is_connection_string
                   [Connect true (Some "mongodb://localhost") (Some "library");
                    Serve GET_ALL anime (Sample.json_request "" VNull) Sample.at_1000;
                    Connect true (Some "mongodb://other") (Some "elsewhere")]
                   Sample.cold) eq_refl)).
  - exact (proj1 (connect_once_then_getDb Sample.year Sample.StringToNumber
                   Sample.ObjectToNumber Sample.is_url Sample.is_email
                   Sample.is_connection_string [] Sample.cold)
             true (Some "mongodb://other") (Some "elsewhere") Sample.started
             Sample.library eq_refl eq_refl eq_refl).
Defined.

Lemma gate_witness :
  (forall req, Auth.jwtCheck Fixtures.tenant ∅ req = Passed req
               /\ Auth.needWrite Fixtures.granted ∅ req = Passed req)
  /\ Auth.jwtCheck Fixtures.tenant Fixtures.production
     = Fixtures.tenant {| Auth.audience := Some "https://api";
                          Auth.issuerBaseURL := Some "https://t.auth0.com";
                          Auth.tokenSigningAlg := "RS256" |}
  /\ Auth.jwtCheck Fixtures.tenant Fixtures.by_url
     = Fixtures.tenant {| Auth.audience := Some "https://api";
                          Auth.issuerBaseURL := Some "https://t.auth0.com";
                          Auth.tokenSigningAlg := "RS256" |}
  /\ (App.route Sample.year Sample.StringToNumber Sample.ObjectToNumber
        Sample.is_url Sample.is_email Fixtures.tenant Fixtures.granted
        Fixtures.production POST anime
        (Sample.json_request "" (VObj Sample.cowboy_bebop)) Sample.at_1000
        Sample.started).1
     = json_at 201 "/anime/665f6a0f2c3d4b1a9f0a1234" (NewId Sample.id1)
  /\ App.route Sample.year Sample.StringToNumber Sample.ObjectToNumber
       Sample.is_url Sample.is_email Fixtures.tenant Fixtures.granted
       Fixtures.elsewhere POST anime
       (Sample.json_request "" (VObj Sample.cowboy_bebop)) Sample.at_1000
       Sample.started
     = (json 401 (Msg "Internal Server Error"),
        logged Sample.unauthorized Sample.started).
Proof.
  split; [|split; [|split; [|split]]].
  - refine (proj1 (proj1 (gate_follows_configuration Sample.year
                            Sample.StringToNumber Sample.ObjectToNumber
                            Sample.is_url Sample.is_email Fixtures.tenant
                            Fixtures.granted ∅) _)).
    left. intros [H _]. vm_compute in H. discriminate H.
  - destruct (proj2 (gate_follows_configuration Sample.year
                       Sample.StringToNumber Sample.ObjectToNumber
                       Sample.is_url Sample.is_email Fixtures.tenant
                       Fixtures.granted Fixtures.production))
      as (issuer & _ & Hdomain & Hjwt & _).
    { split.
      - split; [reflexivity|]. right. reflexivity.
      - intros H. vm_compute in H. discriminate H. }
    destruct (Hdomain eq_refl) as (domain & Hd & ->).
    vm_compute in Hd. injection Hd as <-. exact Hjwt.
  - destruct (proj2 (gate_follows_configuration Sample.year
                       Sample.StringToNumber Sample.ObjectToNumber
                       Sample.is_url Sample.is_email Fixtures.tenant
                       Fixtures.granted Fixtures.by_url))
      as (issuer & Hurl & _ & Hjwt & _).
    { split.
      - split; [reflexivity|]. left. reflexivity.
      - intros H. vm_compute in H. discriminate H. }
    rewrite (Hurl eq_refl) in Hjwt. exact Hjwt.
  - destruct (proj2 (gate_follows_configuration Sample.year
                       Sample.StringToNumber Sample.ObjectToNumber
                       Sample.is_url Sample.is_email Fixtures.tenant
                       Fixtures.granted Fixtures.production))
      as (issuer & _ & Hdomain & _ & _ & Hroute).
    { split.
      - split; [reflexivity|]. right. reflexivity.
      - intros H. vm_compute in H. discriminate H. }
    destruct (Hdomain eq_refl) as (domain & Hd & ->).
    vm_compute in Hd. injection Hd as <-.
    rewrite (Hroute POST anime _ Sample.at_1000 Sample.started (or_introl eq_refl)).
    vm_compute. reflexivity.
  - destruct (proj2 (gate_follows_configuration Sample.year
                       Sample.StringToNumber Sample.ObjectToNumber
                       Sample.is_url Sample.is_email Fixtures.tenant
                       Fixtures.granted Fixtures.elsewhere))
      as (issuer & _ & Hdomain & _ & _ & Hroute).
    { split.
      - split; [reflexivity|]. right. reflexivity.
      - intros H. vm_compute in H. discriminate H. }
    destruct (Hdomain eq_refl) as (domain & Hd & ->).
    vm_compute in Hd. injection Hd as <-.
    rewrite (Hroute POST anime _ Sample.at_1000 Sample.started (or_introl eq_refl)).
    vm_compute. reflexivity.
Defined.

(* ===================================================================== *)
(** * More of the routers *)
(* ===================================================================== *)

Section Behaviour.

Variable currentYear : float.
Variable StringToNumber : string -> float.
Variable ObjectToNumber : value -> float.
Variable is_url : string -> bool.
Variable is_email : string -> bool.
Variable auth : Auth.AuthOptions -> Middleware.
Variable requiredScopes : string -> Middleware.

Local Abbreviation shape := (shape currentYear StringToNumber ObjectToNumber is_url is_email).
Local Abbreviation schema := (schema currentYear StringToNumber ObjectToNumber is_url is_email).
Local Abbreviation serve := (serve currentYear StringToNumber ObjectToNumber is_url is_email).
Local Abbreviation route :=
  (route currentYear StringToNumber ObjectToNumber is_url is_email auth requiredScopes).

(** ** What a request may change *)

Lemma serve_get_all (r : Resource) (req : Request) (sys : Sys) (w : World) :
  serve GET_ALL r req sys w =
    match db w with
    | None => failed not_initialized w
    | Some _ => (json 200 (Docs (find_all (data w) (collection_name r))), w)
    end.
Proof.
  destruct r; cbv [App.serve handler Anime.get_all Manga.get_all Users.get_all
    Watchlists.get_all try_catch bind ret throw next getDb find collection
    collection_name not_initialized]; by destruct (db w).
Qed.

Lemma collection_of_other (d : gmap string (gmap string (gmap string value)))
  (c c' : string) (x : gmap string (gmap string value)) :
  c <> c' -> collection_of (<[c := x]> d) c' = collection_of d c'.
Proof. intros Hne. unfold collection_of. by rewrite lookup_insert_ne. Qed.

Lemma collection_of_same (d : gmap string (gmap string (gmap string value)))
  (c : string) (x : gmap string (gmap string value)) :
  collection_of (<[c := x]> d) c = x.
Proof. unfold collection_of. by rewrite lookup_insert_eq. Qed.

Lemma replace_one_absent (d : Database) (coll : string) (id : ObjectId)
  (doc : Document) :
  find_one d coll id = None ->
  replace_one d coll id doc = ({| matchedCount := 0 |}, d).
Proof. unfold find_one, replace_one. by intros ->. Qed.

Lemma delete_one_absent (d : Database) (coll : string) (id : ObjectId) :
  find_one d coll id = None ->
  delete_one d coll id = ({| deletedCount := 0 |}, d).
Proof. unfold find_one, delete_one. by intros ->. Qed.

Lemma delete_one_found (d : Database) (coll : string) (id : ObjectId)
  (old : Document) :
  find_one d coll id = Some old ->
  delete_one d coll id
    = ({| deletedCount := 1 |}, <[coll := delete id (collection_of d coll)]> d).
Proof. unfold find_one, delete_one. by intros ->. Qed.

(** A read hands the world back as it got it, or ends in [next(err)]. *)
Lemma serve_reads (m : Method) (r : Resource) (req : Request) (sys : Sys)
  (w : World) :
  m = GET_ALL \/ m = GET ->
  (serve m r req sys w).2 = w \/ exists err, serve m r req sys w = failed err w.
Proof.
  intros [->| ->].
  - rewrite serve_get_all. destruct (db w); [by left|right; by eexists].
  - rewrite serve_get. unfold generic_get.
    destruct (parseId r _); [right; by eexists|].
    destruct (db w); [|right; by eexists]. left. by destruct (find_one _ _ _).
Qed.

(** X1: a request leaves a mark in two ways only.  As a write that
    succeeds: a create answering 201, a replace or delete answering 204,
    where the error handler is not called.  Or by ending in [next(err)]:
    the error handler prints the error and answers, and nothing else
    changes.  In every other case the world is exactly as before. *)
Theorem only_success_changes_data (m : Method) (r : Resource) (req : Request)
  (sys : Sys) (w : World) :
  (serve m r req sys w).2 = w
  \/ (exists err, serve m r req sys w = failed err w)
  \/ (m = POST /\ status (serve m r req sys w).1 = 201%Z
      /\ console (serve m r req sys w).2 = console w)
  \/ ((m = PUT \/ m = DELETE) /\ status (serve m r req sys w).1 = 204%Z
      /\ console (serve m r req sys w).2 = console w).
Proof.
  destruct m.
  - destruct (serve_reads GET_ALL r req sys w) as [H|H]; auto.
  - destruct (serve_reads GET r req sys w) as [H|H]; auto.
  - rewrite serve_post. unfold App.generic_post.
    destruct (negb _); [by left|].
    destruct (parse _ _) as [[e|issues]|parsed];
      [right; left; by eexists|by left|].
    destruct (db w); [|right; left; by eexists].
    destruct (insert_one _ _ _ _) as [?|[? ?]]; [right; left; by eexists|].
    right. right. by left.
  - rewrite serve_put. unfold App.generic_put.
    destruct (negb _); [by left|].
    destruct (parseId r _) as [?|oid]; [right; left; by eexists|].
    destruct (parse _ _) as [[e|issues]|parsed];
      [right; left; by eexists|by left|].
    destruct (db w); [|right; left; by eexists].
    destruct (find_one (data w) (collection_name r) oid) eqn:Hf.
    + rewrite (replace_one_found _ _ _ _ _ Hf). do 3 right.
      split; [by left|done].
    + rewrite (replace_one_absent _ _ _ _ Hf). left. cbn. apply with_data_same.
  - rewrite serve_delete. unfold generic_delete.
    destruct (parseId r _) as [?|oid]; [right; left; by eexists|].
    destruct (db w); [|right; left; by eexists].
    destruct (find_one (data w) (collection_name r) oid) eqn:Hf.
    + rewrite (delete_one_found _ _ _ _ Hf). do 3 right.
      split; [by right|done].
    + rewrite (delete_one_absent _ _ _ Hf). left. cbn. apply with_data_same.
Qed.

(** X2: list and get-by-id are mounted without guards and only read:
    whatever the environment and the verifier are, the route does what
    its handler does; and the world comes out as it went in, unless the
    request ends in [next(err)], where the error handler prints the
    error and nothing else changes. *)
Theorem reads_are_public_and_pure (env : gmap string string) (r : Resource)
  (req : Request) (sys : Sys) (w : World) :
  route env GET_ALL r req sys w = serve GET_ALL r req sys w
  /\ route env GET r req sys w = serve GET r req sys w
  /\ ((serve GET_ALL r req sys w).2 = w
      \/ exists err, serve GET_ALL r req sys w = failed err w)
  /\ ((serve GET r req sys w).2 = w
      \/ exists err, serve GET r req sys w = failed err w).
Proof.
  repeat split; apply serve_reads; auto.
Qed.

(** The three ways a request ends: with the world as it was, in
    [next(err)], or with a write to the collection of its resource. *)
Lemma only_world_cases (m : Method) (r : Resource) (req : Request) (sys : Sys)
  (w : World) :
  (serve m r req sys w).2 = w
  \/ (exists err, serve m r req sys w = failed err w)
  \/ (exists d : gmap string (gmap string (gmap string value)),
        (serve m r req sys w).2 = with_data w d
        /\ forall name, name <> collection_name r ->
             collection_of d name = collection_of (data w) name).
Proof.
  destruct m.
  - destruct (serve_reads GET_ALL r req sys w) as [H|H]; auto.
  - destruct (serve_reads GET r req sys w) as [H|H]; auto.
  - rewrite serve_post. unfold App.generic_post.
    destruct (negb _); [by left|].
    destruct (parse _ _) as [[e|issues]|parsed];
      [right; left; by eexists|by left|].
    destruct (db w); [|right; left; by eexists].
    unfold insert_one. destruct (collection_of _ _ !! _);
      [right; left; by eexists|].
    right. right. eexists. split; [reflexivity|].
    intros name Hne. by apply collection_of_other.
  - rewrite serve_put. unfold App.generic_put.
    destruct (negb _); [by left|].
    destruct (parseId r _) as [?|oid]; [right; left; by eexists|].
    destruct (parse _ _) as [[e|issues]|parsed];
      [right; left; by eexists|by left|].
    destruct (db w); [|right; left; by eexists].
    right. right. unfold replace_one.
    destruct (collection_of _ _ !! _); cbn [fst snd].
    + eexists. split; [reflexivity|]. intros name Hne. by apply collection_of_other.
    + by exists (data w).
  - rewrite serve_delete. unfold generic_delete.
    destruct (parseId r _) as [?|oid]; [right; left; by eexists|].
    destruct (db w); [|right; left; by eexists].
    right. right. unfold delete_one.
    destruct (collection_of _ _ !! _); cbn [fst snd].
    + eexists. split; [reflexivity|]. intros name Hne. by apply collection_of_other.
    + by exists (data w).
Qed.

(** The world after a request: the client and the handle are as they
    were, the console has at most lines of the error handler more, and
    the database differs in the collection of the resource only. *)
Lemma serve_world (m : Method) (r : Resource) (req : Request) (sys : Sys)
  (w : World) :
  exists (d : gmap string (gmap string (gmap string value)))
         (errors : list LogLine),
    (serve m r req sys w).2
    = {| client := client w; db := db w; console := console w ++ errors;
         data := d |}
    /\ Forall (fun l => is_error_line l = true) errors
    /\ forall name, name <> collection_name r ->
         collection_of d name = collection_of (data w) name.
Proof.
  assert (forall w' : World, w' = w ->
            exists (d : gmap string (gmap string (gmap string value)))
                   (errors : list LogLine),
              w' = {| client := client w; db := db w;
                      console := console w ++ errors; data := d |}
              /\ Forall (fun l => is_error_line l = true) errors
              /\ forall name, name <> collection_name r ->
                   collection_of d name = collection_of (data w) name) as Hsame.
  { intros w' ->. exists (data w), []. rewrite app_nil_r. by destruct w. }
  assert (forall (err : Exn) (a : Response * World), a = failed err w ->
            exists (d : gmap string (gmap string (gmap string value)))
                   (errors : list LogLine),
              a.2 = {| client := client w; db := db w;
                       console := console w ++ errors; data := d |}
              /\ Forall (fun l => is_error_line l = true) errors
              /\ forall name, name <> collection_name r ->
                   collection_of d name = collection_of (data w) name) as Hfail.
  { intros err a ->. exists (data w), [Errored err]. split; [done|].
    split; [by repeat constructor|done]. }
  assert (forall d : gmap string (gmap string (gmap string value)),
            (forall name, name <> collection_name r ->
               collection_of d name = collection_of (data w) name) ->
            exists (d' : gmap string (gmap string (gmap string value)))
                   (errors : list LogLine),
              with_data w d = {| client := client w; db := db w;
                                 console := console w ++ errors; data := d' |}
              /\ Forall (fun l => is_error_line l = true) errors
              /\ forall name, name <> collection_name r ->
                   collection_of d' name = collection_of (data w) name) as Hdata.
  { intros d Hd. exists d, []. by rewrite app_nil_r. }
  destruct (only_world_cases m r req sys w) as [H|[[err H]|[d [H Hd]]]].
  - by apply Hsame.
  - by apply (Hfail err).
  - rewrite H. by apply Hdata.
Qed.

(** X3: a request on one resource leaves the collections of the other
    resources, the client and the database handle as they were. *)
Theorem other_collections_untouched (m : Method) (r : Resource) (req : Request)
  (sys : Sys) (w : World) :
  (forall name, name <> collection_name r ->
     collection_of (data (serve m r req sys w).2) name
     = collection_of (data w) name)
  /\ client (serve m r req sys w).2 = client w
  /\ db (serve m r req sys w).2 = db w.
Proof.
  destruct (serve_world m r req sys w) as (d & errors & -> & _ & Hd).
  by repeat split.
Qed.

(** X4: a write touches one document: every other document of the
    collection is found as before.  The one document is the generated
    identifier for a create and the path id for a replace or delete. *)
Theorem other_documents_untouched (m : Method) (r : Resource) (req : Request)
  (sys : Sys) (w : World) (id' : ObjectId) :
  (m = POST -> id' <> fresh sys) ->
  (m = PUT \/ m = DELETE -> parseId r (params_id req) <> inr id') ->
  find_one (data (serve m r req sys w).2) (collection_name r) id'
  = find_one (data w) (collection_name r) id'.
Proof.
  intros Hpost Hput.
  assert (forall m', m' = GET_ALL \/ m' = GET ->
            data (serve m' r req sys w).2 = data w) as Hread.
  { intros m' Hm. by destruct (serve_reads m' r req sys w Hm) as [->|[err ->]]. }
  destruct m; [rewrite Hread; auto|rewrite Hread; auto|..].
  - rewrite serve_post. unfold App.generic_post.
    destruct (negb _); [done|]. destruct (parse _ _) as [[?|?]|?]; [done..|].
    destruct (db w); [|done].
    unfold insert_one. destruct (collection_of _ _ !! _); [done|].
    cbn [snd with_data data]. unfold find_one. rewrite collection_of_same.
    rewrite lookup_insert_ne; [done|]. intros E. by apply Hpost.
  - rewrite serve_put. unfold App.generic_put.
    destruct (negb _); [done|]. destruct (parseId r _) as [?|oid]; [done|].
    destruct (parse _ _) as [[?|?]|?]; [done..|]. destruct (db w); [|done].
    unfold replace_one. destruct (collection_of _ _ !! _); [|done].
    cbn [fst snd with_data data]. unfold find_one. rewrite collection_of_same.
    rewrite lookup_insert_ne; [done|]. intros ->. apply Hput; auto.
  - rewrite serve_delete. unfold generic_delete.
    destruct (parseId r _) as [?|oid]; [done|]. destruct (db w); [|done].
    unfold delete_one. destruct (collection_of _ _ !! _); [|done].
    cbn [fst snd with_data data]. unfold find_one. rewrite collection_of_same.
    rewrite lookup_delete_ne; [done|]. intros ->. apply Hput; auto.
Qed.

(** X5: the answer to a request, and what it leaves in its collection,
    depend on the world through the handle and that collection alone: no
    route looks into the collection of another resource, so a watchlist
    item is accepted whatever its [userId] and [refId] point at. *)
Theorem answer_depends_on_own_collection (m : Method) (r : Resource)
  (req : Request) (sys : Sys) (w1 w2 : World) :
  db w1 = db w2 ->
  collection_of (data w1) (collection_name r)
  = collection_of (data w2) (collection_name r) ->
  (serve m r req sys w1).1 = (serve m r req sys w2).1
  /\ collection_of (data (serve m r req sys w1).2) (collection_name r)
     = collection_of (data (serve m r req sys w2).2) (collection_name r).
Proof.
  intros Hdb Hcoll. destruct m.
  - rewrite !serve_get_all, <- Hdb. unfold find_all. rewrite Hcoll.
    by destruct (db w1).
  - rewrite !serve_get. unfold generic_get, find_one. rewrite <- Hdb, Hcoll.
    destruct (parseId r _); [done|]. destruct (db w1); [|done].
    by destruct (_ !! _).
  - rewrite !serve_post. unfold App.generic_post, insert_one. rewrite <- Hdb, Hcoll.
    destruct (negb _); [done|]. destruct (parse _ _) as [[?|?]|?]; [done..|].
    destruct (db w1); [|done]. destruct (_ !! _); [done|].
    cbn [fst snd with_data data]. by rewrite !collection_of_same.
  - rewrite !serve_put. unfold App.generic_put, replace_one. rewrite <- Hdb, Hcoll.
    destruct (negb _); [done|]. destruct (parseId r _); [done|].
    destruct (parse _ _) as [[?|?]|?]; [done..|]. destruct (db w1); [|done].
    destruct (_ !! _); cbn [fst snd with_data data]; [|done].
    by rewrite !collection_of_same.
  - rewrite !serve_delete. unfold generic_delete, delete_one. rewrite <- Hdb, Hcoll.
    destruct (parseId r _); [done|]. destruct (db w1); [|done].
    destruct (_ !! _); cbn [fst snd with_data data]; [|done].
    by rewrite !collection_of_same.
Qed.

(** ** Status codes *)

Lemma no_record_no_answer (r : Resource) (req : Request) (sys : Sys)
  (w : World) (h : Db) (oid : ObjectId) :
  db w = Some h ->
  parseId r (params_id req) = inr oid ->
  find_one (data w) (collection_name r) oid = None ->
  serve DELETE r req sys w = (json 404 (Msg "Not found"), w)
  /\ serve GET r req sys w = (json 404 (Msg "Not found"), w).
Proof.
  intros Hdb Hid Habsent. split.
  - rewrite serve_delete. unfold generic_delete.
    rewrite Hid, Hdb, (delete_one_absent _ _ _ Habsent). cbn.
    by rewrite with_data_same.
  - rewrite serve_get. unfold generic_get. by rewrite Hid, Hdb, Habsent.
Qed.

(** X6: with an open handle, a well-formed path id that names no record
    is answered 404 by get-by-id and delete, and by replace when the
    request is JSON with a valid body; nothing is created in its place. *)
Theorem absent_id_is_404 (r : Resource) (req : Request) (sys : Sys) (w : World)
  (h : Db) (oid : ObjectId) :
  db w = Some h ->
  parseId r (params_id req) = inr oid ->
  find_one (data w) (collection_name r) oid = None ->
  serve GET r req sys w = (json 404 (Msg "Not found"), w)
  /\ serve DELETE r req sys w = (json 404 (Msg "Not found"), w)
  /\ (forall parsed,
        req_is req "application/json" = true ->
        parse (schema r) (body req) = inr parsed ->
        serve PUT r req sys w = (json 404 (Msg "Not found"), w)).
Proof.
  intros Hdb Hid Habsent.
  destruct (no_record_no_answer r req sys w h oid Hdb Hid Habsent) as [Hdel Hget].
  repeat split; try done.
  intros parsed Hct Hparse. rewrite serve_put. unfold App.generic_put.
  rewrite Hct, Hid, Hparse, Hdb, (replace_one_absent _ _ _ _ Habsent). cbn.
  by rewrite with_data_same.
Qed.

(** X7: deleting an existing record answers 204 and removes it; the same
    delete again, and a get of it, answer 404. *)
Theorem delete_then_gone (r : Resource) (req : Request) (sys sys' : Sys)
  (w : World) (h : Db) (oid : ObjectId) (old : Document) :
  db w = Some h ->
  parseId r (params_id req) = inr oid ->
  find_one (data w) (collection_name r) oid = Some old ->
  exists w' : World,
    serve DELETE r req sys w = (json 204 Empty, w')
    /\ find_one (data w') (collection_name r) oid = None
    /\ serve DELETE r req sys' w' = (json 404 (Msg "Not found"), w')
    /\ serve GET r req sys' w' = (json 404 (Msg "Not found"), w').
Proof.
  intros Hdb Hid Hold.
  set (w' := with_data w (<[collection_name r :=
                 delete oid (collection_of (data w) (collection_name r))]> (data w))).
  assert (find_one (data w') (collection_name r) oid = None) as Hgone.
  { unfold find_one, w'. cbn [with_data data]. rewrite collection_of_same.
    apply lookup_delete_eq. }
  assert (db w' = Some h) as Hdb' by done.
  exists w'. split; [|split; [done|]].
  - rewrite serve_delete. unfold generic_delete.
    by rewrite Hid, Hdb, (delete_one_found _ _ _ _ Hold).
  - destruct (no_record_no_answer r req sys' w' h oid Hdb' Hid Hgone) as [? ?].
    done.
Qed.

(** X8: what a create stores can be read back: after a 201, a get of the
    returned identifier answers 200 with the validated fields and, except
    for manga, the two timestamps of the create.  The identifier the
    driver generates is taken to be a well-formed one. *)
Theorem create_then_get (r : Resource) (req req' : Request) (sys sys' : Sys)
  (w : World) (h : Db) (parsed : value) :
  req_is req "application/json" = true ->
  parse (schema r) (body req) = inr parsed ->
  db w = Some h ->
  find_one (data w) (collection_name r) (fresh sys) = None ->
  parseId r (fresh sys) = inr (fresh sys) ->
  params_id req' = fresh sys ->
  exists w' : World,
    serve POST r req sys w
    = (json_at 201 ("/" +:+ collection_name r +:+ "/" +:+ fresh sys)
         (NewId (fresh sys)), w')
    /\ serve GET r req' sys' w'
       = (json 200 (Doc (fresh sys) (created_doc r (now sys) parsed)), w').
Proof.
  intros Hct Hparse Hdb Hfree Hid Hreq.
  eexists. split.
  - rewrite serve_post. unfold App.generic_post.
    by rewrite Hct, Hparse, Hdb, (insert_one_free _ _ _ _ Hfree).
  - rewrite serve_get. unfold generic_get. rewrite Hreq, Hid. cbn [db with_data data].
    rewrite Hdb.
    match goal with
    | |- context [find_one ?d ?c ?i] =>
        assert (find_one d c i = Some (created_doc r (now sys) parsed)) as ->
          by apply find_one_written
    end.
    done.
Qed.

(** X9: what a replace stores can be read back: after a 204, a get of the
    same id answers 200 with the document of the replace. *)
Theorem replace_then_get (r : Resource) (req : Request) (sys sys' : Sys)
  (w : World) (h : Db) (oid : ObjectId) (parsed : value) (old : Document) :
  req_is req "application/json" = true ->
  parseId r (params_id req) = inr oid ->
  parse (schema r) (body req) = inr parsed ->
  db w = Some h ->
  find_one (data w) (collection_name r) oid = Some old ->
  exists w' : World,
    serve PUT r req sys w = (json 204 Empty, w')
    /\ serve GET r req sys' w'
       = (json 200 (Doc oid (replacement_doc r (now sys) parsed)), w').
Proof.
  intros Hct Hid Hparse Hdb Hold.
  eexists. split.
  - rewrite serve_put. unfold App.generic_put.
    by rewrite Hct, Hid, Hparse, Hdb, (replace_one_found _ _ _ _ _ Hold).
  - rewrite serve_get. unfold generic_get. rewrite Hid. cbn [db with_data data].
    rewrite Hdb.
    match goal with
    | |- context [find_one ?d ?c ?i] =>
        assert (find_one d c i = Some (replacement_doc r (now sys) parsed)) as ->
          by apply find_one_written
    end.
    done.
Qed.

(** X10: before [connectToDb] has succeeded every request that gets as far
    as the database ends in [next(err)] with the error of [getDb]: the
    error handler prints it and answers 500 with the message withheld,
    and the stored data, the client and the handle are untouched.  The
    checks of the request come first, so an invalid body is still
    answered 400. *)
Theorem uninitialized_db_is_500 (r : Resource) (req : Request) (sys : Sys)
  (w : World) :
  db w = None ->
  let failed :=
    (json 500 (Msg "Internal Server Error"),
     logged (Thrown (new_Error "DB not initialized. Call connectToDb first.")) w) in
  serve GET_ALL r req sys w = failed
  /\ (forall oid, parseId r (params_id req) = inr oid ->
      serve GET r req sys w = failed /\ serve DELETE r req sys w = failed)
  /\ (forall parsed,
        req_is req "application/json" = true ->
        parse (schema r) (body req) = inr parsed ->
        serve POST r req sys w = failed
        /\ forall oid, parseId r (params_id req) = inr oid ->
                       serve PUT r req sys w = failed)
  /\ (forall issues,
        req_is req "application/json" = true ->
        parse (schema r) (body req) = inl (ZodError issues) ->
        status (serve POST r req sys w).1 = 400%Z).
Proof.
  intros Hdb failed. subst failed. split; [|split; [|split]].
  - rewrite serve_get_all. by rewrite Hdb.
  - intros oid Hid. split.
    + rewrite serve_get. unfold generic_get. by rewrite Hid, Hdb.
    + rewrite serve_delete. unfold generic_delete. by rewrite Hid, Hdb.
  - intros parsed Hct Hparse. split.
    + rewrite serve_post. unfold App.generic_post. by rewrite Hct, Hparse, Hdb.
    + intros oid Hid. rewrite serve_put. unfold App.generic_put.
      by rewrite Hct, Hid, Hparse, Hdb.
  - intros issues Hct Hparse. rewrite serve_post. unfold App.generic_post.
    by rewrite Hct, Hparse.
Qed.

(** X11: a JSON body that is an array, the one value other than an object
    that [express.json()] hands on, is answered 400 by create, and by
    replace when the path id is well-formed, with one form-level issue
    and no field entry; the world is as before. *)
Theorem array_body_is_400 (r : Resource) (req : Request) (sys : Sys)
  (w : World) (items : list value) :
  body req = VArr items ->
  req_is req "application/json" = true ->
  let report :=
    json 400 (Invalid "Validation error"
                {| formErrors := [issue invalid_type]; fieldErrors := ∅ |}) in
  serve POST r req sys w = (report, w)
  /\ (forall oid, parseId r (params_id req) = inr oid ->
      serve PUT r req sys w = (report, w)).
Proof.
  intros Hbody Hct report. subst report.
  assert (parse (schema r) (body req) = inl (ZodError [issue invalid_type])) as Hp.
  { rewrite schema_shape, Hbody. by unfold parse. }
  split.
  - rewrite serve_post. unfold App.generic_post. by rewrite Hct, Hp.
  - intros oid Hid. rewrite serve_put. unfold App.generic_put.
    by rewrite Hct, Hid, Hp.
Qed.

(** X12: with an open handle the list answers 200 with every record of
    the collection, once each, under its identifier, and nothing else. *)
Theorem list_returns_every_record_once (r : Resource) (req : Request)
  (sys : Sys) (w : World) (h : Db) :
  db w = Some h ->
  exists docs : list (ObjectId * Document),
    serve GET_ALL r req sys w = (json 200 (Docs docs), w)
    /\ NoDup docs.*1
    /\ forall id doc,
        (id, doc) ∈ docs <-> find_one (data w) (collection_name r) id = Some doc.
Proof.
  intros Hdb. exists (find_all (data w) (collection_name r)). split; [|split].
  - rewrite serve_get_all. by rewrite Hdb.
  - apply NoDup_fst_map_to_list.
  - intros id doc. unfold find_all, find_one. apply elem_of_map_to_list.
Qed.

(** ** Identifiers and case *)

Lemma is_hex_lower (c : ascii) : is_hex (lower c) = is_hex c.
Proof. by destruct c as [[] [] [] [] [] [] [] []]. Qed.

Lemma lower_lower (c : ascii) : lower (lower c) = lower c.
Proof. by destruct c as [[] [] [] [] [] [] [] []]. Qed.

Lemma toLowerCase_idem (s : string) : toLowerCase (toLowerCase s) = toLowerCase s.
Proof. induction s as [|c s IH]; [done|]. cbn. by rewrite lower_lower, IH. Qed.

Lemma hex24_toLowerCase (s : string) : hex24 (toLowerCase s) = hex24 s.
Proof.
  unfold hex24. f_equal.
  - f_equal. induction s as [|c s IH]; [done|]. cbn. by rewrite IH.
  - induction s as [|c s IH]; [done|]. cbn. by rewrite is_hex_lower, IH.
Qed.

(** X13: identifiers are read without regard to case: two path ids that
    differ only in the case of their letters parse alike (to the same
    identifier, or to the same error), so every route answers the two
    requests alike. *)
Theorem ids_ignore_case (m : Method) (r : Resource) (req1 req2 : Request)
  (sys : Sys) (w : World) :
  toLowerCase (params_id req1) = toLowerCase (params_id req2) ->
  body req1 = body req2 ->
  req_is req1 "application/json" = req_is req2 "application/json" ->
  parseId r (params_id req1) = parseId r (params_id req2)
  /\ serve m r req1 sys w = serve m r req2 sys w.
Proof.
  intros Hid Hbody Hct.
  assert (parseId r (params_id req1) = parseId r (params_id req2)) as Hparse.
  { assert (hex24 (params_id req1) = hex24 (params_id req2)) as Hhex.
    { by rewrite <- (hex24_toLowerCase (params_id req1)), Hid, hex24_toLowerCase. }
    destruct (hex24 (params_id req1)) eqn:E.
    - by rewrite !parseId_ok, Hid.
    - by rewrite !parseId_fail. }
  split; [done|]. destruct m.
  - by rewrite !serve_get_all.
  - rewrite !serve_get. unfold generic_get. by rewrite Hparse.
  - rewrite !serve_post. unfold App.generic_post. by rewrite Hct, Hbody.
  - rewrite !serve_put. unfold App.generic_put. by rewrite Hct, Hbody, Hparse.
  - rewrite !serve_delete. unfold generic_delete. by rewrite Hparse.
Qed.

(** ** What a validated payload holds *)

(** A field of a validated payload: its validator accepted [data[key]]. *)
Lemma validated_field (r : Resource) (data v : value) (key : string)
  (validator : ZodType) :
  parse (schema r) data = inr v ->
  (key, validator) ∈ shape r ->
  exists props x,
    data = VObj props
    /\ validator (get props key) = (OK x, [])
    /\ match x with
       | VUndefined =>
           spread v !! key = if has props key then Some VUndefined else None
       | _ => spread v !! key = Some x
       end.
Proof.
  intros Hparse Hin. rewrite schema_shape in Hparse.
  destruct (parse_object_keys _ _ _ Hparse) as (props & m & -> & -> & _ & _).
  destruct (shape_no_timestamps currentYear StringToNumber ObjectToNumber
              is_url is_email r key) as (_ & _ & _ & Hproto).
  { apply list_elem_of_fmap. by exists (key, validator). }
  destruct (parse_object_field _ _ _ _ _ Hparse
              (shape_keys_distinct currentYear StringToNumber ObjectToNumber
                 is_url is_email r) Hin Hproto)
    as (x & Hx & Hm).
  by exists props, x.
Qed.

Lemma z_string_valid (checks : list StringCheck) (data v : value) :
  z_string checks data = (OK v, []) ->
  exists s, data = VStr s /\ v = VStr (string_checks checks s).1
            /\ (string_checks checks s).2 = [].
Proof.
  destruct data; cbn; try discriminate. intros [= <- H]. eauto.
Qed.

Lemma trimmed_nonempty_valid (data v : value) :
  z_string [s_trim; s_min 1] data = (OK v, []) ->
  exists s, data = VStr s /\ v = VStr (trim s) /\ trim s <> "".
Proof.
  intros (s & -> & -> & Hiss)%z_string_valid. exists s. repeat split.
  cbn in Hiss. intros E. rewrite E in Hiss. discriminate.
Qed.

Lemma z_enum_valid (values : list string) (data v : value)
  (iss : list ZodIssue) :
  z_enum values data = (OK v, iss) ->
  exists s, data = VStr s /\ v = VStr s /\ s ∈ values.
Proof.
  destruct data; cbn; try discriminate. case_bool_decide; [|discriminate].
  intros [= <- _]. eauto.
Qed.



Lemma array_results_valid (type : ZodType) (items : list value) :
  forall (g : nat -> PathSeg) (vs : list value),
    mergeArray (fst <$> imap (fun i item =>
                                let r := type item in
                                (r.1, under (g i) <$> r.2)) items) = Some vs ->
    concat (snd <$> imap (fun i item =>
                            let r := type item in
                            (r.1, under (g i) <$> r.2)) items) = [] ->
    Forall2 (fun item x => type item = (OK x, [])) items vs.
Proof.
  induction items as [|item items IH]; intros g vs.
  - cbn. intros [= <-] _. constructor.
  - rewrite imap_cons, !fmap_cons. cbn [fst snd concat mergeArray].
    destruct (type item) as [[|x] iss] eqn:Ht; cbn [fst snd]; [discriminate|].
    destruct (mergeArray _) as [vs'|] eqn:Hm; [|discriminate].
    intros [= <-] Hc. apply app_eq_nil in Hc as [Hi Hc].
    constructor.
    + destruct iss; [done|discriminate].
    + by apply (IH (g ∘ S)).
Qed.

Lemma z_array_valid (type : ZodType) (n : nat) (data v : value) :
  z_array type (Some n) data = (OK v, []) ->
  exists items vs,
    data = VArr items /\ v = VArr vs /\ n <= length items
    /\ Forall2 (fun item x => type item = (OK x, [])) items vs.
Proof.
  destruct data; cbn [z_array]; try discriminate.
  destruct (mergeArray _) as [vs|] eqn:Hm; [|discriminate].
  intros [= <- Hc]. apply app_eq_nil in Hc as [Hshort Hc].
  exists items, vs. repeat split.
  - destruct (Nat.ltb_spec (length items) n); [discriminate|lia].
  - by apply (array_results_valid type items PIndex).
Qed.

Ltac in_shape :=
  cbn [App.shape];
  unfold Anime.AnimeShape, Manga.MangaShape, Users.UserShape,
    Watchlists.WatchItemShape;
  repeat first [by apply list_elem_of_here | apply list_elem_of_further].

(** X14: a validated anime or manga payload has a title that is the
    trimmed title of the body and is not empty, and at least one genre,
    each the trimmed genre of the body and not empty. *)
Theorem title_and_genres_are_trimmed (r : Resource) (data v : value) :
  r = anime \/ r = manga ->
  parse (schema r) data = inr v ->
  exists props title items genres,
    data = VObj props
    /\ props !! "title" = Some (VStr title)
    /\ spread v !! "title" = Some (VStr (trim title))
    /\ trim title <> ""
    /\ props !! "genres" = Some (VArr items)
    /\ spread v !! "genres" = Some (VArr genres)
    /\ items <> []
    /\ Forall2 (fun item x =>
                  exists s, item = VStr s /\ x = VStr (trim s) /\ trim s <> "")
         items genres.
Proof.
  intros Hr Hparse.
  destruct (validated_field r data v "title" (z_string [s_trim; s_min 1]) Hparse)
    as (props & x & -> & Hx & Hm); [destruct Hr as [->| ->]; in_shape|].
  destruct (validated_field r (VObj props) v "genres"
              (z_array (z_string [s_trim; s_min 1]) (Some 1%nat)) Hparse)
    as (props' & y & [= <-] & Hy & Hg); [destruct Hr as [->| ->]; in_shape|].
  apply trimmed_nonempty_valid in Hx as (title & Hget & -> & Hne).
  apply z_array_valid in Hy as (items & genres & Hgeti & -> & Hlen & Hall).
  cbn in Hm, Hg.
  exists props, title, items, genres.
  split; [done|]. split.
  { unfold get in Hget. destruct (props !! "title"); cbn in Hget; by subst. }
  split; [done|]. split; [done|]. split.
  { unfold get in Hgeti. destruct (props !! "genres"); cbn in Hgeti; by subst. }
  split; [done|]. split.
  { intros ->. cbn in Hlen. lia. }
  eapply Forall2_impl; [exact Hall|]. intros item x Hix.
  by apply trimmed_nonempty_valid.
Qed.




(** X18: a validated user has the e-mail and the display name of the body
    as they were sent (the name is not trimmed), the e-mail matching the
    pattern and the name not empty, and a role that is "user" or
    "admin". *)
Theorem user_is_well_formed (data v : value) :
  parse (schema users) data = inr v ->
  exists props email name role,
    data = VObj props
    /\ props !! "email" = Some (VStr email)
    /\ spread v !! "email" = Some (VStr email) /\ is_email email = true
    /\ props !! "displayName" = Some (VStr name)
    /\ spread v !! "displayName" = Some (VStr name) /\ name <> ""
    /\ spread v !! "role" = Some (VStr role) /\ role ∈ ["user"; "admin"].
Proof.
  intros Hparse.
  destruct (validated_field users data v "email" (z_string [s_test is_email None]) Hparse)
    as (props & x & -> & Hx & Hm); [in_shape|].
  destruct (validated_field users (VObj props) v "displayName" (z_string [s_min 1]) Hparse)
    as (? & y & [= <-] & Hy & Hn); [in_shape|].
  destruct (validated_field users (VObj props) v "role"
              (z_default (z_enum ["user"; "admin"]) (VStr "user")) Hparse)
    as (? & z & [= <-] & Hz & Hr); [in_shape|].
  apply z_string_valid in Hx as (email & Hge & -> & He).
  apply z_string_valid in Hy as (name & Hgn & -> & Hne).
  assert (exists s, z = VStr s /\ s ∈ ["user"; "admin"]) as (role & -> & Hrole).
  { unfold z_default in Hz.
    destruct (get props "role");
      apply z_enum_valid in Hz as (ro & _ & -> & Hs); eauto. }
  cbn in Hm, Hn, Hr, He, Hne.
  exists props, email, name, role. split; [done|]. split.
  { unfold get in Hge. destruct (props !! "email"); cbn in Hge; by subst. }
  split; [done|]. split; [by destruct (is_email email)|]. split.
  { unfold get in Hgn. destruct (props !! "displayName"); cbn in Hgn; by subst. }
  split; [done|]. split; [|done].
  intros ->. discriminate.
Qed.

End Behaviour.

(* ===================================================================== *)
(** * More of the connection, the start-up and the role guard *)
(* ===================================================================== *)

Section Process.

Variable currentYear : float.
Variable StringToNumber : string -> float.
Variable ObjectToNumber : value -> float.
Variable is_url : string -> bool.
Variable is_email : string -> bool.
Variable is_connection_string : string -> bool.

Local Abbreviation serve := (serve currentYear StringToNumber ObjectToNumber is_url is_email).
Local Abbreviation run :=
  (run currentYear StringToNumber ObjectToNumber is_url is_email is_connection_string).
Local Abbreviation connectToDb := (connectToDb is_connection_string).

(** X19: an attempt that does not go through leaves no handle, so [getDb]
    still throws.  When the uri is one the driver cannot read, the
    constructor of the client throws: nothing is printed and the world
    is as it was.  When the uri is fine and the server does not answer,
    the client has been assigned and one "connecting" line printed.
    Either way a later attempt dials again, and when it goes through the
    handle is the database of its name on a client of its uri, [getDb]
    returns it, and the console has the two lines of that attempt
    more. *)
Theorem failed_connect_can_be_retried (up : bool)
  (uri dbName uri' dbName' : option string) (w : World) :
  truthy uri = true -> truthy dbName = true ->
  truthy uri' = true -> truthy dbName' = true ->
  db w = None ->
  is_connection_string (default "" uri) && up = false ->
  is_connection_string (default "" uri') = true ->
  exists (e : Exn) (w1 w2 : World),
    connectToDb up uri dbName w = (inl e, w1)
    /\ db w1 = None
    /\ data w1 = data w
    /\ (is_connection_string (default "" uri) = false -> w1 = w)
    /\ (is_connection_string (default "" uri) = true ->
        client w1 = Some {| uri := default "" uri |}
        /\ console w1 = console w ++ [Connecting])
    /\ connectToDb true uri' dbName' w1
       = (inr {| client_of := {| uri := default "" uri' |};
                 databaseName := default "" dbName' |}, w2)
    /\ getDb w2
       = (inr {| client_of := {| uri := default "" uri' |};
                 databaseName := default "" dbName' |}, w2)
    /\ console w2
       = console w1 ++ [Connecting; Connected (default "" dbName')].
Proof.
  intros Hu Hn Hu' Hn' Hdb Hfail Hgood.
  unfold ConnectJs.connectToDb, new_MongoClient.
  rewrite Hu, Hn, Hu', Hn', Hgood. cbn [negb]. rewrite Hdb.
  destruct (is_connection_string (default "" uri)) eqn:Hread.
  - destruct up; [discriminate Hfail|]. cbn.
    eexists _, _, _. split; [reflexivity|]. cbn. rewrite Hdb. cbn.
    repeat split; try done. by rewrite <- !app_assoc.
  - cbn. eexists _, _, _. split; [reflexivity|]. rewrite Hdb. cbn.
    repeat split; try done. by rewrite <- !app_assoc.
Qed.

Lemma connect_keeps_console (up : bool) (uri dbName : option string) (w : World) :
  console_tells w -> console_tells (connectToDb up uri dbName w).2.
Proof.
  intros [k Hk]. unfold ConnectJs.connectToDb, new_MongoClient.
  destruct (truthy uri); [|by exists k]. destruct (truthy dbName); [|by exists k].
  cbn [negb]. destruct (db w) as [h|] eqn:Hdb.
  { exists k. cbn. by rewrite Hdb. }
  rewrite app_nil_r in Hk.
  destruct (is_connection_string _); cbn;
    [|exists k; cbn; by rewrite Hdb, app_nil_r].
  destruct up; cbn.
  - exists k. cbn. by rewrite <- app_assoc, !List.filter_app, Hk.
  - exists (S k). cbn. rewrite Hdb, app_nil_r, List.filter_app, Hk.
    symmetry. exact (replicate_S_end k Connecting).
Qed.

Lemma error_lines_filtered (errors : list LogLine) :
  Forall (fun l => is_error_line l = true) errors ->
  List.filter is_connect_line errors = [].
Proof.
  induction 1 as [|l errors Hl _ IH]; [done|]. cbn. rewrite IH. by destruct l.
Qed.

Lemma serve_keeps_console (m : Method) (r : Resource) (req : Request)
  (sys : Sys) (w : World) :
  console_tells w -> console_tells (serve m r req sys w).2.
Proof.
  intros [k Hk].
  destruct (serve_world currentYear StringToNumber ObjectToNumber is_url is_email
              m r req sys w) as (d & errors & -> & Herr & _).
  exists k. cbn. by rewrite List.filter_app, (error_lines_filtered _ Herr), app_nil_r.
Qed.

(** X20: the process connects at most once.  Starting silent and without
    a handle, after any calls of [connectToDb] and any requests, what
    connect.js has printed is a run of "connecting" lines followed,
    exactly when a handle is open, by one more "connecting" and the
    "connected" line that names the database of the handle: "connected"
    is printed at most once, and after it connect.js neither dials nor
    prints again. *)
Theorem connects_at_most_once (events : list Event) (w0 : World) :
  db w0 = None -> console w0 = [] ->
  exists dials : nat,
    List.filter is_connect_line (console (run events w0).2)
    = replicate dials Connecting
      ++ match db (run events w0).2 with
         | Some h => [Connecting; Connected (databaseName h)]
         | None => []
         end.
Proof.
  intros Hdb Hcon.
  assert (console_tells w0) as H0. { exists 0. by rewrite Hcon, Hdb. }
  clear Hdb Hcon. revert w0 H0.
  induction events as [|[up uri dbName|m r req sys] events IH]; intros w0 H0;
    cbn [App.run].
  - exact H0.
  - pose proof (connect_keeps_console up uri dbName w0 H0) as H1.
    destruct (connectToDb up uri dbName w0) as [[e|h] w1]; cbn [snd] in *;
      by apply IH.
  - apply IH. by apply serve_keeps_console.
Qed.

(** X21: server.js listens exactly when both variables are set, the
    driver can read MONGODB_URI and the connection goes through, and then
    in a world whose handle is the database of DB_NAME at MONGODB_URI,
    which every later [getDb] returns; in every other case it exits with
    code 1. *)
Theorem listens_only_when_connected (up : bool) (env : gmap string string)
  (w0 : World) :
  db w0 = None ->
  let ready :=
    truthy (env !! "MONGODB_URI") = true /\ truthy (env !! "DB_NAME") = true
    /\ is_connection_string (default "" (env !! "MONGODB_URI")) = true
    /\ up = true in
  let h := {| client_of := {| uri := default "" (env !! "MONGODB_URI") |};
              databaseName := default "" (env !! "DB_NAME") |} in
  (ready ->
   exists w, Startup.main is_connection_string up env w0 = Startup.Listening w
             /\ db w = Some h
             /\ forall events, getDb (run events w).2 = (inr h, (run events w).2))
  /\ (~ ready -> Startup.main is_connection_string up env w0 = Startup.Exited 1).
Proof.
  intros Hdb ready h. split.
  - intros (Hu & Hn & Hread & ->).
    unfold Startup.main, Startup.missing_env, Startup.start.
    cbn [existsb]. rewrite Hu, Hn. cbn [negb orb].
    unfold ConnectJs.connectToDb, new_MongoClient.
    rewrite Hu, Hn, Hread. cbn [negb]. rewrite Hdb. cbn.
    eexists. split; [reflexivity|]. split; [done|].
    intros events.
    match goal with
    | |- context [run events ?w] =>
        destruct (run_open currentYear StringToNumber ObjectToNumber is_url
                    is_email is_connection_string events w h eq_refl)
          as [Hopen _]
    end.
    unfold getDb. by rewrite Hopen.
  - intros Hnot. unfold Startup.main, Startup.missing_env, Startup.start.
    cbn [existsb]. destruct (truthy (env !! "MONGODB_URI")) eqn:Hu; [|done].
    destruct (truthy (env !! "DB_NAME")) eqn:Hn; [|done]. cbn [negb orb].
    unfold ConnectJs.connectToDb, new_MongoClient.
    rewrite Hu, Hn. cbn [negb]. rewrite Hdb.
    destruct (is_connection_string _) eqn:Hread; [|done].
    destruct up; [|done]. by destruct Hnot.
Qed.

(** X22: the role guard.  With the checks disabled or not configured it
    calls [next()] on every request.  Otherwise it does so exactly when
    the claims of the request hold, under the role claim, an array with
    the string "admin" in it; a request without claims, without that
    claim, or with a claim that is not an array is answered 403. *)
Theorem admin_guard (env : gmap string string)
  (payload : option (gmap string value)) (req : Request) :
  (Auth.AUTH_DISABLED env = true \/ Auth.hasAuthConfig env = false ->
   AuthRoles.requireAdmin env payload req = Passed req)
  /\ (Auth.AUTH_DISABLED env = false -> Auth.hasAuthConfig env = true ->
      let is_admin :=
        exists claims roles,
          payload = Some claims
          /\ claims !! AuthRoles.ROLE_CLAIM env = Some (VArr roles)
          /\ VStr "admin" ∈ roles in
      (is_admin -> AuthRoles.requireAdmin env payload req = Passed req)
      /\ (~ is_admin ->
          AuthRoles.requireAdmin env payload req
          = Answered (json 403 (Msg "Admin role required")))).
Proof.
  assert (forall roles, AuthRoles.includes "admin" roles = true
                        <-> VStr "admin" ∈ roles) as Hinc.
  { intros roles. unfold AuthRoles.includes. rewrite existsb_exists. split.
    - intros (x & Hin & Hx). destruct x; try discriminate.
      apply String.eqb_eq in Hx as ->. by apply list_elem_of_In.
    - intros Hin. exists (VStr "admin"). split; [by apply list_elem_of_In|done]. }
  split.
  - intros Hoff. unfold AuthRoles.requireAdmin.
    destruct Hoff as [-> | ->]; [done|]. by rewrite orb_true_r.
  - intros Hd Hc is_admin. unfold AuthRoles.requireAdmin. rewrite Hd, Hc.
    cbn [orb negb]. split.
    + intros (claims & roles & -> & Hclaim & Hadmin). unfold get.
      rewrite Hclaim. cbn [default from_option id]. cbv zeta.
      apply Hinc in Hadmin. by rewrite Hadmin.
    + intros Hnot.
      destruct payload as [claims|]; [|done]. unfold get.
      destruct (claims !! AuthRoles.ROLE_CLAIM env) as [[]|] eqn:Hclaim; try done.
      cbn [default from_option id]. cbv zeta.
      destruct (AuthRoles.includes "admin" items) eqn:E; [|done].
      destruct Hnot. exists claims, items. repeat split; [done|]. by apply Hinc.
Qed.

End Process.

(* ===================================================================== *)
(** * The answers of the routes *)
(* ===================================================================== *)

Section Answers.

Variable currentYear : float.
Variable StringToNumber : string -> float.
Variable ObjectToNumber : value -> float.
Variable is_url : string -> bool.
Variable is_email : string -> bool.

Variable auth : Auth.AuthOptions -> Middleware.
Variable requiredScopes : string -> Middleware.

Local Abbreviation schema := (schema currentYear StringToNumber ObjectToNumber is_url is_email).
Local Abbreviation serve := (serve currentYear StringToNumber ObjectToNumber is_url is_email).
Local Abbreviation route :=
  (route currentYear StringToNumber ObjectToNumber is_url is_email auth requiredScopes).

Lemma parseId_refusal (r : Resource) (id : string) (err : Exn) :
  parseId r id = inl err ->
  refusal (error_response err) /\ status (error_response err) = 400%Z.
Proof.
  destruct r; cbn; unfold Anime.parseId, Manga.parseId, Users.parseId,
    Watchlists.parseId; destruct (new_ObjectId id); intros [= <-];
    (split; [split; [done|by left]|done]).
Qed.

Lemma rejected_refusal (sch : ZodType) (data : value) (err : Exn) (w : World) :
  parse sch data = inl err -> refusal (rejected err w).1.
Proof.
  destruct err as [e|issues].
  - intros ->%parse_thrown. split; [done|]. right. by split.
  - intros _. split; [done|]. by left.
Qed.

Lemma not_initialized_refusal : refusal (error_response not_initialized).
Proof. split; [done|]. right. by split. Qed.

Lemma duplicate_refusal (id : ObjectId) (d : Database) (coll : string)
  (doc : Document) (e : Error) :
  insert_one id d coll doc = inl e -> refusal (error_response (Thrown e)).
Proof.
  unfold insert_one. destruct (_ !! _); [|done]. intros [= <-].
  split; [done|]. right. by split.
Qed.

(** Every answer of a handler is a refusal, the 415 of a write that is
    not JSON, a 404 without a Location, or the success of its method. *)
Lemma serve_answer (m : Method) (r : Resource) (req : Request) (sys : Sys)
  (w : World) :
  let a := (serve m r req sys w).1 in
  refusal a
  \/ (a = unsupported /\ (m = POST \/ m = PUT))
  \/ (a = not_found /\ (m = GET \/ m = PUT \/ m = DELETE))
  \/ (location a = None /\ status a = 200%Z /\ (m = GET_ALL \/ m = GET))
  \/ (location a = Some ("/" +:+ collection_name r +:+ "/" +:+ fresh sys)
      /\ status a = 201%Z /\ sent a = NewId (fresh sys) /\ m = POST)
  \/ (a = json 204 Empty /\ (m = PUT \/ m = DELETE)).
Proof.
  cbv zeta. destruct m.
  - rewrite serve_get_all. destruct (db w); cbn [fst snd].
    + right. right. right. left. auto.
    + left. apply not_initialized_refusal.
  - rewrite serve_get. unfold generic_get.
    destruct (parseId r _) as [err|oid] eqn:Hid; cbn [fst snd].
    { left. exact (proj1 (parseId_refusal r _ err Hid)). }
    destruct (db w); [|left; apply not_initialized_refusal].
    destruct (find_one _ _ _); cbn [fst snd].
    + right. right. right. left. auto.
    + right. right. left. auto.
  - rewrite serve_post. unfold App.generic_post.
    destruct (negb _); [right; left; auto|].
    destruct (parse _ _) as [err|parsed] eqn:Hp; cbn [fst snd].
    { left. by apply (rejected_refusal _ _ _ _ Hp). }
    destruct (db w); [|left; apply not_initialized_refusal].
    destruct (insert_one _ _ _ _) as [e|[res d']] eqn:Hins; cbn [fst snd].
    { left. by apply (duplicate_refusal _ _ _ _ _ Hins). }
    right. right. right. right. left.
    unfold insert_one in Hins. destruct (_ !! _); [done|].
    injection Hins as <- _. auto.
  - rewrite serve_put. unfold App.generic_put.
    destruct (negb _); [right; left; auto|].
    destruct (parseId r _) as [err|oid] eqn:Hid; cbn [fst snd].
    { left. exact (proj1 (parseId_refusal r _ err Hid)). }
    destruct (parse _ _) as [err|parsed] eqn:Hp; cbn [fst snd].
    { left. by apply (rejected_refusal _ _ _ _ Hp). }
    destruct (db w); [|left; apply not_initialized_refusal].
    cbn [fst snd]. destruct (_ =? _)%nat.
    + right. right. left. auto.
    + do 5 right. auto.
  - rewrite serve_delete. unfold generic_delete.
    destruct (parseId r _) as [err|oid] eqn:Hid; cbn [fst snd].
    { left. exact (proj1 (parseId_refusal r _ err Hid)). }
    destruct (db w); [|left; apply not_initialized_refusal].
    cbn [fst snd]. destruct (_ =? _)%nat.
    + right. right. left. auto.
    + do 5 right. auto.
Qed.


(** The guards come first: a write is stopped by one of them, or passes
    both and is served as they hand it on. *)
Lemma guards_first (env : gmap string string) (m : Method) (r : Resource)
  (req : Request) (sys : Sys) (w : World) :
  m = POST \/ m = PUT \/ m = DELETE ->
  (exists stop : Outcome,
      (Auth.jwtCheck auth env req = stop
       \/ exists req1, Auth.jwtCheck auth env req = Passed req1
                       /\ Auth.needWrite requiredScopes env req1 = stop)
      /\ match stop with
         | Answered res => route env m r req sys w = (res, w)
         | Failed err => route env m r req sys w = failed err w
         | Passed _ => False
         end)
  \/ (exists req2,
        (exists req1, Auth.jwtCheck auth env req = Passed req1
                      /\ Auth.needWrite requiredScopes env req1 = Passed req2)
        /\ route env m r req sys w = serve m r req2 sys w).
Proof.
  intros Hm.
  assert (route env m r req sys w
          = match Auth.jwtCheck auth env req with
            | Answered res => (res, w)
            | Failed err => failed err w
            | Passed req1 =>
                match Auth.needWrite requiredScopes env req1 with
                | Answered res => (res, w)
                | Failed err => failed err w
                | Passed req2 => serve m r req2 sys w
                end
            end) as Hroute.
  { by destruct Hm as [->|[->| ->]]. }
  destruct (Auth.jwtCheck auth env req) as [res|req1|err] eqn:Hjwt.
  - left. exists (Answered res). split; [by left|done].
  - destruct (Auth.needWrite requiredScopes env req1) as [res|req2|err] eqn:Hscope.
    + left. exists (Answered res). split; [|done]. right. by exists req1.
    + right. exists req2. split; [|done]. by exists req1.
    + left. exists (Failed err). split; [|done]. right. by exists req1.
  - left. exists (Failed err). split; [by left|done].
Qed.


(** X25: the Location header goes out with a 201 and with nothing else,
    and then names the created record under its collection. *)
Theorem location_only_on_create (m : Method) (r : Resource) (req : Request)
  (sys : Sys) (w : World) :
  (location (serve m r req sys w).1 = None
   /\ status (serve m r req sys w).1 <> 201%Z)
  \/ (m = POST
      /\ status (serve m r req sys w).1 = 201%Z
      /\ location (serve m r req sys w).1
         = Some ("/" +:+ collection_name r +:+ "/" +:+ fresh sys)
      /\ sent (serve m r req sys w).1 = NewId (fresh sys)).
Proof.
  pose proof (serve_answer m r req sys w) as H. cbv zeta in H.
  destruct H
    as [[Hl [H|[H _]]]|[[H Hm]|[[H Hm]|[(Hl & H & Hm)|[(Hl & H & Hs & Hm)|[H Hm]]]]]].
  - left. split; [done|]. by rewrite H.
  - left. split; [done|]. by rewrite H.
  - left. by rewrite H.
  - left. by rewrite H.
  - left. split; [done|]. by rewrite H.
  - right. by repeat split.
  - left. by rewrite H.
Qed.

(** X26: a write that does not pass both guards is answered by the guard
    that stopped it and changes nothing, or, when the guard calls
    [next(err)], by the error handler, which prints the error and
    changes nothing else: the handler is not run, so nothing is
    validated, stored or deleted.  Whatever the guards do, no request
    that they stop and no read changes the stored data, the client or
    the handle. *)
Theorem unauthorized_write_changes_nothing (env : gmap string string)
  (m : Method) (r : Resource) (req : Request) (sys : Sys) (w : World) :
  ~ (exists req1 req2,
       Auth.jwtCheck auth env req = Passed req1
       /\ Auth.needWrite requiredScopes env req1 = Passed req2) ->
  (data (route env m r req sys w).2 = data w
   /\ db (route env m r req sys w).2 = db w
   /\ client (route env m r req sys w).2 = client w)
  /\ (m = POST \/ m = PUT \/ m = DELETE ->
      exists stop : Outcome,
        (Auth.jwtCheck auth env req = stop
         \/ exists req1, Auth.jwtCheck auth env req = Passed req1
                         /\ Auth.needWrite requiredScopes env req1 = stop)
        /\ match stop with
           | Answered res => route env m r req sys w = (res, w)
           | Failed err => route env m r req sys w = failed err w
           | Passed _ => False
           end).
Proof.
  intros Hstop.
  assert (m = POST \/ m = PUT \/ m = DELETE ->
          exists stop : Outcome,
            (Auth.jwtCheck auth env req = stop
             \/ exists req1, Auth.jwtCheck auth env req = Passed req1
                             /\ Auth.needWrite requiredScopes env req1 = stop)
            /\ match stop with
               | Answered res => route env m r req sys w = (res, w)
               | Failed err => route env m r req sys w = failed err w
               | Passed _ => False
               end) as Hwrite.
  { intros Hm.
    destruct (guards_first env m r req sys w Hm) as [H|(req2 & Hpass & _)]; [done|].
    destruct Hstop. destruct Hpass as (req1 & Hjwt & Hscope). by exists req1, req2. }
  split; [|exact Hwrite].
  assert (forall m', m' = GET_ALL \/ m' = GET ->
            data (serve m' r req sys w).2 = data w
            /\ db (serve m' r req sys w).2 = db w
            /\ client (serve m' r req sys w).2 = client w) as Hread.
  { intros m' Hm.
    by destruct (serve_reads currentYear StringToNumber ObjectToNumber is_url
                   is_email m' r req sys w Hm) as [->|[err ->]]. }
  assert (m = GET_ALL \/ m = GET \/ (m = POST \/ m = PUT \/ m = DELETE))
    as [->|[->|Hm]] by (destruct m; auto).
  - apply Hread. auto.
  - apply Hread. auto.
  - destruct (Hwrite Hm) as ([res|req'|err] & _ & Hroute); [|done|];
      by rewrite Hroute.
Qed.

End Answers.

(* ===================================================================== *)
(** * The further properties on the sample requests *)
(* ===================================================================== *)

Lemma other_collections_untouched_witness :
  collection_of
    (data (Sample.serve POST manga (Sample.json_request "" (VObj Sample.one_piece))
             Sample.at_2000 Fixtures.with_bebop).2) "anime"
  = collection_of (data Fixtures.with_bebop) "anime".
Proof.
  apply (proj1 (other_collections_untouched Sample.year Sample.StringToNumber
                  Sample.ObjectToNumber Sample.is_url Sample.is_email POST manga
                  (Sample.json_request "" (VObj Sample.one_piece)) Sample.at_2000
                  Fixtures.with_bebop)).
  vm_compute. discriminate.
Defined.

Lemma other_documents_untouched_witness :
  find_one
    (data (Sample.serve POST anime (Sample.json_request "" (VObj Sample.cowboy_bebop))
             Sample.at_2000 Fixtures.with_bebop).2) "anime" Sample.id1
  = find_one (data Fixtures.with_bebop) "anime" Sample.id1.
Proof.
  apply (other_documents_untouched Sample.year Sample.StringToNumber
           Sample.ObjectToNumber Sample.is_url Sample.is_email POST anime
           (Sample.json_request "" (VObj Sample.cowboy_bebop)) Sample.at_2000
           Fixtures.with_bebop Sample.id1).
  - intros _. vm_compute. discriminate.
  - intros [E|E]; discriminate E.
Defined.

Lemma answer_depends_on_own_collection_witness :
  (Sample.serve GET_ALL anime (Fixtures.get_req "") Sample.at_2000 Sample.started).1
  = (Sample.serve GET_ALL anime (Fixtures.get_req "") Sample.at_2000
       (Sample.created manga Sample.one_piece)).1.
Proof.
  apply (answer_depends_on_own_collection Sample.year Sample.StringToNumber
           Sample.ObjectToNumber Sample.is_url Sample.is_email GET_ALL anime
           (Fixtures.get_req "") Sample.at_2000 Sample.started
           (Sample.created manga Sample.one_piece)).
  - vm_compute. reflexivity.
  - vm_compute. reflexivity.
Defined.

Lemma absent_id_is_404_witness :
  Sample.serve GET anime (Fixtures.get_req Fixtures.id2) Sample.at_2000
    Fixtures.with_bebop
  = (json 404 (Msg "Not found"), Fixtures.with_bebop).
Proof.
  apply (absent_id_is_404 Sample.year Sample.StringToNumber Sample.ObjectToNumber
           Sample.is_url Sample.is_email anime (Fixtures.get_req Fixtures.id2)
           Sample.at_2000 Fixtures.with_bebop Sample.library Fixtures.id2).
  - vm_compute. reflexivity.
  - vm_compute. reflexivity.
  - vm_compute. reflexivity.
Defined.

Lemma delete_then_gone_witness :
  exists w' : World,
    Sample.serve DELETE anime (Fixtures.get_req Sample.id1) Sample.at_2000
      Fixtures.with_bebop = (json 204 Empty, w')
    /\ Sample.serve GET anime (Fixtures.get_req Sample.id1) Sample.at_2000 w'
       = (json 404 (Msg "Not found"), w').
Proof.
  edestruct (delete_then_gone Sample.year Sample.StringToNumber
               Sample.ObjectToNumber Sample.is_url Sample.is_email anime
               (Fixtures.get_req Sample.id1) Sample.at_2000 Sample.at_2000
               Fixtures.with_bebop Sample.library Sample.id1)
    as (w' & Hdel & _ & _ & Hget).
  - vm_compute. reflexivity.
  - vm_compute. reflexivity.
  - vm_compute. reflexivity.
  - exists w'. split; [exact Hdel|exact Hget].
Defined.

Lemma create_then_get_witness :
  exists (w' : World) (doc : gmap string value),
    Sample.serve POST anime (Sample.json_request "" (VObj Sample.cowboy_bebop))
      Sample.at_1000 Sample.started
    = (json_at 201 "/anime/665f6a0f2c3d4b1a9f0a1234" (NewId Sample.id1), w')
    /\ Sample.serve GET anime (Fixtures.get_req Sample.id1) Sample.at_2000 w'
       = (json 200 (Doc Sample.id1 doc), w').
Proof.
  edestruct (create_then_get Sample.year Sample.StringToNumber
               Sample.ObjectToNumber Sample.is_url Sample.is_email anime
               (Sample.json_request "" (VObj Sample.cowboy_bebop))
               (Fixtures.get_req Sample.id1) Sample.at_1000 Sample.at_2000
               Sample.started Sample.library)
    as (w' & Hpost & Hget).
  - reflexivity.
  - vm_compute. reflexivity.
  - reflexivity.
  - vm_compute. reflexivity.
  - vm_compute. reflexivity.
  - reflexivity.
  - exists w'. eexists. split; [exact Hpost|exact Hget].
Defined.

Lemma replace_then_get_witness :
  exists (w' : World) (doc : gmap string value),
    Sample.serve PUT anime (Sample.json_request Sample.id1 (VObj Fixtures.full_anime))
      Sample.at_2000 Fixtures.with_bebop = (json 204 Empty, w')
    /\ Sample.serve GET anime
         (Sample.json_request Sample.id1 (VObj Fixtures.full_anime)) Sample.at_2000 w'
       = (json 200 (Doc Sample.id1 doc), w').
Proof.
  edestruct (replace_then_get Sample.year Sample.StringToNumber
               Sample.ObjectToNumber Sample.is_url Sample.is_email anime
               (Sample.json_request Sample.id1 (VObj Fixtures.full_anime))
               Sample.at_2000 Sample.at_2000 Fixtures.with_bebop Sample.library
               Sample.id1)
    as (w' & Hput & Hget).
  - reflexivity.
  - vm_compute. reflexivity.
  - vm_compute. reflexivity.
  - vm_compute. reflexivity.
  - vm_compute. reflexivity.
  - exists w'. eexists. split; [exact Hput|exact Hget].
Defined.

Lemma uninitialized_db_is_500_witness :
  Sample.serve GET_ALL anime (Fixtures.get_req "") Sample.at_1000 Sample.cold
  = (json 500 (Msg "Internal Server Error"),
     logged (Thrown (new_Error "DB not initialized. Call connectToDb first."))
       Sample.cold).
Proof.
  pose proof (uninitialized_db_is_500 Sample.year Sample.StringToNumber
                Sample.ObjectToNumber Sample.is_url Sample.is_email anime
                (Fixtures.get_req "") Sample.at_1000 Sample.cold eq_refl) as H.
  exact (proj1 H).
Defined.

Lemma array_body_is_400_witness :
  Sample.serve POST anime
    (Sample.json_request "" (VArr [VObj Sample.cowboy_bebop])) Sample.at_1000
    Sample.started
  = (json 400 (Invalid "Validation error"
                 {| formErrors := [issue invalid_type]; fieldErrors := ∅ |}),
     Sample.started).
Proof.
  pose proof (array_body_is_400 Sample.year Sample.StringToNumber
                Sample.ObjectToNumber Sample.is_url Sample.is_email anime
                (Sample.json_request "" (VArr [VObj Sample.cowboy_bebop]))
                Sample.at_1000 Sample.started [VObj Sample.cowboy_bebop]
                eq_refl eq_refl) as H.
  exact (proj1 H).
Defined.

Lemma list_returns_every_record_once_witness :
  exists docs : list (string * gmap string value),
    Sample.serve GET_ALL anime (Fixtures.get_req "") Sample.at_2000
      Fixtures.with_bebop = (json 200 (Docs docs), Fixtures.with_bebop)
    /\ NoDup docs.*1
    /\ (Sample.id1, Sample.stored Fixtures.with_bebop anime) ∈ docs.
Proof.
  destruct (list_returns_every_record_once Sample.year Sample.StringToNumber
              Sample.ObjectToNumber Sample.is_url Sample.is_email anime
              (Fixtures.get_req "") Sample.at_2000 Fixtures.with_bebop
              Sample.library ltac:(vm_compute; reflexivity))
    as (docs & Hget & Hnd & Hall).
  exists docs. split; [exact Hget|]. split; [exact Hnd|].
  apply Hall. vm_compute. reflexivity.
Defined.

Lemma ids_ignore_case_witness :
  Sample.serve GET anime (Fixtures.get_req "665F6A0F2C3D4B1A9F0A1234")
    Sample.at_2000 Fixtures.with_bebop
  = Sample.serve GET anime (Fixtures.get_req Sample.id1) Sample.at_2000
      Fixtures.with_bebop.
Proof.
  apply (ids_ignore_case Sample.year Sample.StringToNumber Sample.ObjectToNumber
           Sample.is_url Sample.is_email GET anime
           (Fixtures.get_req "665F6A0F2C3D4B1A9F0A1234")
           (Fixtures.get_req Sample.id1) Sample.at_2000 Fixtures.with_bebop).
  - vm_compute. reflexivity.
  - reflexivity.
  - vm_compute. reflexivity.
Defined.

Lemma title_and_genres_are_trimmed_witness :
  exists (v : value) (title : string),
    parse (Sample.schema anime) (VObj Fixtures.full_anime) = inr v
    /\ spread v !! "title" = Some (VStr (trim title))
    /\ trim title <> "".
Proof.
  edestruct (title_and_genres_are_trimmed Sample.year Sample.StringToNumber
               Sample.ObjectToNumber Sample.is_url Sample.is_email anime
               (VObj Fixtures.full_anime))
    as (props & title & items & genres & _ & _ & Htitle & Hne & _).
  - left. reflexivity.
  - vm_compute. reflexivity.
  - eexists. exists title. split; [vm_compute; reflexivity|].
    split; [exact Htitle|exact Hne].
Defined.




Lemma user_is_well_formed_witness :
  exists (v : value) (role : string),
    parse (Sample.schema users) (VObj Fixtures.full_user) = inr v
    /\ spread v !! "role" = Some (VStr role)
    /\ role ∈ ["user"; "admin"].
Proof.
  edestruct (user_is_well_formed Sample.year Sample.StringToNumber
               Sample.ObjectToNumber Sample.is_url Sample.is_email
               (VObj Fixtures.full_user))
    as (props & email & name & role & _ & _ & _ & _ & _ & _ & _ & Hrole & Hin).
  - vm_compute. reflexivity.
  - eexists. exists role. split; [vm_compute; reflexivity|].
    split; [exact Hrole|exact Hin].
Defined.

Lemma failed_connect_can_be_retried_witness :
  (exists (e : Exn) (w2 : World),
      connectToDb Sample.is_connection_string true (Some "localhost:27017")
        (Some "library") Sample.cold
      = (inl e, Sample.cold)
      /\ connectToDb Sample.is_connection_string true
           (Some "mongodb://localhost") (Some "library") Sample.cold
         = (inr Sample.library, w2)
      /\ console w2 = [Connecting; Connected "library"])
  /\ (exists (e : Exn) (w1 w2 : World),
        connectToDb Sample.is_connection_string false
          (Some "mongodb://localhost") (Some "library") Sample.cold
        = (inl e, w1)
        /\ console w1 = [Connecting]
        /\ connectToDb Sample.is_connection_string true
             (Some "mongodb://localhost") (Some "library") w1
           = (inr Sample.library, w2)
        /\ getDb w2 = (inr Sample.library, w2)).
Proof.
  split.
  - destruct (failed_connect_can_be_retried Sample.is_connection_string true
                (Some "localhost:27017") (Some "library")
                (Some "mongodb://localhost") (Some "library") Sample.cold
                eq_refl eq_refl eq_refl eq_refl eq_refl eq_refl eq_refl)
      as (e & w1 & w2 & Hfail & _ & _ & Hsame & _ & Hagain & _ & Hcon).
    rewrite (Hsame eq_refl) in Hfail, Hagain, Hcon.
    exists e, w2. split; [exact Hfail|]. split; [exact Hagain|exact Hcon].
  - destruct (failed_connect_can_be_retried Sample.is_connection_string false
                (Some "mongodb://localhost") (Some "library")
                (Some "mongodb://localhost") (Some "library") Sample.cold
                eq_refl eq_refl eq_refl eq_refl eq_refl eq_refl eq_refl)
      as (e & w1 & w2 & Hfail & _ & _ & _ & Hdial & Hagain & Hget & _).
    exists e, w1, w2. split; [exact Hfail|]. split; [exact (proj2 (Hdial eq_refl))|].
    split; [exact Hagain|exact Hget].
Defined.

Lemma connects_at_most_once_witness :
  exists dials : nat,
    List.filter is_connect_line
      (console
         (Sample.run
            [Connect true (Some "localhost:27017") (Some "library");
             Serve GET_ALL anime (Fixtures.get_req "") Sample.at_1000;
             Connect false (Some "mongodb://localhost") (Some "library");
             Connect true (Some "mongodb://localhost") (Some "library");
             Serve GET anime (Fixtures.get_req "not-an-id") Sample.at_1000;
             Connect true (Some "mongodb://other") (Some "elsewhere")]
            Sample.cold).2)
    = replicate dials Connecting ++ [Connecting; Connected "library"].
Proof.
  exact (connects_at_most_once Sample.year Sample.StringToNumber
           Sample.ObjectToNumber Sample.is_url Sample.is_email
           Sample.is_connection_string
           [Connect true (Some "localhost:27017") (Some "library");
            Serve GET_ALL anime (Fixtures.get_req "") Sample.at_1000;
            Connect false (Some "mongodb://localhost") (Some "library");
            Connect true (Some "mongodb://localhost") (Some "library");
            Serve GET anime (Fixtures.get_req "not-an-id") Sample.at_1000;
            Connect true (Some "mongodb://other") (Some "elsewhere")]
           Sample.cold eq_refl eq_refl).
Defined.

Lemma listens_only_when_connected_witness :
  (exists w : World,
      Startup.main Sample.is_connection_string true Fixtures.production
        Sample.cold = Startup.Listening w
      /\ db w = Some Sample.library)
  /\ Startup.main Sample.is_connection_string true
       (<["MONGODB_URI" := "localhost:27017"]> Fixtures.production) Sample.cold
     = Startup.Exited 1.
Proof.
  split.
  - pose proof (listens_only_when_connected Sample.year Sample.StringToNumber
                  Sample.ObjectToNumber Sample.is_url Sample.is_email
                  Sample.is_connection_string true
                  Fixtures.production Sample.cold eq_refl) as H.
    cbv zeta in H. destruct H as [Hready _].
    destruct Hready as (w & Hmain & Hdb & _).
    + repeat split; vm_compute; reflexivity.
    + exists w. split; [exact Hmain|exact Hdb].
  - pose proof (listens_only_when_connected Sample.year Sample.StringToNumber
                  Sample.ObjectToNumber Sample.is_url Sample.is_email
                  Sample.is_connection_string true
                  (<["MONGODB_URI" := "localhost:27017"]> Fixtures.production)
                  Sample.cold eq_refl) as H.
    cbv zeta in H. destruct H as [_ Hexit]. apply Hexit.
    intros (_ & _ & Hread & _). vm_compute in Hread. discriminate Hread.
Defined.

Lemma admin_guard_witness :
  AuthRoles.requireAdmin Fixtures.production (Some Fixtures.admin_claims)
    (Fixtures.get_req Sample.id1)
  = Passed (Fixtures.get_req Sample.id1).
Proof.
  pose proof (admin_guard Fixtures.production (Some Fixtures.admin_claims)
                (Fixtures.get_req Sample.id1)) as H.
  cbv zeta in H. destruct H as [_ H].
  apply H.
  - vm_compute. reflexivity.
  - vm_compute. reflexivity.
  - exists Fixtures.admin_claims, [VStr "editor"; VStr "admin"].
    split; [reflexivity|]. split; [vm_compute; reflexivity|].
    apply list_elem_of_further, list_elem_of_here.
Defined.


Lemma unauthorized_write_changes_nothing_witness :
  Sample.route Fixtures.production POST anime
    (Sample.json_request "" (VObj Sample.cowboy_bebop)) Sample.at_1000
    Sample.started
  = (json 401 (Msg "Internal Server Error"),
     logged Sample.unauthorized Sample.started).
Proof.
  destruct (unauthorized_write_changes_nothing Sample.year Sample.StringToNumber
              Sample.ObjectToNumber Sample.is_url Sample.is_email Sample.auth
              Sample.requiredScopes Fixtures.production POST anime
              (Sample.json_request "" (VObj Sample.cowboy_bebop)) Sample.at_1000
              Sample.started) as [_ Hwrite].
  - intros (req1 & req2 & Hjwt & _). vm_compute in Hjwt. discriminate Hjwt.
  - destruct (Hwrite (or_introl eq_refl))
      as (stop & [Hjwt|(req1 & Hjwt & _)] & Hroute).
    + vm_compute in Hjwt. subst stop. exact Hroute.
    + vm_compute in Hjwt. discriminate Hjwt.
Defined.
